(** * Secure document processing service: audit and integrity properties

    A shallow embedding of the Flask application (models.py,
    utils/helpers.py, routes/auth.py, routes/documents.py,
    routes/processing.py, routes/analysis.py, routes/main.py) and the
    proofs of its integrity, audit-trail, password and redaction
    properties.

    Conventions of the embedding.
    - A Python [str] is a [string]; its characters are the code points
      below 256.  The regular-expression classes [\d], [\w] and [\s] are
      the ones Python's [re] uses for [str] patterns on that range.
    - File contents are [list byte].
    - Database tables are lists of rows in insertion order; [first()]
      returns the first row of the table that passes the filter; a new
      primary key is one more than the largest key of the table.
    - The database and the file system are reliable: a file write, a
      file removal or a commit does not raise, but for the one commit
      that breaks a constraint of models.py: the deletion of a document
      that summary, redaction or timeline rows refer to.  The body of
      [log_audit_event] never enters its [except] branch.
    - An exception is the text it carries.  The exceptions of the model
      are those of the library calls that can fail on well-typed input
      ([json.loads] on the stored tags, the text decoders, [re] on a
      caller-supplied pattern), the [NameError] of routes/analysis.py,
      the [RequestEntityTooLarge] of a request body over
      [MAX_CONTENT_LENGTH] and the [IntegrityError] of that deletion.
    - Request bodies are JSON objects whose fields, when present, have
      the type the endpoint expects, and they are within
      [MAX_CONTENT_LENGTH]; the body of an upload is a form with a file,
      of the length the request context gives.
    - An endpoint reads the clock once per request; [log_audit_event]
      reads it anew for each row it writes.
    - The decorators [@jwt_required()] and [@limiter.limit(...)] belong
      to the framework: a request they turn away never enters the
      endpoint body.  An operation of the system is the execution of one
      endpoint body with the identity the token carries. *)

From Stdlib Require Import Strings.String Strings.Ascii Strings.Byte.
From Stdlib Require Import List Bool ZArith Lia Arith QArith DecimalString.
From Stdlib Require Import Sorted.
Import ListNotations.
Local Open Scope string_scope.
Local Open Scope Z_scope.

Set Implicit Arguments.

(** ** Python strings *)

Module PyStr.

Definition code (c : ascii) : nat := nat_of_ascii c.

Definition in_range (lo hi : nat) (c : ascii) : bool :=
  (Nat.leb lo (code c) && Nat.leb (code c) hi)%bool.

Fixpoint any (p : ascii -> bool) (s : string) : bool :=
  match s with
  | EmptyString => false
  | String c s' => (p c || any p s')%bool
  end.

Fixpoint all (p : ascii -> bool) (s : string) : bool :=
  match s with
  | EmptyString => true
  | String c s' => (p c && all p s')%bool
  end.

Fixpoint map (f : ascii -> ascii) (s : string) : string :=
  match s with
  | EmptyString => EmptyString
  | String c s' => String (f c) (map f s')
  end.

(** [c in chars] for a one-character [c]. *)
Definition mem (chars : string) (c : ascii) : bool :=
  any (Ascii.eqb c) chars.

(** [bool(s)]: the empty string is falsy. *)
Definition truthy (s : string) : bool :=
  match s with EmptyString => false | _ => true end.

(** [str.lower()] on code points below 256. *)
Definition lower_char (c : ascii) : ascii :=
  if (in_range 65 90 c || in_range 192 214 c || in_range 216 222 c)%bool
  then ascii_of_nat (code c + 32) else c.

Definition lower (s : string) : string := map lower_char s.

Fixpoint rev_acc (s acc : string) : string :=
  match s with
  | EmptyString => acc
  | String c s' => rev_acc s' (String c acc)
  end.

Definition rev (s : string) : string := rev_acc s EmptyString.

(** [s.endswith(suffix)] *)
Definition endswith (s suffix : string) : bool :=
  String.prefix (rev suffix) (rev s).

(** [s[:n]] for a natural [n]. *)
Definition take (n : nat) (s : string) : string := String.substring 0 n s.

(** [s[:n]] for a Python integer [n]: a negative bound counts from the
    end. *)
Definition slice_to (n : Z) (s : string) : string :=
  if n <? 0 then take (Z.to_nat (Z.of_nat (String.length s) + n)) s
  else take (Z.to_nat n) s.

(** The part after the last occurrence of [sep], when there is one:
    [s.rsplit(sep, 1)[1]] and [s.split(sep)[-1]] for a [s] containing
    [sep]. *)
Fixpoint after_last (sep : ascii) (s : string) : option string :=
  match s with
  | EmptyString => None
  | String c s' =>
      match after_last sep s' with
      | Some t => Some t
      | None => if Ascii.eqb c sep then Some s' else None
      end
  end.

End PyStr.

(** ** Character classes of the regular expressions *)

Module Cls.
Import PyStr.

(** [[A-Z]] *)
Definition upper (c : ascii) : bool := in_range 65 90 c.
(** [[a-z]] *)
Definition lower (c : ascii) : bool := in_range 97 122 c.
(** [\d] *)
Definition digit (c : ascii) : bool := in_range 48 57 c.
(** The class of the fifth test: the characters [!@#$%^&*(),.?:{}|<>]
    and the double quote (code 34). *)
Definition special (c : ascii) : bool :=
  (mem "!@#$%^&*(),.?:{}|<>" c || Ascii.eqb c (ascii_of_nat 34))%bool.
(** [\w] *)
Definition word (c : ascii) : bool :=
  (in_range 48 57 c || in_range 65 90 c || in_range 95 95 c
   || in_range 97 122 c || in_range 170 170 c || in_range 178 179 c
   || in_range 181 181 c || in_range 185 186 c || in_range 188 190 c
   || in_range 192 214 c || in_range 216 246 c || in_range 248 255 c)%bool.
(** [\s] *)
Definition space (c : ascii) : bool :=
  (in_range 9 13 c || in_range 28 32 c || in_range 133 133 c
   || in_range 160 160 c)%bool.
(** [[-.]] *)
Definition dash_dot (c : ascii) : bool := mem "-." c.
(** [[-\s]] *)
Definition dash_space (c : ascii) : bool := (Ascii.eqb c "-" || space c)%bool.
(** [[A-Za-z0-9._%+-]] *)
Definition email_local (c : ascii) : bool :=
  (upper c || lower c || digit c || mem "._%+-" c)%bool.
(** [[A-Za-z0-9.-]] *)
Definition email_domain (c : ascii) : bool :=
  (upper c || lower c || digit c || mem ".-" c)%bool.
(** [[A-Z|a-z]]: inside a class the bar is a literal. *)
Definition email_tld (c : ascii) : bool :=
  (upper c || lower c || Ascii.eqb c "|")%bool.
(** A literal character. *)
Definition chr (x : ascii) (c : ascii) : bool := Ascii.eqb c x.

End Cls.

(** ** utils/helpers.py: validate_password_strength *)

(** [re.search] of a one-character class succeeds when some character
    of the subject is in the class. *)
Definition re_search_class (cls : ascii -> bool) (s : string) : bool :=
  PyStr.any cls s.

Definition validate_password_strength (password : string) : bool :=
  if (String.length password <? 8)%nat then false
  else if negb (re_search_class Cls.upper password) then false
  else if negb (re_search_class Cls.lower password) then false
  else if negb (re_search_class Cls.digit password) then false
  else if negb (re_search_class Cls.special password) then false
  else true.

(** ** The regular expressions of utils/helpers.py

    The four built-in patterns use literal characters, character
    classes, [\b], an optional class and a greedy repetition of a class.
    [run] is the backtracking matcher of [re] on that fragment: it tries
    the alternatives of a greedy quantifier longest first and returns the
    first way of matching that lets the rest of the pattern match. *)

Module Re.

Inductive regex : Type :=
| Chr (cls : ascii -> bool)
| Bnd
| Cat (r1 r2 : regex)
| Opt (cls : ascii -> bool)
| Many (min : nat) (cls : ascii -> bool).

(** [cls{n}] *)
Fixpoint Times (n : nat) (cls : ascii -> bool) (r : regex) : regex :=
  match n with
  | O => r
  | S n' => Cat (Chr cls) (Times n' cls r)
  end.

(** A position in the subject: the character before it, the text from
    it on, and its offset. *)
Record cursor : Type := Cursor {
  prev : option ascii;
  rest : string;
  pos : nat
}.

Definition is_word (o : option ascii) : bool :=
  match o with Some c => Cls.word c | None => false end.

Definition next (c : cursor) : option ascii :=
  match rest c with String a _ => Some a | EmptyString => None end.

(** [\b]: exactly one side is a word character. *)
Definition at_boundary (c : cursor) : bool :=
  xorb (is_word (prev c)) (is_word (next c)).

Fixpoint many (cls : ascii -> bool) (min : nat)
    (k : cursor -> option cursor) (p : option ascii) (s : string) (i : nat)
    : option cursor :=
  let stop := match min with O => k (Cursor p s i) | S _ => None end in
  match s with
  | String a s' =>
      if cls a then
        match many cls (Nat.pred min) k (Some a) s' (S i) with
        | Some e => Some e
        | None => stop
        end
      else stop
  | EmptyString => stop
  end.

Fixpoint run (r : regex) (k : cursor -> option cursor) (c : cursor)
    : option cursor :=
  match r with
  | Chr cls =>
      match rest c with
      | String a s' => if cls a then k (Cursor (Some a) s' (S (pos c))) else None
      | EmptyString => None
      end
  | Bnd => if at_boundary c then k c else None
  | Cat r1 r2 => run r1 (run r2 k) c
  | Opt cls =>
      match rest c with
      | String a s' =>
          if cls a then
            match k (Cursor (Some a) s' (S (pos c))) with
            | Some e => Some e
            | None => k c
            end
          else k c
      | EmptyString => k c
      end
  | Many min cls => many cls min k (prev c) (rest c) (pos c)
  end.

(** The match of [r] that starts at [c], when there is one. *)
Definition match_at (r : regex) (c : cursor) : option cursor :=
  run r Some c.

(** A match object: [start()], [end()] and [group()]. *)
Record Match : Type := MkMatch {
  m_start : nat;
  m_end : nat;
  m_group : string
}.

(** [re.finditer]: the matches from left to right, without overlap.
    [skip] counts the characters of the last match still to pass. *)
Fixpoint scan (r : regex) (skip : nat) (p : option ascii) (s : string)
    (i : nat) : list Match :=
  match s with
  | EmptyString =>
      match skip with
      | O =>
          match match_at r (Cursor p s i) with
          | Some e => [MkMatch i (pos e) EmptyString]
          | None => []
          end
      | S _ => []
      end
  | String a s' =>
      match skip with
      | S n => scan r n (Some a) s' (S i)
      | O =>
          match match_at r (Cursor p s i) with
          | Some e =>
              MkMatch i (pos e) (PyStr.take (pos e - i) s)
                :: scan r (pos e - i - 1) (Some a) s' (S i)
          | None => scan r 0 (Some a) s' (S i)
          end
      end
  end.

Definition finditer (r : regex) (s : string) : list Match :=
  scan r 0 None s 0.

End Re.

(** [str.replace(old, new)] for a non-empty [old]: every occurrence,
    from left to right, without overlap. *)
Fixpoint replace_go (old new : string) (skip : nat) (s : string) : string :=
  match s with
  | EmptyString => EmptyString
  | String c s' =>
      match skip with
      | S n => replace_go old new n s'
      | O =>
          if String.prefix old s
          then new ++ replace_go old new (String.length old - 1) s'
          else String c (replace_go old new 0 s')
      end
  end.

(** With an empty [old], Python puts [new] before every character and
    at the end. *)
Fixpoint interleave (new s : string) : string :=
  match s with
  | EmptyString => new
  | String c s' => new ++ String c (interleave new s')
  end.

Definition str_replace (s old new : string) : string :=
  match old with
  | EmptyString => interleave new s
  | _ => replace_go old new 0 s
  end.

(** ** utils/helpers.py: redact_text *)

Module Redact.
Import Re.

(** [\b\d{3}-\d{2}-\d{4}\b] *)
Definition ssn : regex :=
  Cat Bnd (Times 3 Cls.digit (Cat (Chr (Cls.chr "-"))
    (Times 2 Cls.digit (Cat (Chr (Cls.chr "-"))
    (Times 4 Cls.digit Bnd))))).

(** [\b\d{3}[-.]?\d{3}[-.]?\d{4}\b] *)
Definition phone : regex :=
  Cat Bnd (Times 3 Cls.digit (Cat (Opt Cls.dash_dot)
    (Times 3 Cls.digit (Cat (Opt Cls.dash_dot)
    (Times 4 Cls.digit Bnd))))).

(** [\b[A-Za-z0-9._%+-]+@[A-Za-z0-9.-]+\.[A-Z|a-z]{2,}\b] *)
Definition email : regex :=
  Cat Bnd (Cat (Many 1 Cls.email_local) (Cat (Chr (Cls.chr "@"))
    (Cat (Many 1 Cls.email_domain) (Cat (Chr (Cls.chr "."))
    (Cat (Many 2 Cls.email_tld) Bnd))))).

(** [\b\d{4}[-\s]?\d{4}[-\s]?\d{4}[-\s]?\d{4}\b] *)
Definition credit_card : regex :=
  Cat Bnd (Times 4 Cls.digit (Cat (Opt Cls.dash_space)
    (Times 4 Cls.digit (Cat (Opt Cls.dash_space)
    (Times 4 Cls.digit (Cat (Opt Cls.dash_space)
    (Times 4 Cls.digit Bnd))))))).

(** The dictionary [patterns], in insertion order. *)
Definition patterns : list (string * regex) :=
  [("ssn", ssn); ("phone", phone); ("email", email);
   ("credit_card", credit_card)].

(** An element of [redactions_made]. *)
Record entry : Type := Entry {
  e_type : string;
  e_original : string;
  e_start : nat;
  e_end : nat
}.

(** The inner loop: one match of the current pattern. *)
Definition apply_match (pattern_name redaction_type : string)
    (acc : string * list entry) (m : Match) : string * list entry :=
  let '(redacted_text, redactions_made) := acc in
  (str_replace redacted_text (m_group m) redaction_type,
   (redactions_made
      ++ [Entry pattern_name (m_group m) (m_start m) (m_end m)])%list).

(** The outer loop: the matches of a pattern are those of the text as
    it is when the pattern's turn comes. *)
Definition apply_pattern (redaction_type : string)
    (acc : string * list entry) (p : string * regex)
    : string * list entry :=
  let matches := finditer (snd p) (fst acc) in
  fold_left (apply_match (fst p) redaction_type) matches acc.

(** What [redact_text] returns: the text itself when it is empty, the
    pair otherwise. *)
Inductive result : Type :=
| Unchanged (text : string)
| Redacted (redacted_text : string) (redactions_made : list entry).

Definition redact_text (text redaction_type : string) : result :=
  if negb (PyStr.truthy text) then Unchanged text
  else
    let '(redacted_text, redactions_made) :=
      fold_left (apply_pattern redaction_type) patterns (text, []) in
    Redacted redacted_text redactions_made.

Definition default_marker : string := "***REDACTED***".

End Redact.

(** ** JSON values, dates and the libraries the application calls *)

(** A [datetime], as an instant on the server's clock, in microseconds;
    a [timedelta] is a difference of instants. *)
Definition datetime : Type := Z.
Definition timedelta_hours (n : Z) : Z := n * 3600000000.
Definition timedelta_days (n : Z) : Z := n * 86400000000.

(** What [jsonify] and [json.dumps] are given.  [JIso t] stands for the
    text [t.isoformat()], [JReal] for a Python float. *)
#[local] Unset Elimination Schemes.
Inductive json : Type :=
| JNull
| JBool (b : bool)
| JNum (n : Z)
| JReal (q : Q)
| JStr (s : string)
| JIso (t : datetime)
| JList (items : list json)
| JObj (fields : list (string * json)).
#[local] Set Elimination Schemes.

(** [d.get(key)] on a JSON object. *)
Fixpoint assoc (key : string) (fields : list (string * json)) : option json :=
  match fields with
  | [] => None
  | (k, v) :: rest => if String.eqb k key then Some v else assoc key rest
  end.

Definition jget (key : string) (j : json) : option json :=
  match j with JObj fields => assoc key fields | _ => None end.

(** The result of a call that may raise: the value, or the text of the
    exception. *)
Inductive raising (A : Type) : Type :=
| Ok (a : A)
| Raised (msg : string).
Arguments Ok {A} a.
Arguments Raised {A} msg.

(** The object [query.paginate] returns. *)
Record Page (A : Type) : Type := {
  items : list A;
  total : Z;
  pages : Z;
  has_next : bool;
  has_prev : bool
}.

(** The library functions the application relies on: hashlib, werkzeug's
    password hashing, flask_jwt_extended's token signing, json, the text
    decoders behind [extract_text_from_file], [re] on caller-supplied
    patterns, and the ORM's [ilike] and [paginate]. *)
Class Platform : Type := {
  sha256_hexdigest : list byte -> string;
  md5_hexdigest : list byte -> string;
  (** [generate_password_hash] draws a salt; it is its first argument. *)
  generate_password_hash : string -> string -> string;
  check_password_hash : string -> string -> bool;
  create_access_token : Z -> json -> string;
  json_dumps : json -> string;
  json_loads : string -> raising json;
  utf8_decode : list byte -> raising string;
  pdf_extract_text : list byte -> raising string;
  docx_extract_text : list byte -> raising string;
  (** [re.finditer(pattern, text, re.IGNORECASE)] as (original, start,
      end) triples and [re.sub(pattern, repl, text, flags=re.IGNORECASE)];
      both raise on a pattern that does not compile. *)
  re_finditer_ignorecase : string -> string -> raising (list (string * nat * nat));
  re_sub_ignorecase : string -> string -> string -> raising string;
  utf8_encode : string -> list byte;
  (** The ORM: [ilike], [order_by] (ascending, or descending when the
      flag is set; the order among equal keys is the database's) and
      [paginate(page, per_page, error_out=False)]. *)
  sql_ilike : string -> string -> bool;
  sql_order_by : forall A : Type, (A -> option datetime) -> bool -> list A -> list A;
  sql_paginate : forall A : Type, Z -> Z -> list A -> Page A;
  fromisoformat : string -> option datetime;
  (** The format [{x:.2f}] of a float. *)
  format_2f : Q -> string;
  (** Whether [db.session.execute('SELECT 1')] returns. *)
  select_one_ok : bool;
  (** The text of werkzeug's [RequestEntityTooLarge], which
      [request.files] raises for a body over [MAX_CONTENT_LENGTH]. *)
  too_large_text : string;
  (** The text of the [IntegrityError] the commit raises when the
      deleted document, of the given id, still has summary, redaction
      or timeline rows: their [document_id] cannot be set to null. *)
  integrity_error_text : Z -> string
}.

(** The placeholder heuristics of routes/processing.py and
    routes/analysis.py ([generate_summary_basic],
    [extract_timeline_events_basic], [analyze_chat_content_basic] with
    [extract_keywords]).  The properties below hold whatever they
    compute, so they are an interface of the development. *)
Record TimelineEvent : Type := {
  ev_date : datetime;
  ev_description : string;
  ev_confidence : Q
}.

Class TextAnalyzer : Type := {
  generate_summary_basic : string -> string -> string;
  extract_timeline_events_basic : string -> list TimelineEvent;
  analyze_chat_content_basic : string -> json
}.

(** ** models.py: the tables *)

Record User : Type := {
  u_id : Z;
  u_username : string;
  u_email : string;
  u_password_hash : string;
  u_role : string;
  u_is_active : bool;
  u_created_at : option datetime;
  u_last_login : option datetime
}.

Record Document : Type := {
  d_id : Z;
  d_filename : string;
  d_original_filename : string;
  d_file_path : string;
  d_file_size : Z;
  d_file_type : string;
  d_content_hash : string;
  d_encryption_key : option string;
  d_uploaded_at : option datetime;
  d_user_id : Z;
  d_case_number : option string;
  d_tags : option string;
  d_description : option string;
  d_is_processed : bool;
  d_processing_status : string
}.

Record DocumentSummary : Type := {
  s_id : Z;
  s_document_id : Z;
  s_summary_type : string;
  s_content : string;
  s_confidence_score : option Q;
  s_created_at : option datetime;
  s_processing_time : option Q
}.

Record DocumentRedaction : Type := {
  r_id : Z;
  r_document_id : Z;
  r_redaction_type : string;
  r_start_position : option Z;
  r_end_position : option Z;
  r_original_text : option string;
  r_redacted_text : option string;
  r_reason : option string;
  r_created_at : option datetime;
  r_applied_by : option Z
}.

Record DocumentTimeline : Type := {
  t_id : Z;
  t_document_id : Z;
  t_event_date : datetime;
  t_event_type : string;
  t_event_description : string;
  t_page_number : option Z;
  t_confidence_score : option Q;
  t_extracted_at : option datetime
}.

Record AuditLog : Type := {
  a_id : Z;
  a_user_id : option Z;
  a_action : string;
  a_resource_type : string;
  a_resource_id : option string;
  a_details : option string;
  a_ip_address : option string;
  a_user_agent : option string;
  a_timestamp : option datetime;
  a_session_id : option string
}.

Record ChatAnalysis : Type := {
  c_id : Z;
  c_user_id : Z;
  c_chat_content : string;
  c_analysis_result : option string;
  c_sentiment_score : option json;
  c_keywords : option string;
  c_entities : option string;
  c_content_hash : string;
  c_created_at : option datetime;
  c_processing_time : option Q
}.

(** A file on disk. *)
Record File : Type := {
  f_content : list byte;
  f_mtime : datetime
}.

(** [app.config] *)
Record Config : Type := {
  MAX_CONTENT_LENGTH : Z;
  SECURE_UPLOAD_FOLDER : string
}.

(** The state of the service: the database tables and the disk. *)
Record World : Type := {
  config : Config;
  users : list User;
  documents : list Document;
  summaries : list DocumentSummary;
  redactions : list DocumentRedaction;
  timelines : list DocumentTimeline;
  audit_logs : list AuditLog;
  chat_analyses : list ChatAnalysis;
  disk : string -> option File
}.

(** What the request and the moment of the call determine: the headers
    [log_audit_event] reads, the length of the request body, the clock,
    the random UUID of an upload, the salt of a password hash, and the
    measured processing time.  [log_audit_event] reads the clock anew
    for each row it builds: [row_clock k] is the reading for the audit
    row of key [k]. *)
Record Context : Type := {
  remote_addr : option string;
  header_user_agent : option string;
  header_session_id : option string;
  content_length : Z;
  utcnow : datetime;
  row_clock : Z -> datetime;
  uuid4 : string;
  salt : string;
  elapsed : Q
}.

(** A response: the status code and either a JSON body, a file sent as
    an attachment, or a rendered template. *)
Inductive Payload : Type :=
| Json (body : json)
| SendFile (path download_name : string)
| Template (name : string).

Record Response : Type := {
  status : Z;
  payload : Payload
}.

Definition jsonify (status : Z) (fields : list (string * json)) : Response :=
  {| status := status; payload := Json (JObj fields) |}.

(** The body field [key] of a JSON response. *)
Definition body_field (key : string) (r : Response) : option json :=
  match payload r with Json j => jget key j | _ => None end.

(** ** Endpoint bodies as state-passing programs

    A step either goes on with a value or leaves the endpoint with a
    response ([return jsonify(...), code] in the middle of the body). *)

Inductive outcome (A : Type) : Type :=
| Continue (a : A)
| Leave (r : Response).
Arguments Continue {A} a.
Arguments Leave {A} r.

Definition handler (A : Type) : Type := World -> outcome A * World.

Definition ret {A : Type} (a : A) : handler A := fun w => (Continue a, w).

Definition bind {A B : Type} (m : handler A) (k : A -> handler B) : handler B :=
  fun w =>
    match m w with
    | (Continue a, w') => k a w'
    | (Leave r, w') => (Leave r, w')
    end.

Definition leave {A : Type} (r : Response) : handler A := fun w => (Leave r, w).

Definition get_world : handler World := fun w => (Continue w, w).

Definition modify (f : World -> World) : handler unit :=
  fun w => (Continue tt, f w).

(** [if cond: return r] *)
Definition leave_if (cond : bool) (r : Response) : handler unit :=
  if cond then leave r else ret tt.

Declare Scope handler_scope.
Delimit Scope handler_scope with handler.
Notation "x <- m ;; k" := (bind m (fun x => k))
  (at level 100, m at next level, right associativity) : handler_scope.
Notation "m ;; k" := (bind m (fun _ => k))
  (at level 100, right associativity) : handler_scope.

(** An endpoint: the response it gives and the state it leaves. *)
Definition endpoint (body : handler Response) (w : World) : Response * World :=
  match body w with
  | (Continue r, w') => (r, w')
  | (Leave r, w') => (r, w')
  end.

(** *** Updates of the state *)

Definition set_users (v : list User) (w : World) : World :=
  {| config := config w; users := v; documents := documents w;
     summaries := summaries w; redactions := redactions w;
     timelines := timelines w; audit_logs := audit_logs w;
     chat_analyses := chat_analyses w; disk := disk w |}.

Definition set_documents (v : list Document) (w : World) : World :=
  {| config := config w; users := users w; documents := v;
     summaries := summaries w; redactions := redactions w;
     timelines := timelines w; audit_logs := audit_logs w;
     chat_analyses := chat_analyses w; disk := disk w |}.

Definition set_summaries (v : list DocumentSummary) (w : World) : World :=
  {| config := config w; users := users w; documents := documents w;
     summaries := v; redactions := redactions w;
     timelines := timelines w; audit_logs := audit_logs w;
     chat_analyses := chat_analyses w; disk := disk w |}.

Definition set_redactions (v : list DocumentRedaction) (w : World) : World :=
  {| config := config w; users := users w; documents := documents w;
     summaries := summaries w; redactions := v;
     timelines := timelines w; audit_logs := audit_logs w;
     chat_analyses := chat_analyses w; disk := disk w |}.

Definition set_timelines (v : list DocumentTimeline) (w : World) : World :=
  {| config := config w; users := users w; documents := documents w;
     summaries := summaries w; redactions := redactions w;
     timelines := v; audit_logs := audit_logs w;
     chat_analyses := chat_analyses w; disk := disk w |}.

Definition set_audit_logs (v : list AuditLog) (w : World) : World :=
  {| config := config w; users := users w; documents := documents w;
     summaries := summaries w; redactions := redactions w;
     timelines := timelines w; audit_logs := v;
     chat_analyses := chat_analyses w; disk := disk w |}.

Definition set_chat_analyses (v : list ChatAnalysis) (w : World) : World :=
  {| config := config w; users := users w; documents := documents w;
     summaries := summaries w; redactions := redactions w;
     timelines := timelines w; audit_logs := audit_logs w;
     chat_analyses := v; disk := disk w |}.

Definition set_disk (v : string -> option File) (w : World) : World :=
  {| config := config w; users := users w; documents := documents w;
     summaries := summaries w; redactions := redactions w;
     timelines := timelines w; audit_logs := audit_logs w;
     chat_analyses := chat_analyses w; disk := v |}.

(** The primary key of a new row: one more than the largest in the
    table. *)
Definition next_id (ids : list Z) : Z := 1 + fold_right Z.max 0 ids.

(** [file.save(path)] and [os.remove(path)] *)
Definition write_file (path : string) (f : File) (d : string -> option File)
    : string -> option File :=
  fun q => if String.eqb q path then Some f else d q.

Definition remove_file (path : string) (d : string -> option File)
    : string -> option File :=
  fun q => if String.eqb q path then None else d q.

(** [os.path.exists(path)] *)
Definition path_exists (w : World) (path : string) : bool :=
  match disk w path with Some _ => true | None => false end.

(** [query.first()] *)
Definition first {A : Type} (p : A -> bool) (rows : list A) : option A :=
  find p rows.

(** [User.query.get(user_id)] *)
Definition get_user (w : World) (user_id : Z) : option User :=
  first (fun u => u_id u =? user_id) (users w).

(** [Document.query.filter_by(id=document_id, user_id=user_id).first()] *)
Definition get_owned_document (w : World) (document_id user_id : Z)
    : option Document :=
  first (fun d => (d_id d =? document_id) && (d_user_id d =? user_id))%bool
    (documents w).

(** No summary, redaction or timeline row refers to document [did]. *)
Definition unreferenced (did : Z) (w : World) : bool :=
  (forallb (fun s => negb (s_document_id s =? did)) (summaries w)
   && forallb (fun r => negb (r_document_id r =? did)) (redactions w)
   && forallb (fun t => negb (t_document_id t =? did)) (timelines w))%bool.

(** [x in [...]] for strings. *)
Definition str_in (x : string) (l : list string) : bool :=
  existsb (String.eqb x) l.

(** [str(n)] of an integer. *)
Definition str_of_int (n : Z) : string := NilZero.string_of_int (Z.to_int n).

Definition opt_truthy (o : option string) : bool :=
  match o with Some s => PyStr.truthy s | None => false end.

Definition jopt_str (o : option string) : json :=
  match o with Some s => JStr s | None => JNull end.

Definition jopt_iso (o : option datetime) : json :=
  match o with Some t => JIso t | None => JNull end.

Definition jopt_num (o : option Z) : json :=
  match o with Some n => JNum n | None => JNull end.

Definition jopt_real (o : option Q) : json :=
  match o with Some q => JReal q | None => JNull end.

Local Open Scope handler_scope.

Section Application.

Context {platform : Platform} {analyzer : TextAnalyzer}.

(** ** models.py: methods *)

(** [Document.calculate_hash] *)
Definition calculate_hash (file_content : list byte) : string :=
  sha256_hexdigest file_content.

(** [Document.verify_integrity] *)
Definition verify_integrity (self : Document) (file_content : list byte) : bool :=
  String.eqb (d_content_hash self) (calculate_hash file_content).

(** [User.check_password] *)
Definition check_password (self : User) (password : string) : bool :=
  check_password_hash (u_password_hash self) password.

Definition user_to_dict (self : User) : json :=
  JObj [("id", JNum (u_id self)); ("username", JStr (u_username self));
        ("email", JStr (u_email self)); ("role", JStr (u_role self));
        ("is_active", JBool (u_is_active self));
        ("created_at", jopt_iso (u_created_at self));
        ("last_login", jopt_iso (u_last_login self))].

(** [Document.to_dict], as the fields of the dictionary:
    [json.loads(self.tags)] raises on a tags text that is not JSON. *)
Definition document_fields (self : Document) : raising (list (string * json)) :=
  let fields (tags : json) :=
    [("id", JNum (d_id self)); ("filename", JStr (d_filename self));
     ("original_filename", JStr (d_original_filename self));
     ("file_size", JNum (d_file_size self));
     ("file_type", JStr (d_file_type self));
     ("content_hash", JStr (d_content_hash self));
     ("uploaded_at", jopt_iso (d_uploaded_at self));
     ("user_id", JNum (d_user_id self));
     ("case_number", jopt_str (d_case_number self));
     ("tags", tags);
     ("description", jopt_str (d_description self));
     ("is_processed", JBool (d_is_processed self));
     ("processing_status", JStr (d_processing_status self))] in
  match d_tags self with
  | Some t =>
      if PyStr.truthy t then
        match json_loads t with
        | Ok j => Ok (fields j)
        | Raised msg => Raised msg
        end
      else Ok (fields (JList []))
  | None => Ok (fields (JList []))
  end.

Definition document_to_dict (self : Document) : raising json :=
  match document_fields self with
  | Ok fields => Ok (JObj fields)
  | Raised msg => Raised msg
  end.

Definition summary_to_dict (self : DocumentSummary) : json :=
  JObj [("id", JNum (s_id self)); ("document_id", JNum (s_document_id self));
        ("summary_type", JStr (s_summary_type self));
        ("content", JStr (s_content self));
        ("confidence_score", jopt_real (s_confidence_score self));
        ("created_at", jopt_iso (s_created_at self));
        ("processing_time", jopt_real (s_processing_time self))].

Definition redaction_to_dict (self : DocumentRedaction) : json :=
  JObj [("id", JNum (r_id self)); ("document_id", JNum (r_document_id self));
        ("redaction_type", JStr (r_redaction_type self));
        ("start_position", jopt_num (r_start_position self));
        ("end_position", jopt_num (r_end_position self));
        ("redacted_text", jopt_str (r_redacted_text self));
        ("reason", jopt_str (r_reason self));
        ("created_at", jopt_iso (r_created_at self));
        ("applied_by", jopt_num (r_applied_by self))].

Definition timeline_to_dict (self : DocumentTimeline) : json :=
  JObj [("id", JNum (t_id self)); ("document_id", JNum (t_document_id self));
        ("event_date", JIso (t_event_date self));
        ("event_type", JStr (t_event_type self));
        ("event_description", JStr (t_event_description self));
        ("page_number", jopt_num (t_page_number self));
        ("confidence_score", jopt_real (t_confidence_score self));
        ("extracted_at", jopt_iso (t_extracted_at self))].

(** ** utils/helpers.py *)

(** [log_audit_event]: one row added to [audit_logs] and committed.  The
    copy written through [logger] is not part of the state. *)
Definition new_audit_log (ctx : Context) (w : World)
    (action resource_type : string) (resource_id : option string)
    (user_id : option Z) (details : option (list (string * json)))
    : AuditLog :=
  {| a_id := next_id (map a_id (audit_logs w));
     a_user_id := user_id;
     a_action := action;
     a_resource_type := resource_type;
     a_resource_id := resource_id;
     a_details :=
       match details with
       | Some (f :: fs) => Some (json_dumps (JObj (f :: fs)))
       | _ => None
       end;
     a_ip_address := remote_addr ctx;
     a_user_agent := header_user_agent ctx;
     a_timestamp := Some (row_clock ctx (next_id (map a_id (audit_logs w))));
     a_session_id := header_session_id ctx |}.

Definition log_audit_event (ctx : Context) (action resource_type : string)
    (resource_id : option string) (user_id : option Z)
    (details : option (list (string * json))) : handler unit :=
  modify (fun w =>
    set_audit_logs
      (audit_logs w
         ++ [new_audit_log ctx w action resource_type resource_id user_id
               details])%list w).

(** [create_chain_of_custody_record] *)
Definition create_chain_of_custody_record (ctx : Context) (document_id : Z)
    (action : string) (user_id : Z) (details : list (string * json))
    : handler json :=
  let record :=
    [("document_id", JNum document_id); ("action", JStr action);
     ("user_id", JNum user_id); ("timestamp", JIso (utcnow ctx));
     ("details", JObj details)] in
  log_audit_event ctx ("chain_of_custody_" ++ action) "document"
    (Some (str_of_int document_id)) (Some user_id) (Some record) ;;
  ret (JObj record).

(** [calculate_file_hash]; [None] is the [ValueError] of an unsupported
    algorithm. *)
Definition calculate_file_hash_with (file_content : list byte)
    (algorithm : string) : option string :=
  if String.eqb (PyStr.lower algorithm) "sha256"
  then Some (sha256_hexdigest file_content)
  else if String.eqb (PyStr.lower algorithm) "md5"
  then Some (md5_hexdigest file_content)
  else None.

(** The call with the default [algorithm='sha256'], the only form the
    routes use. *)
Definition calculate_file_hash (file_content : list byte) : string :=
  match calculate_file_hash_with file_content "sha256" with
  | Some h => h
  | None => EmptyString
  end.

Definition default_allowed_extensions : list string :=
  ["pdf"; "doc"; "docx"; "txt"; "rtf"; "mp3"; "wav"; "mp4"; "avi"; "mov";
   "jpg"; "jpeg"; "png"; "tiff"; "bmp"; "xls"; "xlsx"; "csv"].

(** [allowed_file] with the default extensions. *)
Definition allowed_file (filename : string) : bool :=
  match PyStr.after_last "." filename with
  | Some ext => str_in (PyStr.lower ext) default_allowed_extensions
  | None => false
  end.

(** [get_file_type] *)
Definition get_file_type (filename : string) : string :=
  let ext :=
    match PyStr.after_last "." (PyStr.lower filename) with
    | Some e => e
    | None => EmptyString
    end in
  if str_in ext ["pdf"; "doc"; "docx"; "txt"; "rtf"] then "document"
  else if str_in ext ["mp3"; "wav"; "flac"; "aac"] then "audio"
  else if str_in ext ["mp4"; "avi"; "mov"; "wmv"; "mkv"] then "video"
  else if str_in ext ["jpg"; "jpeg"; "png"; "gif"; "tiff"; "bmp"] then "image"
  else if str_in ext ["xls"; "xlsx"; "csv"] then "spreadsheet"
  else "other".

(** [os.path.basename] *)
Definition basename (path : string) : string :=
  match PyStr.after_last "/" path with
  | Some b => b
  | None => path
  end.

(** [os.path.splitext] of a name without a directory part: the
    extension starts at the last dot, unless only dots come before it. *)
Definition splitext (name : string) : string * string :=
  match PyStr.after_last "." name with
  | Some after =>
      let stem := PyStr.take (String.length name - String.length after - 1) name in
      if PyStr.all (Cls.chr ".") stem then (name, EmptyString)
      else (stem, String "." after)
  | None => (name, EmptyString)
  end.

(** [sanitize_filename] *)
Definition sanitize_filename (filename : string) : string :=
  let filename := basename filename in
  let filename :=
    PyStr.map (fun c =>
      if (Cls.word c || Cls.space c || PyStr.mem ".-" c)%bool then c
      else "_"%char) filename in
  if (255 <? String.length filename)%nat then
    let '(name, ext) := splitext filename in
    PyStr.slice_to (255 - Z.of_nat (String.length ext)) name ++ ext
  else filename.

(** [format_file_size] *)
Fixpoint format_file_size_loop (fuel : nat) (size_bytes : Q) (i : nat)
    : Q * nat :=
  match fuel with
  | O => (size_bytes, i)
  | S fuel' =>
      if (Qle_bool 1024 size_bytes && (i <? 4)%nat)%bool
      then format_file_size_loop fuel' (size_bytes / 1024) (S i)
      else (size_bytes, i)
  end.

Definition format_file_size (size_bytes : Z) : string :=
  if size_bytes =? 0 then "0 B"
  else
    let '(q, i) := format_file_size_loop 4 (inject_Z size_bytes) 0 in
    format_2f q ++ " " ++ nth i ["B"; "KB"; "MB"; "GB"; "TB"] "TB".

(** [os.path.join(a, b)] *)
Definition path_join (a b : string) : string :=
  if String.prefix "/" b then b
  else if (negb (PyStr.truthy a) || PyStr.endswith a "/")%bool then a ++ b
  else a ++ "/" ++ b.

(** [str.strip()] *)
Fixpoint lstrip (s : string) : string :=
  match s with
  | String c s' => if Cls.space c then lstrip s' else s
  | EmptyString => EmptyString
  end.

Definition strip (s : string) : string :=
  PyStr.rev (lstrip (PyStr.rev (lstrip s))).

(** Small steps shared by the endpoint bodies. *)

(** [x = ...; if not x: return r] *)
Definition require {A : Type} (o : option A) (r : Response) : handler A :=
  match o with
  | Some a => ret a
  | None => leave r
  end.

Definition error (code : Z) (msg : string) : Response :=
  jsonify code [("error", JStr msg)].

(** The response of an [except Exception as e] clause. *)
Definition failure (msg details : string) : Response :=
  jsonify 500 [("error", JStr msg); ("details", JStr details)].

(** A call that may raise inside a [try]: on an exception the endpoint
    answers with [failure what]. *)
Definition attempt {A : Type} (what : string) (x : raising A) : handler A :=
  match x with
  | Ok a => ret a
  | Raised msg => leave (failure what msg)
  end.

Fixpoint map_raising {A B : Type} (f : A -> raising B) (l : list A)
    : raising (list B) :=
  match l with
  | [] => Ok []
  | a :: l' =>
      match f a with
      | Raised msg => Raised msg
      | Ok b =>
          match map_raising f l' with
          | Raised msg => Raised msg
          | Ok bs => Ok (b :: bs)
          end
      end
  end.

Definition default {A : Type} (d : A) (o : option A) : A :=
  match o with Some a => a | None => d end.

Definition update_user (u : User) (w : World) : World :=
  set_users (map (fun x => if u_id x =? u_id u then u else x) (users w)) w.

Definition update_document_row (d : Document) (w : World) : World :=
  set_documents (map (fun x => if d_id x =? d_id d then d else x) (documents w)) w.

(** ** routes/auth.py *)

Definition set_password (self : User) (ctx : Context) (password : string) : User :=
  {| u_id := u_id self; u_username := u_username self; u_email := u_email self;
     u_password_hash := generate_password_hash (salt ctx) password;
     u_role := u_role self; u_is_active := u_is_active self;
     u_created_at := u_created_at self; u_last_login := u_last_login self |}.

Definition set_last_login (self : User) (t : datetime) : User :=
  {| u_id := u_id self; u_username := u_username self; u_email := u_email self;
     u_password_hash := u_password_hash self;
     u_role := u_role self; u_is_active := u_is_active self;
     u_created_at := u_created_at self; u_last_login := Some t |}.

(** The JSON body of [/register]: an object whose fields, when present,
    are strings. *)
Record RegisterData : Type := {
  reg_username : option string;
  reg_email : option string;
  reg_password : option string;
  reg_role : option string
}.

Definition register (ctx : Context) (data : RegisterData)
    : World -> Response * World :=
  endpoint (
    leave_if (negb (opt_truthy (reg_username data)))
      (error 400 "username is required") ;;
    leave_if (negb (opt_truthy (reg_email data)))
      (error 400 "email is required") ;;
    leave_if (negb (opt_truthy (reg_password data)))
      (error 400 "password is required") ;;
    let username := PyStr.lower (strip (default "" (reg_username data))) in
    let email := PyStr.lower (strip (default "" (reg_email data))) in
    let password := default "" (reg_password data) in
    leave_if (negb (validate_password_strength password))
      (error 400 "Password must be at least 8 characters long and contain uppercase, lowercase, number, and special character") ;;
    w <- get_world ;;
    leave_if (existsb (fun u => String.eqb (u_username u) username) (users w))
      (error 409 "Username already exists") ;;
    leave_if (existsb (fun u => String.eqb (u_email u) email) (users w))
      (error 409 "Email already exists") ;;
    let user :=
      set_password
        {| u_id := next_id (map u_id (users w)); u_username := username;
           u_email := email; u_password_hash := EmptyString;
           u_role := default "user" (reg_role data); u_is_active := true;
           u_created_at := Some (utcnow ctx); u_last_login := None |}
        ctx password in
    modify (fun w => set_users (users w ++ [user])%list w) ;;
    log_audit_event ctx "user_registered" "user" (Some (str_of_int (u_id user)))
      (Some (u_id user))
      (Some [("username", JStr username); ("email", JStr email)]) ;;
    ret (jsonify 201 [("message", JStr "User registered successfully");
                      ("user", user_to_dict user)])).

Definition login (ctx : Context) (data_username data_password : option string)
    : World -> Response * World :=
  endpoint (
    let username := PyStr.lower (strip (default "" data_username)) in
    let password := default "" data_password in
    leave_if (negb (PyStr.truthy username) || negb (PyStr.truthy password))%bool
      (error 400 "Username and password are required") ;;
    w <- get_world ;;
    let found := first (fun u => String.eqb (u_username u) username) (users w) in
    match found with
    | None =>
        log_audit_event ctx "login_failed" "user" (Some username) None
          (Some [("reason", JStr "invalid_credentials");
                 ("username", JStr username)]) ;;
        leave (error 401 "Invalid credentials")
    | Some user =>
        if negb (check_password user password) then
          log_audit_event ctx "login_failed" "user" (Some username) None
            (Some [("reason", JStr "invalid_credentials");
                   ("username", JStr username)]) ;;
          leave (error 401 "Invalid credentials")
        else if negb (u_is_active user) then
          log_audit_event ctx "login_failed" "user"
            (Some (str_of_int (u_id user))) (Some (u_id user))
            (Some [("reason", JStr "inactive_account");
                   ("username", JStr username)]) ;;
          leave (error 401 "Account is inactive")
        else
          let user := set_last_login user (utcnow ctx) in
          modify (update_user user) ;;
          let access_token :=
            create_access_token (u_id user)
              (JObj [("username", JStr (u_username user));
                     ("role", JStr (u_role user))]) in
          log_audit_event ctx "login_successful" "user"
            (Some (str_of_int (u_id user))) (Some (u_id user))
            (Some [("username", JStr username)]) ;;
          ret (jsonify 200 [("access_token", JStr access_token);
                            ("user", user_to_dict user)])
    end).

Definition logout (ctx : Context) (user_id : Z) : World -> Response * World :=
  endpoint (
    w <- get_world ;;
    match get_user w user_id with
    | Some user =>
        log_audit_event ctx "logout" "user" (Some (str_of_int (u_id user)))
          (Some (u_id user)) (Some [("username", JStr (u_username user))])
    | None => ret tt
    end ;;
    ret (jsonify 200 [("message", JStr "Logged out successfully")])).

Definition get_profile (user_id : Z) : World -> Response * World :=
  endpoint (
    w <- get_world ;;
    user <- require (get_user w user_id) (error 404 "User not found") ;;
    ret (jsonify 200 [("user", user_to_dict user)])).

Definition change_password (ctx : Context) (user_id : Z)
    (current_password new_password : option string)
    : World -> Response * World :=
  endpoint (
    w <- get_world ;;
    user <- require (get_user w user_id) (error 404 "User not found") ;;
    leave_if (negb (opt_truthy current_password)
              || negb (opt_truthy new_password))%bool
      (error 400 "Current and new passwords are required") ;;
    let current_password := default "" current_password in
    let new_password := default "" new_password in
    (if negb (check_password user current_password) then
       log_audit_event ctx "password_change_failed" "user"
         (Some (str_of_int (u_id user))) (Some (u_id user))
         (Some [("reason", JStr "invalid_current_password")]) ;;
       leave (error 401 "Invalid current password")
     else ret tt) ;;
    leave_if (negb (validate_password_strength new_password))
      (error 400 "New password must be at least 8 characters long and contain uppercase, lowercase, number, and special character") ;;
    modify (update_user (set_password user ctx new_password)) ;;
    log_audit_event ctx "password_changed" "user"
      (Some (str_of_int (u_id user))) (Some (u_id user))
      (Some [("username", JStr (u_username user))]) ;;
    ret (jsonify 200 [("message", JStr "Password changed successfully")])).

(** ** routes/documents.py *)

(** An entry of [request.files]. *)
Record Upload : Type := {
  up_filename : string;
  up_content : list byte
}.

Definition pagination (page per_page : Z) {A : Type} (pg : Page A) : json :=
  JObj [("page", JNum page); ("per_page", JNum per_page);
        ("total", JNum (total pg)); ("pages", JNum (pages pg));
        ("has_next", JBool (has_next pg)); ("has_prev", JBool (has_prev pg))].

Definition upload_document (ctx : Context) (user_id : Z) (file : option Upload)
    (form_case_number form_description form_tags : option string)
    : World -> Response * World :=
  endpoint (
    w <- get_world ;;
    user <- require (get_user w user_id) (error 404 "User not found") ;;
    (* request.files parses the body, which werkzeug refuses over the
       limit: the exception is caught by the endpoint's except clause *)
    leave_if (MAX_CONTENT_LENGTH (config w) <? content_length ctx)
      (failure "Upload failed" too_large_text) ;;
    file <- require file (error 400 "No file provided") ;;
    leave_if (String.eqb (up_filename file) "") (error 400 "No file selected") ;;
    leave_if (negb (allowed_file (up_filename file)))
      (error 400 "File type not allowed") ;;
    let case_number := default "" form_case_number in
    let description := default "" form_description in
    let tags := default "[]" form_tags in
    let file_content := up_content file in
    let file_size := Z.of_nat (List.length file_content) in
    (* the file is part of the body, which is within the limit here:
       for a request as HTTP has it this test does not fire *)
    leave_if (MAX_CONTENT_LENGTH (config w) <? file_size)
      (error 400 ("File too large. Maximum size: "
                  ++ format_file_size (MAX_CONTENT_LENGTH (config w)))) ;;
    let content_hash := calculate_file_hash file_content in
    match first (fun d => String.eqb (d_content_hash d) content_hash)
            (documents w) with
    | Some existing_doc =>
        leave (jsonify 409 [("error", JStr "File already exists");
                            ("existing_document_id", JNum (d_id existing_doc))])
    | None =>
        let original_filename := up_filename file in
        let sanitized_name := sanitize_filename original_filename in
        let unique_filename := uuid4 ctx ++ "_" ++ sanitized_name in
        let upload_dir := SECURE_UPLOAD_FOLDER (config w) in
        let file_path := path_join upload_dir unique_filename in
        modify (fun w =>
          set_disk (write_file file_path
                      {| f_content := file_content; f_mtime := utcnow ctx |}
                      (disk w)) w) ;;
        let document :=
          {| d_id := next_id (map d_id (documents w));
             d_filename := unique_filename;
             d_original_filename := original_filename;
             d_file_path := file_path;
             d_file_size := file_size;
             d_file_type := get_file_type original_filename;
             d_content_hash := content_hash;
             d_encryption_key := None;
             d_uploaded_at := Some (utcnow ctx);
             d_user_id := user_id;
             d_case_number := Some case_number;
             d_tags := Some tags;
             d_description := Some description;
             d_is_processed := false;
             d_processing_status := "pending" |} in
        modify (fun w => set_documents (documents w ++ [document])%list w) ;;
        create_chain_of_custody_record ctx (d_id document) "uploaded" user_id
          [("original_filename", JStr original_filename);
           ("file_size", JNum file_size);
           ("content_hash", JStr content_hash)] ;;
        log_audit_event ctx "document_uploaded" "document"
          (Some (str_of_int (d_id document))) (Some user_id)
          (Some [("filename", JStr original_filename);
                 ("file_size", JNum file_size);
                 ("file_type", JStr (d_file_type document));
                 ("case_number", JStr case_number)]) ;;
        match document_to_dict document with
        | Ok dict =>
            ret (jsonify 201 [("message", JStr "Document uploaded successfully");
                              ("document", dict)])
        | Raised msg =>
            (* except: the saved file is removed *)
            modify (fun w =>
              if path_exists w file_path
              then set_disk (remove_file file_path (disk w)) w else w) ;;
            leave (failure "Upload failed" msg)
        end
    end).

Definition list_documents (user_id : Z) (arg_page arg_per_page : option Z)
    (arg_case_number arg_file_type arg_search : option string)
    : World -> Response * World :=
  endpoint (
    w <- get_world ;;
    user <- require (get_user w user_id) (error 404 "User not found") ;;
    let page := default 1 arg_page in
    let per_page := Z.min (default 20 arg_per_page) 100 in
    let query := filter (fun d => d_user_id d =? user_id) (documents w) in
    let query :=
      if opt_truthy arg_case_number then
        filter (fun d =>
          match d_case_number d with
          | Some c => sql_ilike ("%" ++ default "" arg_case_number ++ "%") c
          | None => false
          end) query
      else query in
    let query :=
      if opt_truthy arg_file_type then
        filter (fun d => String.eqb (d_file_type d) (default "" arg_file_type))
          query
      else query in
    let query :=
      if opt_truthy arg_search then
        let pat := "%" ++ default "" arg_search ++ "%" in
        filter (fun d =>
          (sql_ilike pat (d_original_filename d)
           || match d_description d with
              | Some x => sql_ilike pat x
              | None => false
              end)%bool) query
      else query in
    let query := sql_order_by d_uploaded_at true query in
    let docs := sql_paginate page per_page query in
    dicts <- attempt "Failed to list documents"
               (map_raising document_to_dict (items docs)) ;;
    ret (jsonify 200 [("documents", JList dicts);
                      ("pagination", pagination page per_page docs)])).

Definition get_document (ctx : Context) (user_id document_id : Z)
    : World -> Response * World :=
  endpoint (
    w <- get_world ;;
    user <- require (get_user w user_id) (error 404 "User not found") ;;
    document <- require (get_owned_document w document_id user_id)
                  (error 404 "Document not found") ;;
    log_audit_event ctx "document_accessed" "document"
      (Some (str_of_int document_id)) (Some user_id)
      (Some [("filename", JStr (d_original_filename document))]) ;;
    dict <- attempt "Failed to get document" (document_to_dict document) ;;
    ret (jsonify 200 [("document", dict)])).

Definition download_document (ctx : Context) (user_id document_id : Z)
    : World -> Response * World :=
  endpoint (
    w <- get_world ;;
    user <- require (get_user w user_id) (error 404 "User not found") ;;
    document <- require (get_owned_document w document_id user_id)
                  (error 404 "Document not found") ;;
    file <- require (disk w (d_file_path document))
              (error 404 "Document file not found on disk") ;;
    let file_content := f_content file in
    (if negb (verify_integrity document file_content) then
       log_audit_event ctx "document_integrity_violation" "document"
         (Some (str_of_int document_id)) (Some user_id)
         (Some [("filename", JStr (d_original_filename document));
                ("expected_hash", JStr (d_content_hash document));
                ("actual_hash", JStr (calculate_file_hash file_content))]) ;;
       leave (error 500 "Document integrity check failed")
     else ret tt) ;;
    create_chain_of_custody_record ctx (d_id document) "downloaded" user_id
      [("filename", JStr (d_original_filename document))] ;;
    log_audit_event ctx "document_downloaded" "document"
      (Some (str_of_int document_id)) (Some user_id)
      (Some [("filename", JStr (d_original_filename document))]) ;;
    ret {| status := 200;
           payload := SendFile (d_file_path document)
                        (d_original_filename document) |}).

(** The JSON body of a metadata update: an object whose values are
    strings or null. *)
Fixpoint lookup (key : string) (data : list (string * option string))
    : option (option string) :=
  match data with
  | [] => None
  | (k, v) :: rest => if String.eqb k key then Some v else lookup key rest
  end.

Definition set_metadata (self : Document)
    (case_number tags description : option string) : Document :=
  {| d_id := d_id self; d_filename := d_filename self;
     d_original_filename := d_original_filename self;
     d_file_path := d_file_path self; d_file_size := d_file_size self;
     d_file_type := d_file_type self; d_content_hash := d_content_hash self;
     d_encryption_key := d_encryption_key self;
     d_uploaded_at := d_uploaded_at self; d_user_id := d_user_id self;
     d_case_number := case_number; d_tags := tags;
     d_description := description;
     d_is_processed := d_is_processed self;
     d_processing_status := d_processing_status self |}.

Definition update_document (ctx : Context) (user_id document_id : Z)
    (data : list (string * option string)) : World -> Response * World :=
  endpoint (
    w <- get_world ;;
    user <- require (get_user w user_id) (error 404 "User not found") ;;
    document <- require (get_owned_document w document_id user_id)
                  (error 404 "Document not found") ;;
    let document :=
      set_metadata document
        (default (d_case_number document) (lookup "case_number" data))
        (default (d_tags document) (lookup "tags" data))
        (default (d_description document) (lookup "description" data)) in
    modify (update_document_row document) ;;
    log_audit_event ctx "document_updated" "document"
      (Some (str_of_int document_id)) (Some user_id)
      (Some [("filename", JStr (d_original_filename document));
             ("updated_fields", JList (map (fun kv => JStr (fst kv)) data))]) ;;
    dict <- attempt "Update failed" (document_to_dict document) ;;
    ret (jsonify 200 [("message", JStr "Document updated successfully");
                      ("document", dict)])).

Definition delete_document (ctx : Context) (user_id document_id : Z)
    : World -> Response * World :=
  endpoint (
    w <- get_world ;;
    leave_if
      (match get_user w user_id with
       | Some user => negb (str_in (u_role user) ["admin"; "forensic_analyst"])
       | None => true
       end)
      (error 403 "Insufficient permissions") ;;
    document <- require (get_owned_document w document_id user_id)
                  (error 404 "Document not found") ;;
    doc_info <- attempt "Deletion failed" (document_fields document) ;;
    create_chain_of_custody_record ctx (d_id document) "deleted" user_id
      [("filename", JStr (d_original_filename document))] ;;
    log_audit_event ctx "document_deleted" "document"
      (Some (str_of_int document_id)) (Some user_id)
      (Some doc_info) ;;
    modify (fun w =>
      if path_exists w (d_file_path document)
      then set_disk (remove_file (d_file_path document) (disk w)) w else w) ;;
    (* db.session.delete and commit: the relationships have no delete
       cascade, so the rows that refer to the document would get a null
       document_id, which their columns refuse; the exception is caught
       by the endpoint's except clause and the row stays *)
    leave_if (negb (unreferenced (d_id document) w))
      (failure "Deletion failed" (integrity_error_text (d_id document))) ;;
    modify (fun w =>
      set_documents
        (filter (fun d => negb (d_id d =? d_id document)) (documents w)) w) ;;
    ret (jsonify 200 [("message", JStr "Document deleted successfully")])).

Definition verify_document_integrity (ctx : Context) (user_id document_id : Z)
    : World -> Response * World :=
  endpoint (
    w <- get_world ;;
    user <- require (get_user w user_id) (error 404 "User not found") ;;
    document <- require (get_owned_document w document_id user_id)
                  (error 404 "Document not found") ;;
    file <- require (disk w (d_file_path document))
              (jsonify 404 [("verified", JBool false);
                            ("error", JStr "Document file not found on disk")]) ;;
    let file_content := f_content file in
    let current_hash := calculate_file_hash file_content in
    let is_verified := String.eqb current_hash (d_content_hash document) in
    log_audit_event ctx "document_integrity_verified" "document"
      (Some (str_of_int document_id)) (Some user_id)
      (Some [("filename", JStr (d_original_filename document));
             ("verified", JBool is_verified);
             ("original_hash", JStr (d_content_hash document));
             ("current_hash", JStr current_hash)]) ;;
    ret (jsonify 200 [("verified", JBool is_verified);
                      ("original_hash", JStr (d_content_hash document));
                      ("current_hash", JStr current_hash);
                      ("file_size", JNum (d_file_size document));
                      ("last_modified", JIso (f_mtime file))])).

(** ** routes/processing.py *)

(** [extract_pdf_text] and [extract_docx_text] wrap the exception of
    the library they call. *)
Definition extract_pdf_text (content : list byte) : raising string :=
  match pdf_extract_text content with
  | Ok t => Ok t
  | Raised msg => Raised ("PDF extraction failed: " ++ msg)
  end.

Definition extract_docx_text (content : list byte) : raising string :=
  match docx_extract_text content with
  | Ok t => Ok t
  | Raised msg => Raised ("DOCX extraction failed: " ++ msg)
  end.

(** [extract_text_from_file], on a file that exists with the given
    content; [Ok None] is its [return None]. *)
Definition extract_text_from_file (file_path : string) (content : list byte)
    (file_type : string) : raising (option string) :=
  let wrap (x : raising string) : raising (option string) :=
    match x with
    | Ok t => Ok (Some t)
    | Raised msg => Raised ("Text extraction failed: " ++ msg)
    end in
  if String.eqb file_type "document" then
    if PyStr.endswith (PyStr.lower file_path) ".pdf"
    then wrap (extract_pdf_text content)
    else if (PyStr.endswith (PyStr.lower file_path) ".doc"
             || PyStr.endswith (PyStr.lower file_path) ".docx")%bool
    then wrap (extract_docx_text content)
    else if PyStr.endswith (PyStr.lower file_path) ".txt"
    then wrap (utf8_decode content)
    else Ok None
  else Ok None.

(** The steps every processing endpoint starts with: the caller, the
    document they own. *)
Definition owned_document (user_id document_id : Z) : handler Document :=
  w <- get_world ;;
  user <- require (get_user w user_id) (error 404 "User not found") ;;
  require (get_owned_document w document_id user_id)
    (error 404 "Document not found").

(** The text of the document's file, or the error response. *)
Definition document_text (what : string) (document : Document) : handler string :=
  w <- get_world ;;
  file <- require (disk w (d_file_path document))
            (error 404 "Document file not found") ;;
  text_content <- attempt what
    (extract_text_from_file (d_file_path document) (f_content file)
       (d_file_type document)) ;;
  leave_if (negb (opt_truthy text_content))
    (error 400 "Could not extract text from document") ;;
  ret (default "" text_content).

Definition set_processed (self : Document) : Document :=
  {| d_id := d_id self; d_filename := d_filename self;
     d_original_filename := d_original_filename self;
     d_file_path := d_file_path self; d_file_size := d_file_size self;
     d_file_type := d_file_type self; d_content_hash := d_content_hash self;
     d_encryption_key := d_encryption_key self;
     d_uploaded_at := d_uploaded_at self; d_user_id := d_user_id self;
     d_case_number := d_case_number self; d_tags := d_tags self;
     d_description := d_description self;
     d_is_processed := true;
     d_processing_status := "completed" |}.

(** The upsert of a summary row of a given type. *)
Definition upsert_summary (ctx : Context) (document_id : Z)
    (summary_type content : string) (confidence : Q) : handler DocumentSummary :=
  w <- get_world ;;
  match first (fun x => (s_document_id x =? document_id)
                        && String.eqb (s_summary_type x) summary_type)%bool
          (summaries w) with
  | Some existing =>
      let summary :=
        {| s_id := s_id existing; s_document_id := s_document_id existing;
           s_summary_type := s_summary_type existing; s_content := content;
           s_confidence_score := s_confidence_score existing;
           s_created_at := Some (utcnow ctx);
           s_processing_time := Some (elapsed ctx) |} in
      modify (fun w =>
        set_summaries
          (map (fun x => if s_id x =? s_id summary then summary else x)
             (summaries w)) w) ;;
      ret summary
  | None =>
      let summary :=
        {| s_id := next_id (map s_id (summaries w));
           s_document_id := document_id;
           s_summary_type := summary_type; s_content := content;
           s_confidence_score := Some confidence;
           s_created_at := Some (utcnow ctx);
           s_processing_time := Some (elapsed ctx) |} in
      modify (fun w => set_summaries (summaries w ++ [summary])%list w) ;;
      ret summary
  end.

Definition summarize_document (ctx : Context) (user_id document_id : Z)
    (data_summary_type : option string) : World -> Response * World :=
  endpoint (
    document <- owned_document user_id document_id ;;
    let summary_type := default "brief" data_summary_type in
    leave_if (negb (str_in summary_type ["brief"; "detailed"; "key_points"]))
      (error 400 "Invalid summary type") ;;
    text_content <- document_text "Summarization failed" document ;;
    let summary_content := generate_summary_basic text_content summary_type in
    let processing_time := elapsed ctx in
    summary <- upsert_summary ctx document_id summary_type summary_content
                 (8 # 10) ;;
    modify (update_document_row (set_processed document)) ;;
    create_chain_of_custody_record ctx (d_id document) "summarized" user_id
      [("summary_type", JStr summary_type);
       ("processing_time", JReal processing_time)] ;;
    log_audit_event ctx "document_summarized" "document"
      (Some (str_of_int document_id)) (Some user_id)
      (Some [("filename", JStr (d_original_filename document));
             ("summary_type", JStr summary_type);
             ("processing_time", JReal processing_time)]) ;;
    ret (jsonify 200 [("message", JStr "Document summarized successfully");
                      ("summary", summary_to_dict summary)])).

(** The custom branch of [redact_document]: for each pattern, the
    matches on the text so far, then the substitution. *)
Fixpoint redact_custom (custom_patterns : list string) (redaction_text : string)
    (redacted_text : string) (redactions_made : list (string * nat * nat))
    : raising (string * list (string * nat * nat)) :=
  match custom_patterns with
  | [] => Ok (redacted_text, redactions_made)
  | pattern :: more =>
      match re_finditer_ignorecase pattern redacted_text with
      | Raised msg => Raised msg
      | Ok matches =>
          match re_sub_ignorecase pattern redaction_text redacted_text with
          | Raised msg => Raised msg
          | Ok redacted_text' =>
              redact_custom more redaction_text redacted_text'
                (redactions_made ++ matches)%list
          end
      end
  end.

(** The rows [redact_document] stores, one per redaction. *)
Fixpoint redaction_rows (ctx : Context) (document_id user_id : Z)
    (redaction_type redaction_text : string) (first_id : Z)
    (made : list (string * nat * nat)) : list DocumentRedaction :=
  match made with
  | [] => []
  | (original, start, stop) :: more =>
      {| r_id := first_id; r_document_id := document_id;
         r_redaction_type := redaction_type;
         r_start_position := Some (Z.of_nat start);
         r_end_position := Some (Z.of_nat stop);
         r_original_text := Some original;
         r_redacted_text := Some redaction_text;
         r_reason := Some ("Automatic " ++ redaction_type ++ " redaction");
         r_created_at := Some (utcnow ctx);
         r_applied_by := Some user_id |}
      :: redaction_rows ctx document_id user_id redaction_type redaction_text
           (first_id + 1) more
  end.

Definition redact_document (ctx : Context) (user_id document_id : Z)
    (data_redaction_type : option string) (data_custom_patterns : list string)
    (data_redaction_text : option string) : World -> Response * World :=
  endpoint (
    document <- owned_document user_id document_id ;;
    let redaction_type := default "pii" data_redaction_type in
    let custom_patterns := data_custom_patterns in
    let redaction_text := default Redact.default_marker data_redaction_text in
    text_content <- document_text "Redaction failed" document ;;
    made <- attempt "Redaction failed"
      (if (String.eqb redaction_type "custom"
           && negb (Nat.eqb (List.length custom_patterns) 0))%bool
       then redact_custom custom_patterns redaction_text text_content []
       else
         match Redact.redact_text text_content redaction_text with
         | Redact.Redacted t l =>
             Ok (t, map (fun e => (Redact.e_original e, Redact.e_start e,
                                   Redact.e_end e)) l)
         | Redact.Unchanged _ => Raised "not enough values to unpack"
         end) ;;
    let '(redacted_text, redactions_made) := made in
    modify (fun w =>
      set_redactions
        (redactions w
           ++ redaction_rows ctx document_id user_id redaction_type
                redaction_text (next_id (map r_id (redactions w)))
                redactions_made)%list w) ;;
    let count := Z.of_nat (List.length redactions_made) in
    create_chain_of_custody_record ctx (d_id document) "redacted" user_id
      [("redaction_type", JStr redaction_type);
       ("redactions_count", JNum count)] ;;
    log_audit_event ctx "document_redacted" "document"
      (Some (str_of_int document_id)) (Some user_id)
      (Some [("filename", JStr (d_original_filename document));
             ("redaction_type", JStr redaction_type);
             ("redactions_count", JNum count)]) ;;
    ret (jsonify 200
           [("message", JStr "Document redacted successfully");
            ("redactions_count", JNum count);
            ("redacted_text",
             JStr (if (1000 <? String.length redacted_text)%nat
                   then PyStr.take 1000 redacted_text ++ "..."
                   else redacted_text))])).

(** The rows [generate_timeline] stores, one per extracted event. *)
Fixpoint timeline_rows (ctx : Context) (document_id : Z) (first_id : Z)
    (events : list TimelineEvent) : list DocumentTimeline :=
  match events with
  | [] => []
  | event :: more =>
      {| t_id := first_id; t_document_id := document_id;
         t_event_date := ev_date event; t_event_type := "extracted";
         t_event_description := ev_description event;
         t_page_number := None;
         t_confidence_score := Some (ev_confidence event);
         t_extracted_at := Some (utcnow ctx) |}
      :: timeline_rows ctx document_id (first_id + 1) more
  end.

Definition generate_timeline (ctx : Context) (user_id document_id : Z)
    : World -> Response * World :=
  endpoint (
    document <- owned_document user_id document_id ;;
    text_content <- document_text "Timeline generation failed" document ;;
    let timeline_events := extract_timeline_events_basic text_content in
    let processing_time := elapsed ctx in
    (* DocumentTimeline.query.filter_by(document_id=document_id).delete() *)
    modify (fun w =>
      set_timelines
        (filter (fun t => negb (t_document_id t =? document_id)) (timelines w))
        w) ;;
    w <- get_world ;;
    let timeline_records :=
      timeline_rows ctx document_id (next_id (map t_id (timelines w)))
        timeline_events in
    modify (fun w => set_timelines (timelines w ++ timeline_records)%list w) ;;
    let count := Z.of_nat (List.length timeline_events) in
    create_chain_of_custody_record ctx (d_id document) "timeline_generated"
      user_id
      [("events_extracted", JNum count);
       ("processing_time", JReal processing_time)] ;;
    log_audit_event ctx "document_timeline_generated" "document"
      (Some (str_of_int document_id)) (Some user_id)
      (Some [("filename", JStr (d_original_filename document));
             ("events_extracted", JNum count);
             ("processing_time", JReal processing_time)]) ;;
    ret (jsonify 200
           [("message", JStr "Timeline generated successfully");
            ("events_count", JNum count);
            ("timeline", JList (map timeline_to_dict timeline_records));
            ("processing_time", JReal processing_time)])).

Definition transcribe_document (ctx : Context) (user_id document_id : Z)
    : World -> Response * World :=
  endpoint (
    document <- owned_document user_id document_id ;;
    leave_if (negb (str_in (d_file_type document) ["audio"; "video"]))
      (error 400 "Document is not audio or video") ;;
    let transcription :=
      "[PLACEHOLDER TRANSCRIPTION] This is a placeholder transcription for "
      ++ d_original_filename document
      ++ ". In production, this would contain the actual transcribed audio/video content using AI services." in
    let processing_time := elapsed ctx in
    summary <- upsert_summary ctx document_id "transcription" transcription
                 (9 # 10) ;;
    create_chain_of_custody_record ctx (d_id document) "transcribed" user_id
      [("processing_time", JReal processing_time)] ;;
    log_audit_event ctx "document_transcribed" "document"
      (Some (str_of_int document_id)) (Some user_id)
      (Some [("filename", JStr (d_original_filename document));
             ("processing_time", JReal processing_time)]) ;;
    ret (jsonify 200 [("message", JStr "Document transcribed successfully");
                      ("transcription", summary_to_dict summary)])).

Definition get_document_summaries (user_id document_id : Z)
    : World -> Response * World :=
  endpoint (
    document <- owned_document user_id document_id ;;
    w <- get_world ;;
    ret (jsonify 200
           [("summaries",
             JList (map summary_to_dict
                      (filter (fun x => s_document_id x =? document_id)
                         (summaries w))))])).

Definition get_document_redactions (user_id document_id : Z)
    : World -> Response * World :=
  endpoint (
    document <- owned_document user_id document_id ;;
    w <- get_world ;;
    ret (jsonify 200
           [("redactions",
             JList (map redaction_to_dict
                      (filter (fun x => r_document_id x =? document_id)
                         (redactions w))))])).

Definition get_document_timeline (user_id document_id : Z)
    : World -> Response * World :=
  endpoint (
    document <- owned_document user_id document_id ;;
    w <- get_world ;;
    ret (jsonify 200
           [("timeline",
             JList (map timeline_to_dict
                      (sql_order_by (fun t => Some (t_event_date t)) false
                         (filter (fun x => t_document_id x =? document_id)
                            (timelines w)))))])).

(** ** routes/analysis.py *)

Definition audit_to_dict (self : AuditLog) : raising json :=
  let fields (details : json) :=
    JObj [("id", JNum (a_id self)); ("user_id", jopt_num (a_user_id self));
          ("action", JStr (a_action self));
          ("resource_type", JStr (a_resource_type self));
          ("resource_id", jopt_str (a_resource_id self));
          ("details", details);
          ("ip_address", jopt_str (a_ip_address self));
          ("user_agent", jopt_str (a_user_agent self));
          ("timestamp", jopt_iso (a_timestamp self));
          ("session_id", jopt_str (a_session_id self))] in
  if opt_truthy (a_details self) then
    match json_loads (default "" (a_details self)) with
    | Ok j => Ok (fields j)
    | Raised msg => Raised msg
    end
  else Ok (fields (JObj [])).

Definition loads_or_empty (o : option string) : raising json :=
  if opt_truthy o then json_loads (default "" o) else Ok (JList []).

Definition chat_to_dict (self : ChatAnalysis) : raising json :=
  match loads_or_empty (c_keywords self) with
  | Raised msg => Raised msg
  | Ok keywords =>
      match loads_or_empty (c_entities self) with
      | Raised msg => Raised msg
      | Ok entities =>
          Ok (JObj [("id", JNum (c_id self)); ("user_id", JNum (c_user_id self));
                    ("analysis_result", jopt_str (c_analysis_result self));
                    ("sentiment_score", default JNull (c_sentiment_score self));
                    ("keywords", keywords); ("entities", entities);
                    ("content_hash", JStr (c_content_hash self));
                    ("created_at", jopt_iso (c_created_at self));
                    ("processing_time", jopt_real (c_processing_time self))])
      end
  end.

(** The truth value of a JSON value. *)
Definition json_truthy (j : json) : bool :=
  match j with
  | JNull => false
  | JBool b => b
  | JNum n => negb (n =? 0)
  | JReal q => negb (Qeq_bool q 0)
  | JStr s => PyStr.truthy s
  | JIso _ => true
  | JList l => negb (Nat.eqb (List.length l) 0)
  | JObj l => negb (Nat.eqb (List.length l) 0)
  end.

Definition is_privileged (o : option User) : bool :=
  match o with
  | Some user => str_in (u_role user) ["admin"; "forensic_analyst"]
  | None => false
  end.

Definition analyze_chat (ctx : Context) (user_id : Z)
    (data_content : option string) : World -> Response * World :=
  endpoint (
    w <- get_world ;;
    user <- require (get_user w user_id) (error 404 "User not found") ;;
    chat_content <- require data_content (error 400 "Chat content is required") ;;
    leave_if (String.length (strip chat_content) <? 5)%nat
      (error 400 "Chat content too short for analysis") ;;
    leave_if (10000 <? Z.of_nat (String.length chat_content))
      (error 400 "Chat content too long (max 10,000 characters)") ;;
    let content_hash := calculate_file_hash (utf8_encode chat_content) in
    match first (fun c =>
                   (String.eqb (c_content_hash c) content_hash
                    && (c_user_id c =? user_id)
                    && match c_created_at c with
                       | Some t => utcnow ctx - timedelta_hours 1 <? t
                       | None => false
                       end)%bool) (chat_analyses w) with
    | Some existing_analysis =>
        log_audit_event ctx "chat_analysis_retrieved" "chat"
          (Some (str_of_int (c_id existing_analysis))) (Some user_id)
          (Some [("content_hash", JStr content_hash)]) ;;
        dict <- attempt "Analysis failed" (chat_to_dict existing_analysis) ;;
        ret (jsonify 200 [("message", JStr "Analysis retrieved from cache");
                          ("analysis", dict)])
    | None =>
        let analysis_result := analyze_chat_content_basic chat_content in
        let processing_time := elapsed ctx in
        let chat_analysis :=
          {| c_id := next_id (map c_id (chat_analyses w));
             c_user_id := user_id;
             c_chat_content := chat_content;
             c_analysis_result := Some (json_dumps analysis_result);
             c_sentiment_score :=
               Some (default (JReal 0) (jget "sentiment_score" analysis_result));
             c_keywords :=
               Some (json_dumps
                       (default (JList []) (jget "keywords" analysis_result)));
             c_entities :=
               Some (json_dumps
                       (default (JList []) (jget "entities" analysis_result)));
             c_content_hash := content_hash;
             c_created_at := Some (utcnow ctx);
             c_processing_time := Some processing_time |} in
        modify (fun w =>
          set_chat_analyses (chat_analyses w ++ [chat_analysis])%list w) ;;
        log_audit_event ctx "chat_analyzed" "chat"
          (Some (str_of_int (c_id chat_analysis))) (Some user_id)
          (Some [("content_hash", JStr content_hash);
                 ("sentiment",
                  default JNull (jget "sentiment" analysis_result));
                 ("urgency_level",
                  default JNull (jget "urgency_level" analysis_result));
                 ("contains_sensitive_info",
                  default JNull (jget "contains_sensitive_info" analysis_result));
                 ("processing_time", JReal processing_time)]) ;;
        (if json_truthy
              (default JNull (jget "contains_sensitive_info" analysis_result))
         then
           log_audit_event ctx "sensitive_content_detected" "chat"
             (Some (str_of_int (c_id chat_analysis))) (Some user_id)
             (Some [("content_hash", JStr content_hash)])
         else ret tt) ;;
        dict <- attempt "Analysis failed" (chat_to_dict chat_analysis) ;;
        ret (jsonify 201 [("message", JStr "Chat analyzed successfully");
                          ("analysis", dict)])
    end).

(** [x.timestamp.isoformat()] raises on a missing timestamp. *)
Definition isoformat_of (o : option AuditLog) : raising json :=
  match o with
  | None => Ok JNull
  | Some a =>
      match a_timestamp a with
      | Some t => Ok (JIso t)
      | None => Raised "'NoneType' object has no attribute 'isoformat'"
      end
  end.

Definition count_distinct_Z (l : list Z) : Z :=
  Z.of_nat (List.length (nodup Z.eq_dec l)).

Definition count_distinct_str (l : list string) : Z :=
  Z.of_nat (List.length (nodup string_dec l)).

Definition get_forensic_data (ctx : Context) (user_id resource_id : Z)
    (arg_type : option string) : World -> Response * World :=
  endpoint (
    w <- get_world ;;
    leave_if (negb (is_privileged (get_user w user_id)))
      (error 403 "Insufficient permissions for forensic access") ;;
    let resource_type := default "document" arg_type in
    leave_if (negb (str_in resource_type ["document"; "chat"; "user"]))
      (error 400 "Invalid resource type") ;;
    let logs :=
      sql_order_by a_timestamp true
        (filter (fun a =>
           (String.eqb (a_resource_type a) resource_type
            && match a_resource_id a with
               | Some r => String.eqb r (str_of_int resource_id)
               | None => false
               end)%bool) (audit_logs w)) in
    trail <- attempt "Failed to get forensic data"
               (map_raising audit_to_dict logs) ;;
    first_event <- attempt "Failed to get forensic data"
                     (isoformat_of (last (map Some logs) None)) ;;
    last_event <- attempt "Failed to get forensic data"
                    (isoformat_of (hd_error logs)) ;;
    let forensic_data :=
      [("resource_id", JNum resource_id);
       ("resource_type", JStr resource_type);
       ("audit_trail", JList trail);
       ("summary",
        JObj [("total_events", JNum (Z.of_nat (List.length logs)));
              ("unique_users",
               JNum (count_distinct_Z
                       (flat_map (fun a =>
                          match a_user_id a with
                          | Some u => if u =? 0 then [] else [u]
                          | None => []
                          end) logs)));
              ("unique_actions",
               JNum (count_distinct_str (map a_action logs)));
              ("date_range",
               JObj [("first_event", first_event);
                     ("last_event", last_event)])])] in
    details <-
      (if String.eqb resource_type "document" then
         match first (fun d => d_id d =? resource_id) (documents w) with
         | Some document =>
             dict <- attempt "Failed to get forensic data"
                       (document_to_dict document) ;;
             (* routes/analysis.py does not import [os] *)
             leave (failure "Failed to get forensic data"
                      "name 'os' is not defined")
         | None => ret []
         end
       else if String.eqb resource_type "chat" then
         match first (fun c => c_id c =? resource_id) (chat_analyses w) with
         | Some chat_analysis =>
             dict <- attempt "Failed to get forensic data"
                       (chat_to_dict chat_analysis) ;;
             ret [("resource_details", dict)]
         | None => ret []
         end
       else ret []) ;;
    log_audit_event ctx "forensic_data_accessed" resource_type
      (Some (str_of_int resource_id)) (Some user_id)
      (Some [("accessed_by",
              JStr (match get_user w user_id with
                    | Some u => u_username u
                    | None => EmptyString
                    end));
             ("events_count", JNum (Z.of_nat (List.length logs)))]) ;;
    ret (jsonify 200
           [("message", JStr "Forensic data retrieved successfully");
            ("forensic_data", JObj (forensic_data ++ details)%list)])).

(** The query parameters of [/audit/logs]. *)
Record AuditQuery : Type := {
  q_page : option Z;
  q_per_page : option Z;
  q_action : option string;
  q_resource_type : option string;
  q_user_id : option Z;
  q_start_date : option string;
  q_end_date : option string
}.

Definition get_audit_logs (ctx : Context) (user_id : Z) (args : AuditQuery)
    : World -> Response * World :=
  endpoint (
    w <- get_world ;;
    leave_if (negb (is_privileged (get_user w user_id)))
      (error 403 "Insufficient permissions for audit access") ;;
    let page := default 1 (q_page args) in
    let per_page := Z.min (default 50 (q_per_page args)) 200 in
    let query := audit_logs w in
    let query :=
      if opt_truthy (q_action args) then
        filter (fun a =>
          sql_ilike ("%" ++ default "" (q_action args) ++ "%") (a_action a))
          query
      else query in
    let query :=
      if opt_truthy (q_resource_type args) then
        filter (fun a =>
          String.eqb (a_resource_type a) (default "" (q_resource_type args)))
          query
      else query in
    let target_user_id := default 0 (q_user_id args) in
    let query :=
      if negb (target_user_id =? 0) then
        filter (fun a =>
          match a_user_id a with
          | Some u => u =? target_user_id
          | None => false
          end) query
      else query in
    query <-
      (if opt_truthy (q_start_date args) then
         start_dt <- require (fromisoformat (default "" (q_start_date args)))
                       (error 400 "Invalid start_date format") ;;
         ret (filter (fun a =>
                match a_timestamp a with
                | Some t => start_dt <=? t
                | None => false
                end) query)
       else ret query) ;;
    query <-
      (if opt_truthy (q_end_date args) then
         end_dt <- require (fromisoformat (default "" (q_end_date args)))
                     (error 400 "Invalid end_date format") ;;
         ret (filter (fun a =>
                match a_timestamp a with
                | Some t => t <=? end_dt
                | None => false
                end) query)
       else ret query) ;;
    let query := sql_order_by a_timestamp true query in
    let logs := sql_paginate page per_page query in
    log_audit_event ctx "audit_logs_accessed" "system" None (Some user_id)
      (Some [("accessed_by",
              JStr (match get_user w user_id with
                    | Some u => u_username u
                    | None => EmptyString
                    end));
             ("filters",
              JObj [("action", jopt_str (q_action args));
                    ("resource_type", jopt_str (q_resource_type args));
                    ("user_id", jopt_num (q_user_id args));
                    ("start_date", jopt_str (q_start_date args));
                    ("end_date", jopt_str (q_end_date args))]);
             ("results_count", JNum (Z.of_nat (List.length (items logs))))]) ;;
    dicts <- attempt "Failed to get audit logs"
               (map_raising audit_to_dict (items logs)) ;;
    ret (jsonify 200 [("audit_logs", JList dicts);
                      ("pagination", pagination page per_page logs)])).

Definition get_chat_history (user_id : Z) (arg_page arg_per_page : option Z)
    : World -> Response * World :=
  endpoint (
    w <- get_world ;;
    user <- require (get_user w user_id) (error 404 "User not found") ;;
    let page := default 1 arg_page in
    let per_page := Z.min (default 20 arg_per_page) 100 in
    let chats :=
      sql_paginate page per_page
        (sql_order_by c_created_at true
           (filter (fun c => c_user_id c =? user_id) (chat_analyses w))) in
    dicts <- attempt "Failed to get chat history"
               (map_raising chat_to_dict (items chats)) ;;
    ret (jsonify 200 [("chat_history", JList dicts);
                      ("pagination", pagination page per_page chats)])).

Definition count {A : Type} (p : A -> bool) (rows : list A) : Z :=
  Z.of_nat (List.length (filter p rows)).

Definition since (start : datetime) (o : option datetime) : bool :=
  match o with Some t => start <=? t | None => false end.

Definition get_analysis_stats (ctx : Context) (user_id : Z) (arg_days : option Z)
    : World -> Response * World :=
  endpoint (
    w <- get_world ;;
    user <- require (get_user w user_id) (error 404 "User not found") ;;
    let days := default 30 arg_days in
    let start_date := utcnow ctx - timedelta_days days in
    let mine_d (d : Document) := d_user_id d =? user_id in
    let mine_c (c : ChatAnalysis) := c_user_id c =? user_id in
    let audit_stats :=
      if str_in (u_role user) ["admin"; "forensic_analyst"] then
        [("total_audit_logs", JNum (count (fun _ => true) (audit_logs w)));
         ("recent_audit_logs",
          JNum (count (fun a => since start_date (a_timestamp a))
                  (audit_logs w)))]
      else [] in
    let stats :=
      ([("user_stats",
         JObj [("total_documents", JNum (count mine_d (documents w)));
               ("recent_documents",
                JNum (count (fun d => (mine_d d
                                       && since start_date (d_uploaded_at d))%bool)
                        (documents w)));
               ("total_chats", JNum (count mine_c (chat_analyses w)));
               ("recent_chats",
                JNum (count (fun c => (mine_c c
                                       && since start_date (c_created_at c))%bool)
                        (chat_analyses w)))]);
        ("time_range", JStr (str_of_int days ++ " days"))] ++ audit_stats)%list in
    ret (jsonify 200 [("message", JStr "Statistics retrieved successfully");
                      ("stats", JObj stats)])).

Definition export_analysis_data (ctx : Context) (user_id : Z)
    (data_export_type : option string) : World -> Response * World :=
  endpoint (
    w <- get_world ;;
    leave_if (negb (is_privileged (get_user w user_id)))
      (error 403 "Insufficient permissions for data export") ;;
    let username :=
      match get_user w user_id with
      | Some u => u_username u
      | None => EmptyString
      end in
    let export_type := default "full" data_export_type in
    let metadata :=
      [("export_metadata",
        JObj [("generated_by", JStr username);
              ("generated_at", JIso (utcnow ctx));
              ("export_type", JStr export_type);
              ("system_version", JStr "1.0.0")])] in
    docs <-
      (if str_in export_type ["full"; "documents"] then
         dicts <- attempt "Export failed"
                    (map_raising document_to_dict
                       (filter (fun d => d_user_id d =? user_id) (documents w))) ;;
         ret [("documents", JList dicts)]
       else ret []) ;;
    chats <-
      (if str_in export_type ["full"; "chats"] then
         dicts <- attempt "Export failed"
                    (map_raising chat_to_dict
                       (filter (fun c => c_user_id c =? user_id)
                          (chat_analyses w))) ;;
         ret [("chat_analyses", JList dicts)]
       else ret []) ;;
    audits <-
      (if str_in export_type ["full"; "audit"] then
         dicts <- attempt "Export failed"
                    (map_raising audit_to_dict
                       (filter (fun a =>
                          match a_user_id a with
                          | Some u => u =? user_id
                          | None => false
                          end) (audit_logs w))) ;;
         ret [("audit_logs", JList dicts)]
       else ret []) ;;
    log_audit_event ctx "data_exported" "system" None (Some user_id)
      (Some [("export_type", JStr export_type);
             ("exported_by", JStr username)]) ;;
    ret (jsonify 200
           [("message", JStr "Data exported successfully");
            ("export_data", JObj (metadata ++ docs ++ chats ++ audits)%list)])).

(** ** routes/main.py *)

Definition page_view (name : string) : World -> Response * World :=
  endpoint (ret {| status := 200; payload := Template name |}).

Definition health_check : World -> Response * World :=
  endpoint (
    let db_status := if select_one_ok then "healthy" else "unhealthy" in
    ret (jsonify 200 [("status", JStr "healthy");
                      ("database", JStr db_status);
                      ("version", JStr "1.0.0")])).

Definition dashboard_data (user_id : Z) : World -> Response * World :=
  endpoint (
    w <- get_world ;;
    user <- require (get_user w user_id) (error 404 "User not found") ;;
    let mine_d (d : Document) := d_user_id d =? user_id in
    let mine_c (c : ChatAnalysis) := c_user_id c =? user_id in
    let total_documents := count mine_d (documents w) in
    let processed_documents :=
      count (fun d => (mine_d d && d_is_processed d)%bool) (documents w) in
    let total_chats := count mine_c (chat_analyses w) in
    let recent_documents :=
      firstn 5 (sql_order_by d_uploaded_at true (filter mine_d (documents w))) in
    let recent_chats :=
      firstn 5 (sql_order_by c_created_at true (filter mine_c (chat_analyses w))) in
    doc_dicts <- attempt "Failed to get dashboard data"
                   (map_raising document_to_dict recent_documents) ;;
    chat_dicts <- attempt "Failed to get dashboard data"
                    (map_raising chat_to_dict recent_chats) ;;
    let admin :=
      if str_in (u_role user) ["admin"; "forensic_analyst"] then
        [("admin_statistics",
          JObj [("total_users", JNum (Z.of_nat (List.length (users w))));
                ("total_audit_logs",
                 JNum (Z.of_nat (List.length (audit_logs w))))])]
      else [] in
    ret (jsonify 200
           ([("user", user_to_dict user);
             ("statistics",
              JObj [("total_documents", JNum total_documents);
                    ("processed_documents", JNum processed_documents);
                    ("total_chats", JNum total_chats);
                    ("processing_rate",
                     if 0 <? total_documents
                     then JReal (inject_Z processed_documents
                                 / inject_Z total_documents * 100)
                     else JNum 0)]);
             ("recent_documents", JList doc_dicts);
             ("recent_chats", JList chat_dicts)] ++ admin)%list)).

(** ** The operations of the service *)

Inductive Request : Type :=
| Register (data : RegisterData)
| Login (username password : option string)
| Logout (user_id : Z)
| GetProfile (user_id : Z)
| ChangePassword (user_id : Z) (current_password new_password : option string)
| UploadDocument (user_id : Z) (file : option Upload)
    (case_number description tags : option string)
| ListDocuments (user_id : Z) (page per_page : option Z)
    (case_number file_type search : option string)
| GetDocument (user_id document_id : Z)
| DownloadDocument (user_id document_id : Z)
| UpdateDocument (user_id document_id : Z) (data : list (string * option string))
| DeleteDocument (user_id document_id : Z)
| VerifyDocumentIntegrity (user_id document_id : Z)
| SummarizeDocument (user_id document_id : Z) (summary_type : option string)
| RedactDocument (user_id document_id : Z) (redaction_type : option string)
    (custom_patterns : list string) (redaction_text : option string)
| GenerateTimeline (user_id document_id : Z)
| TranscribeDocument (user_id document_id : Z)
| GetDocumentSummaries (user_id document_id : Z)
| GetDocumentRedactions (user_id document_id : Z)
| GetDocumentTimeline (user_id document_id : Z)
| AnalyzeChat (user_id : Z) (content : option string)
| GetForensicData (user_id resource_id : Z) (type : option string)
| GetAuditLogs (user_id : Z) (args : AuditQuery)
| GetChatHistory (user_id : Z) (page per_page : option Z)
| GetAnalysisStats (user_id : Z) (days : option Z)
| ExportAnalysisData (user_id : Z) (export_type : option string)
| HealthCheck
| DashboardData (user_id : Z)
| PageView (name : string).

Definition handle (ctx : Context) (req : Request) : World -> Response * World :=
  match req with
  | Register data => register ctx data
  | Login u p => login ctx u p
  | Logout uid => logout ctx uid
  | GetProfile uid => get_profile uid
  | ChangePassword uid c n => change_password ctx uid c n
  | UploadDocument uid f c d t => upload_document ctx uid f c d t
  | ListDocuments uid pg pp c f s => list_documents uid pg pp c f s
  | GetDocument uid did => get_document ctx uid did
  | DownloadDocument uid did => download_document ctx uid did
  | UpdateDocument uid did data => update_document ctx uid did data
  | DeleteDocument uid did => delete_document ctx uid did
  | VerifyDocumentIntegrity uid did => verify_document_integrity ctx uid did
  | SummarizeDocument uid did t => summarize_document ctx uid did t
  | RedactDocument uid did t ps m => redact_document ctx uid did t ps m
  | GenerateTimeline uid did => generate_timeline ctx uid did
  | TranscribeDocument uid did => transcribe_document ctx uid did
  | GetDocumentSummaries uid did => get_document_summaries uid did
  | GetDocumentRedactions uid did => get_document_redactions uid did
  | GetDocumentTimeline uid did => get_document_timeline uid did
  | AnalyzeChat uid c => analyze_chat ctx uid c
  | GetForensicData uid rid t => get_forensic_data ctx uid rid t
  | GetAuditLogs uid args => get_audit_logs ctx uid args
  | GetChatHistory uid pg pp => get_chat_history uid pg pp
  | GetAnalysisStats uid d => get_analysis_stats ctx uid d
  | ExportAnalysisData uid t => export_analysis_data ctx uid t
  | HealthCheck => health_check
  | DashboardData uid => dashboard_data uid
  | PageView name => page_view name
  end.

(** The states the service reaches from [w] by a sequence of
    operations. *)
Inductive reaches (w : World) : World -> Prop :=
| reaches_refl : reaches w w
| reaches_step : forall w' ctx req,
    reaches w w' -> reaches w (snd (handle ctx req w')).

(** A call is successful when its status is in the 2xx range. *)
Definition successful (r : Response) : bool :=
  ((200 <=? status r) && (status r <? 300))%bool.

End Application.

(** ** The password policy in the words of the specification

    On the code points below 256: an uppercase letter is a character
    [str.isupper] accepts, a lowercase letter one [str.islower]
    accepts, a digit is one of 0 to 9, and a special character is any
    character that is neither a letter nor a digit. *)







(** The narrower policy, with its characters listed: the capitals A to
    Z, the small letters a to z, the digits (0 to 9, on the code points
    below 256), and as special characters the twenty of the list below,
    the last being the double quote. *)







(** ** Vocabulary of the properties *)

(** A step keeps the rows of [audit_logs] it finds, in their order, and
    may add rows after them. *)
Definition grows {A : Type} (m : handler A) : Prop :=
  forall w, exists added, audit_logs (snd (m w)) = (audit_logs w ++ added)%list.

(** The rows a call added to the audit table: exactly one row per
    listed action, in that order, each with a timestamp. *)
Definition appended (w w' : World) (actions : list string) : Prop :=
  exists rows,
    audit_logs w' = (audit_logs w ++ rows)%list
    /\ map a_action rows = actions
    /\ Forall (fun e => a_timestamp e <> None) rows.

(** The timeline rows of document [did]. *)
Definition timeline_of (did : Z) (w : World) : list DocumentTimeline :=
  filter (fun t => t_document_id t =? did) (timelines w).

(** The timeline rows of the other documents. *)
Definition timelines_of_others (did : Z) (w : World) : list DocumentTimeline :=
  filter (fun t => negb (t_document_id t =? did)) (timelines w).

(** The text whose redaction the specification describes. *)
Definition SSN : string := "123-45-6789".


Definition first_char (s : string) : option ascii :=
  match s with String a _ => Some a | EmptyString => None end.

(** The redaction entry of a match of the pattern called [name]. *)
Definition mk_entry (name : string) (m : Re.Match) : Redact.entry :=
  Redact.Entry name (Re.m_group m) (Re.m_start m) (Re.m_end m).

(** The entry of an occurrence of [SSN] at offset [n]. *)
Definition ssn_entry_at (n : nat) : Redact.entry :=
  Redact.Entry "ssn" SSN n (n + 11).






(** A pattern that can only match at a digit. *)
Definition digit_led (r : Re.regex) : Prop :=
  forall p s i,
    match s with String a _ => Cls.digit a = false | EmptyString => True end ->
    Re.match_at r (Re.Cursor p s i) = None.

(** ** utils/helpers.py: extract_keywords

    The function as the source has it, with [re.findall] on the matcher
    of the redaction patterns and [Counter.most_common] as the stable
    sort by decreasing count it is. *)

Module Keywords.
Import Re.

Definition stop_words : list string :=
  ["the"; "a"; "an"; "and"; "or"; "but"; "in"; "on"; "at"; "to"; "for";
   "of"; "with"; "by"; "from"; "up"; "about"; "into"; "through"; "during";
   "before"; "after"; "above"; "below"; "under"; "between"; "is"; "are";
   "was"; "were"; "be"; "been"; "being"; "have"; "has"; "had"; "do"; "does";
   "did"; "will"; "would"; "could"; "should"; "may"; "might"; "must"; "can";
   "this"; "that"; "these"; "those"; "i"; "you"; "he"; "she"; "it"; "we";
   "they"].

(** [[a-zA-Z]] *)
Definition letter (c : ascii) : bool := (Cls.lower c || Cls.upper c)%bool.

(** [\b[a-zA-Z]+\b] *)
Definition word_pattern : regex := Cat Bnd (Cat (Many 1 letter) Bnd).

(** [re.findall] of a pattern without groups. *)
Definition findall (r : regex) (s : string) : list string :=
  map m_group (finditer r s).

(** [Counter(words)]: the distinct words in the order of their first
    occurrence, each with the number of its occurrences. *)
Fixpoint tally (word : string) (counts : list (string * nat))
    : list (string * nat) :=
  match counts with
  | [] => [(word, 1%nat)]
  | (k, n) :: rest =>
      if String.eqb k word then (k, S n) :: rest
      else (k, n) :: tally word rest
  end.

Definition Counter (words : list string) : list (string * nat) :=
  fold_left (fun counts word => tally word counts) words [].

(** [most_common(n)]: by decreasing count, words of equal count in the
    order of the counter; the first [n]. *)
Fixpoint place (x : string * nat) (sorted : list (string * nat))
    : list (string * nat) :=
  match sorted with
  | [] => [x]
  | y :: rest =>
      if (snd y <=? snd x)%nat then x :: y :: rest
      else y :: place x rest
  end.

Definition most_common (n : nat) (counts : list (string * nat))
    : list (string * nat) :=
  firstn n (fold_right place [] counts).

(** The list [keywords] of the body: the words of the lowercased text
    that are long enough and are not stop words. *)
Definition candidates (text : string) (min_length : nat) : list string :=
  let words := findall word_pattern (PyStr.lower text) in
  filter (fun word =>
    ((min_length <=? String.length word)%nat
     && negb (str_in word stop_words))%bool) words.

Definition extract_keywords (text : string) (min_length : nat) : list string :=
  if negb (PyStr.truthy text) then []
  else map fst (most_common 20 (Counter (candidates text min_length))).

End Keywords.

(** ** utils/helpers.py: validate_json_structure *)

(** The first of the required fields that is not a key of the object. *)
Fixpoint first_missing (fields : list (string * json))
    (required_fields : list string) : option string :=
  match required_fields with
  | [] => None
  | field :: rest =>
      match assoc field fields with
      | None => Some field
      | Some _ => first_missing fields rest
      end
  end.

Definition validate_json_structure (data : json)
    (required_fields : list string) : bool * string :=
  match data with
  | JObj fields =>
      match first_missing fields required_fields with
      | Some field => (false, "Required field '" ++ field ++ "' is missing")
      | None => (true, "Valid")
      end
  | _ => (false, "Data must be a JSON object")
  end.

(** ** routes/processing.py: generate_summary_basic

    The function behind the field of the same name of [TextAnalyzer],
    as the source has it. *)

Module Summary.

(** [[.!?]] *)
Definition mark (c : ascii) : bool := PyStr.mem ".!?" c.

(** [re.split(r'[.!?]+', text)]: the pieces between the runs of marks,
    the empty pieces at both ends included. *)
Fixpoint re_split (text : string) : list string :=
  match text with
  | EmptyString => [EmptyString]
  | String c rest =>
      if mark c then
        match rest with
        | String c' _ => if mark c' then re_split rest
                         else EmptyString :: re_split rest
        | EmptyString => EmptyString :: re_split rest
        end
      else
        match re_split rest with
        | piece :: pieces => String c piece :: pieces
        | [] => [String c EmptyString]
        end
  end.

(** [sep.join(items)] *)
Fixpoint join (sep : string) (items : list string) : string :=
  match items with
  | [] => EmptyString
  | [x] => x
  | x :: rest => x ++ sep ++ join sep rest
  end.

(** [sub in s] *)
Fixpoint str_contains (s sub : string) : bool :=
  (String.prefix sub s
   || match s with
      | String _ s' => str_contains s' sub
      | EmptyString => false
      end)%bool.

Definition key_terms : list string :=
  ["important"; "significant"; "concluded"; "determined"; "found";
   "evidence"; "result"].

(** The list [sentences] of the body: the stripped pieces of more than
    twenty characters. *)
Definition sentences (text : string) : list string :=
  filter (fun s => (20 <? String.length s)%nat) (map strip (re_split text)).

Definition has_key_term (sentence : string) : bool :=
  existsb (fun term => str_contains (PyStr.lower sentence) term) key_terms.

Definition generate_summary_basic (text summary_type : string) : string :=
  if (negb (PyStr.truthy text) || (String.length (strip text) <? 100)%nat)%bool
  then "Document too short for meaningful summary."
  else
    let sentences := sentences text in
    if String.eqb summary_type "brief" then
      let summary_length := Nat.min 3 (List.length sentences) in
      join ". " (firstn summary_length sentences) ++ "."
    else if String.eqb summary_type "detailed" then
      let summary_length := Nat.min 10 (List.length sentences) in
      join ". " (firstn summary_length sentences) ++ "."
    else if String.eqb summary_type "key_points" then
      let key_sentences := filter has_key_term sentences in
      match key_sentences with
      | _ :: _ => join ". " (firstn 5 key_sentences) ++ "."
      | [] => join ". " (firstn 3 sentences) ++ "."
      end
    else "Summary generation failed.".

End Summary.

(** ** Vocabulary of the further properties *)

(** The characters [sanitize_filename] keeps: [[\w\s.-]]. *)
Definition kept_in_filename (c : ascii) : bool :=
  (Cls.word c || Cls.space c || PyStr.mem ".-" c)%bool.

(** The part of a file name after its last dot. *)
Definition extension_of (filename : string) : string :=
  match PyStr.after_last "." filename with
  | Some e => e
  | None => EmptyString
  end.

(** The count a counter holds for a word, and the order of
    [most_common]. *)
Definition held (k : string) (counts : list (string * nat)) : nat :=
  match find (fun x => String.eqb (fst x) k) counts with
  | Some x => snd x
  | None => 0%nat
  end.

Definition outranks (a b : string * nat) : Prop := (snd b <= snd a)%nat.

(** The summary types the endpoint accepts, and the most sentences a
    summary of the type takes. *)
Definition valid_summary_type (summary_type : string) : bool :=
  str_in summary_type ["brief"; "detailed"; "key_points"].

Definition summary_bound (summary_type : string) : nat :=
  if String.eqb summary_type "brief" then 3%nat
  else if String.eqb summary_type "detailed" then 10%nat else 5%nat.

(** The requests that only read. *)
Definition read_only (req : Request) : bool :=
  match req with
  | GetProfile _ | ListDocuments _ _ _ _ _ _ | GetDocumentSummaries _ _
  | GetDocumentRedactions _ _ | GetDocumentTimeline _ _
  | GetChatHistory _ _ _ | GetAnalysisStats _ _ | HealthCheck
  | DashboardData _ | PageView _ => true
  | _ => false
  end.

(** The caller and the document of a request that names a document. *)
Definition document_of (req : Request) : option (Z * Z) :=
  match req with
  | GetDocument uid did | DownloadDocument uid did
  | UpdateDocument uid did _ | DeleteDocument uid did
  | VerifyDocumentIntegrity uid did | SummarizeDocument uid did _
  | RedactDocument uid did _ _ _ | GenerateTimeline uid did
  | TranscribeDocument uid did | GetDocumentSummaries uid did
  | GetDocumentRedactions uid did | GetDocumentTimeline uid did =>
      Some (uid, did)
  | _ => None
  end.

(** The caller of a request reserved to admins and forensic analysts. *)
Definition privileged_only (req : Request) : option Z :=
  match req with
  | GetForensicData uid _ _ | GetAuditLogs uid _ | ExportAnalysisData uid _ =>
      Some uid
  | _ => None
  end.

(** A user name or an e-mail address as [register] stores it and
    [login] looks it up: [x.strip().lower()]. *)
Definition normalized (name : option string) : string :=
  PyStr.lower (strip (default "" name)).

(** The fields of a document that identify it and its stored file. *)
Definition file_identity (d : Document)
    : Z * Z * string * string * string * string * Z * string :=
  (d_id d, d_user_id d, d_filename d, d_original_filename d, d_file_path d,
   d_content_hash d, d_file_size d, d_file_type d).

(** The cache test of [analyze_chat]. *)
Definition cached_for (ctx : Context) (content_hash : string) (user_id : Z)
    (c : ChatAnalysis) : bool :=
  (String.eqb (c_content_hash c) content_hash
   && (c_user_id c =? user_id)
   && match c_created_at c with
      | Some t => utcnow ctx - timedelta_hours 1 <? t
      | None => false
      end)%bool.

(** The parts of the state besides the audit table. *)
Inductive Table : Type :=
| TConfig | TUsers | TDocuments | TSummaries | TRedactions | TTimelines
| TChatAnalyses | TDisk.

(** The part [f] of the state is the same in [w'] as in [w]. *)
Definition same {T : Type} (f : World -> T) : World -> World -> Prop :=
  fun w w' => f w' = f w.

Definition unchanged (t : Table) : World -> World -> Prop :=
  match t with
  | TConfig => same config
  | TUsers => same users
  | TDocuments => same documents
  | TSummaries => same summaries
  | TRedactions => same redactions
  | TTimelines => same timelines
  | TChatAnalyses => same chat_analyses
  | TDisk => same disk
  end.

(** The parts an operation may write. *)
Definition writes (req : Request) : list Table :=
  match req with
  | Register _ | Login _ _ | ChangePassword _ _ _ => [TUsers]
  | UploadDocument _ _ _ _ _ => [TDocuments; TDisk]
  | UpdateDocument _ _ _ => [TDocuments]
  | DeleteDocument _ _ => [TDocuments; TDisk]
  | SummarizeDocument _ _ _ => [TSummaries; TDocuments]
  | TranscribeDocument _ _ => [TSummaries]
  | RedactDocument _ _ _ _ _ => [TRedactions]
  | GenerateTimeline _ _ => [TTimelines]
  | AnalyzeChat _ _ => [TChatAnalyses]
  | _ => []
  end.

(** Every run of [m] takes a state to one related to it by [R]. *)
Definition steps {A : Type} (R : World -> World -> Prop) (m : handler A)
    : Prop :=
  forall w, R w (snd (m w)).

(** What the request context puts in an audit row, besides the
    timestamp every row has. *)
Definition stamped (ctx : Context) (a : AuditLog) : Prop :=
  a_timestamp a <> None
  /\ a_ip_address a = remote_addr ctx
  /\ a_user_agent a = header_user_agent ctx
  /\ a_session_id a = header_session_id ctx.

(** The keys of the audit rows go up with the order of the rows. *)
Definition numbered (w : World) : Prop :=
  StronglySorted Z.lt (map a_id (audit_logs w)).

(** From [w] to [w']: rows were added after those of [w], each stamped
    by [ctx], and the numbering went on. *)
Definition logged (ctx : Context) : World -> World -> Prop :=
  fun w w' =>
    (exists added,
       audit_logs w' = (audit_logs w ++ added)%list
       /\ Forall (stamped ctx) added)
    /\ (numbered w -> numbered w').

(** The fields of a user that identify the account. *)
Definition account (u : User) : Z * string * string :=
  (u_id u, u_username u, u_email u).

(** [rows] with the row of key [id a] replaced by [a]: what a commit
    leaves of a row the endpoint changed. *)
Definition replaced {A : Type} (id : A -> Z) (a : A) (rows : list A) : list A :=
  map (fun x => if id x =? id a then a else x) rows.

(** No two accounts share an id, a user name or an e-mail address. *)
Definition users_distinct (w : World) : Prop :=
  NoDup (map u_id (users w))
  /\ NoDup (map u_username (users w))
  /\ NoDup (map u_email (users w)).

(** No two documents share an id or a content hash. *)
Definition documents_distinct (w : World) : Prop :=
  NoDup (map d_id (documents w))
  /\ NoDup (map d_content_hash (documents w)).

(** Every document belongs to a registered user. *)
Definition owners_registered (w : World) : Prop :=
  forall d, In d (documents w) -> In (d_user_id d) (map u_id (users w)).

(** Every document has one of the five known file types. *)
Definition types_known (w : World) : Prop :=
  forall d, In d (documents w) -> d_file_type d <> "other".

Definition summary_key (s : DocumentSummary) : Z * string :=
  (s_document_id s, s_summary_type s).

(** No two summary rows share an id, or a document and a type. *)
Definition summaries_distinct (w : World) : Prop :=
  NoDup (map s_id (summaries w)) /\ NoDup (map summary_key (summaries w)).

(** ** Test doubles and sample data

    Stand-ins for the libraries, used to run the endpoints on concrete
    requests: the digest of a content is the content itself behind a
    tag, a password hash is the password behind its salt. *)

Module Fixture.

Definition tagged_digest (tag : string) (content : list byte) : string :=
  tag ++ ":" ++ string_of_list_byte content.

Definition test_platform : Platform :=
  {| sha256_hexdigest := tagged_digest "sha256";
     md5_hexdigest := tagged_digest "md5";
     generate_password_hash := fun salt pw => salt ++ "$" ++ pw;
     check_password_hash := fun h pw =>
       match PyStr.after_last "$" h with
       | Some x => String.eqb x pw
       | None => false
       end;
     create_access_token := fun identity _ => "token-" ++ str_of_int identity;
     json_dumps := fun _ => "{...}";
     json_loads := fun s =>
       if String.eqb s "[]" then Ok (JList [])
       else if String.prefix "{" s then Ok (JObj [])
       else Raised "Expecting value";
     utf8_decode := fun b => Ok (string_of_list_byte b);
     pdf_extract_text := fun _ => Raised "EOF marker not found";
     docx_extract_text := fun _ => Raised "File is not a zip file";
     re_finditer_ignorecase := fun _ _ => Ok [];
     re_sub_ignorecase := fun _ _ text => Ok text;
     utf8_encode := list_byte_of_string;
     sql_ilike := fun _ _ => true;
     sql_order_by := fun _ _ _ rows => rows;
     sql_paginate := fun _ _ _ rows =>
       {| items := rows; total := Z.of_nat (List.length rows); pages := 1;
          has_next := false; has_prev := false |};
     fromisoformat := fun _ => None;
     format_2f := fun _ => "0.00";
     select_one_ok := true;
     too_large_text := "413 Request Entity Too Large";
     integrity_error_text := fun _ => "NOT NULL constraint failed" |}.

Definition test_analyzer : TextAnalyzer :=
  {| generate_summary_basic := fun text _ => text;
     extract_timeline_events_basic := fun text =>
       [ {| ev_date := 1700000000000000; ev_description := text;
            ev_confidence := 7 # 10 |} ];
     analyze_chat_content_basic := fun _ => JObj [] |}.

Definition ctx : Context :=
  {| remote_addr := Some "10.0.0.7";
     header_user_agent := Some "curl/8.0";
     header_session_id := None;
     content_length := 4096;
     utcnow := 1750000000000000;
     row_clock := fun k => 1750000000000000 + k;
     uuid4 := "1b4e28ba-2fa1-41d2-883f-0016d3cca427";
     salt := "s4lt";
     elapsed := 1 # 100 |}.

Definition alice : User :=
  {| u_id := 1; u_username := "alice"; u_email := "alice@example.org";
     u_password_hash := "s4lt$Wonder1and!"; u_role := "user";
     u_is_active := true; u_created_at := Some 1740000000000000;
     u_last_login := None |}.

Definition bob : User :=
  {| u_id := 2; u_username := "bob"; u_email := "bob@example.org";
     u_password_hash := "s4lt$Builder2go?"; u_role := "admin";
     u_is_active := true; u_created_at := Some 1740000000000000;
     u_last_login := None |}.

Definition memo_bytes : list byte := list_byte_of_string "memo of 123-45-6789".
Definition tampered_bytes : list byte := list_byte_of_string "memo of 000-00-0000".

(** A document of bob, stored under its digest. *)
Definition memo : Document :=
  {| d_id := 1; d_filename := "f00d_memo.txt";
     d_original_filename := "memo.txt";
     d_file_path := "secure_uploads/f00d_memo.txt";
     d_file_size := 19; d_file_type := "document";
     d_content_hash := tagged_digest "sha256" memo_bytes;
     d_encryption_key := None; d_uploaded_at := Some 1745000000000000;
     d_user_id := 2; d_case_number := Some "C-7"; d_tags := Some "[]";
     d_description := Some ""; d_is_processed := false;
     d_processing_status := "pending" |}.

Definition cfg : Config :=
  {| MAX_CONTENT_LENGTH := 104857600;
     SECURE_UPLOAD_FOLDER := "secure_uploads" |}.

Definition empty_disk : string -> option File := fun _ => None.

(** Two users, no document. *)
Definition fresh : World :=
  {| config := cfg; users := [alice; bob]; documents := [];
     summaries := []; redactions := []; timelines := [];
     audit_logs := []; chat_analyses := []; disk := empty_disk |}.

(** Bob's memo stored, its file intact. *)
Definition stored : World :=
  {| config := cfg; users := [alice; bob]; documents := [memo];
     summaries := []; redactions := []; timelines := [];
     audit_logs := []; chat_analyses := [];
     disk := write_file "secure_uploads/f00d_memo.txt"
               {| f_content := memo_bytes; f_mtime := 1745000000000000 |}
               empty_disk |}.

Definition tampered_file : File :=
  {| f_content := tampered_bytes; f_mtime := 1746000000000000 |}.

(** The same, with the file changed on disk. *)
Definition tampered : World :=
  set_disk (write_file "secure_uploads/f00d_memo.txt" tampered_file
              empty_disk) stored.

Definition memo_upload : Upload :=
  {| up_filename := "memo.txt"; up_content := memo_bytes |}.

(** The same bytes under a name whose extension is not allowed. *)
Definition memo_as_program : Upload :=
  {| up_filename := "memo.exe"; up_content := memo_bytes |}.

(** The same bytes in a file field without a name. *)
Definition memo_unnamed : Upload :=
  {| up_filename := ""; up_content := memo_bytes |}.

(** A request whose body is one byte over the limit. *)
Definition oversized : Context :=
  {| remote_addr := Some "10.0.0.7";
     header_user_agent := Some "curl/8.0";
     header_session_id := None;
     content_length := 104857601;
     utcnow := 1750000000000000;
     row_clock := fun k => 1750000000000000 + k;
     uuid4 := "1b4e28ba-2fa1-41d2-883f-0016d3cca427";
     salt := "s4lt";
     elapsed := 1 # 100 |}.

(** A timeline row of an earlier extraction. *)
Definition old_event (id document_id : Z) : DocumentTimeline :=
  {| t_id := id; t_document_id := document_id;
     t_event_date := 1600000000000000; t_event_type := "extracted";
     t_event_description := "an earlier event"; t_page_number := None;
     t_confidence_score := Some (1 # 2);
     t_extracted_at := Some 1745000000000000 |}.

(** Bob's memo with two timeline rows of its own, next to a row of
    another document. *)
Definition dated : World :=
  set_timelines [old_event 1 1; old_event 2 7; old_event 3 1] stored.

(** Bob's memo with a summary. *)
Definition summarized : World :=
  set_summaries
    [ {| s_id := 1; s_document_id := 1; s_summary_type := "brief";
         s_content := "memo"; s_confidence_score := None;
         s_created_at := Some 1745000000000000;
         s_processing_time := None |} ] stored.

(** [c * n] *)
Fixpoint repeated (c : ascii) (n : nat) : string :=
  match n with
  | O => EmptyString
  | S n' => String c (repeated c n')
  end.

(** A registration request that asks for the admin role. *)
Definition carol : RegisterData :=
  {| reg_username := Some "  Carol "; reg_email := Some "Carol@Example.org";
     reg_password := Some "Str0ng!pass"; reg_role := Some "admin" |}.

Definition note_upload : Upload :=
  {| up_filename := "note.txt";
     up_content := list_byte_of_string "a note" |}.

Definition no_filter : AuditQuery :=
  {| q_page := None; q_per_page := None; q_action := None;
     q_resource_type := None; q_user_id := None; q_start_date := None;
     q_end_date := None |}.

(** A text long enough to be summarised, and one of short sentences
    only. *)
Definition hearing : string :=
  "The court found that the contract was void. It was a short day. The evidence was presented by the plaintiff on Monday! Nothing of note happened during the hearing.".

Definition short_sentences : string :=
  "One two three four. Five six seven. Eight nine ten. Eleven twelve. Thirteen fourteen. Fifteen sixteen. Seventeen eighteen. Nineteen twenty.".

End Fixture.

(** * Properties *)

(** ** The helpers on sample inputs *)

Example validate_password_strength_ok :
  validate_password_strength "Wonder1and!" = true.
Proof. reflexivity. Qed.

Example validate_password_strength_underscore :
  validate_password_strength "Wonder1and_" = false.
Proof. reflexivity. Qed.

Example sanitize_filename_traversal :
  sanitize_filename "../../etc/pa ss$wd.txt" = "pa ss_wd.txt".
Proof. reflexivity. Qed.

Example sanitize_filename_parentheses :
  sanitize_filename "report(final).PDF" = "report_final_.PDF".
Proof. reflexivity. Qed.

Example sanitize_filename_long :
  sanitize_filename (Fixture.repeated "x" 260 ++ ".txt")
  = Fixture.repeated "x" 251 ++ ".txt"
  /\ sanitize_filename ("a." ++ Fixture.repeated "z" 300)
     = "." ++ Fixture.repeated "z" 300.
Proof. split; vm_compute; reflexivity. Qed.

Example splitext_samples :
  splitext "a.b.c" = ("a.b", ".c") /\ splitext "...abc" = ("...abc", "")
  /\ splitext ".bashrc" = (".bashrc", "").
Proof. repeat split. Qed.

Example path_join_samples :
  path_join "secure_uploads" "u_f.txt" = "secure_uploads/u_f.txt"
  /\ path_join "up/" "x" = "up/x" /\ path_join "" "x" = "x"
  /\ path_join "a" "/x" = "/x".
Proof. repeat split. Qed.

Example allowed_file_samples :
  allowed_file "abc.TXT" = true /\ allowed_file "abc" = false
  /\ allowed_file "run.exe" = false /\ allowed_file "abc." = false.
Proof. repeat split. Qed.

Example get_file_type_samples :
  get_file_type "Report.Final.Docx" = "document"
  /\ get_file_type "voice.flac" = "audio" /\ get_file_type "notes" = "other".
Proof. repeat split. Qed.

Example strip_sample :
  PyStr.lower (strip (String "009" (String "032" "Bob "))) = "bob".
Proof. reflexivity. Qed.

Example redact_text_sample :
  Redact.redact_text
    "call 555-123-4567 or mail bob@example.com, card 1234 5678 9012 3456."
    Redact.default_marker
  = Redact.Redacted
      "call ***REDACTED*** or mail ***REDACTED***, card ***REDACTED***."
      [Redact.Entry "phone" "555-123-4567" 5 17;
       Redact.Entry "email" "bob@example.com" 28 43;
       Redact.Entry "credit_card" "1234 5678 9012 3456" 49 68].
Proof. vm_compute. reflexivity. Qed.

Example redact_text_email_backtracking :
  Redact.redact_text "a.b@c.d.efg|hi x@y.z1 q@w.co.uk" "X"
  = Redact.Redacted "X x@y.z1 X"
      [Redact.Entry "email" "a.b@c.d.efg|hi" 0 14;
       Redact.Entry "email" "q@w.co.uk" 22 31].
Proof. vm_compute. reflexivity. Qed.

Example redact_text_empty :
  Redact.redact_text "" Redact.default_marker = Redact.Unchanged "".
Proof. reflexivity. Qed.

(** ** The audit table only grows *)

Section AuditGrowth.

Context {platform : Platform} {analyzer : TextAnalyzer}.

Lemma grows_ret {A : Type} (a : A) : grows (ret a).
Proof. intros w. exists []. simpl. now rewrite app_nil_r. Qed.

Lemma grows_leave {A : Type} (r : Response) : grows (@leave A r).
Proof. intros w. exists []. simpl. now rewrite app_nil_r. Qed.

Lemma grows_get_world : grows get_world.
Proof. intros w. exists []. simpl. now rewrite app_nil_r. Qed.

Lemma grows_bind {A B : Type} (m : handler A) (k : A -> handler B) :
  grows m -> (forall a, grows (k a)) -> grows (bind m k).
Proof.
  intros Hm Hk w. unfold bind.
  destruct (Hm w) as [l1 H1]. destruct (m w) as [[a | r] w1]; simpl in *.
  - destruct (Hk a w1) as [l2 H2]. exists (l1 ++ l2)%list.
    now rewrite H2, H1, app_assoc.
  - now exists l1.
Qed.

Lemma grows_modify (f : World -> World) :
  (forall w, audit_logs (f w) = audit_logs w) -> grows (modify f).
Proof. intros Hf w. exists []. simpl. now rewrite Hf, app_nil_r. Qed.

Lemma grows_leave_if (b : bool) (r : Response) : grows (leave_if b r).
Proof. destruct b; [apply grows_leave | apply grows_ret]. Qed.

Lemma grows_require {A : Type} (o : option A) (r : Response) :
  grows (require o r).
Proof. destruct o; [apply grows_ret | apply grows_leave]. Qed.

Lemma grows_attempt {A : Type} (what : string) (x : raising A) :
  grows (attempt what x).
Proof. destruct x; [apply grows_ret | apply grows_leave]. Qed.

Lemma grows_log_audit_event ctx action resource_type resource_id user_id details :
  grows (log_audit_event ctx action resource_type resource_id user_id details).
Proof. intros w. eexists. reflexivity. Qed.

Lemma grows_create_chain_of_custody_record ctx document_id action user_id details :
  grows (create_chain_of_custody_record ctx document_id action user_id details).
Proof.
  unfold create_chain_of_custody_record.
  apply grows_bind; [apply grows_log_audit_event | intros; apply grows_ret].
Qed.

Lemma grows_endpoint (body : handler Response) :
  grows body ->
  forall w, exists added,
    audit_logs (snd (endpoint body w)) = (audit_logs w ++ added)%list.
Proof.
  intros Hb w. unfold endpoint. destruct (Hb w) as [l Hl].
  destruct (body w) as [[r | r] w']; now exists l.
Qed.

Create HintDb grows discriminated.
#[local] Hint Resolve grows_ret grows_leave grows_get_world grows_leave_if
  grows_require grows_attempt grows_log_audit_event
  grows_create_chain_of_custody_record : grows.

(** The bodies are sequences of such steps: each is handled by the lemma
    of its head, a branch by cases on what it tests. *)
Ltac grows_step :=
  match goal with
  | |- grows (bind _ _) => apply grows_bind; [ | intros ]
  | |- grows (modify _) =>
      apply grows_modify; intros;
      repeat match goal with
             | |- context [if ?b then _ else _] => destruct b
             end; reflexivity
  | |- grows (match ?x with _ => _ end) => destruct x
  | |- grows (let _ := _ in _) => cbv zeta
  | |- grows _ => solve [ auto with grows ]
  end.

Ltac grows_body := cbv zeta; repeat grows_step.

Lemma grows_owned_document user_id document_id :
  grows (owned_document user_id document_id).
Proof. unfold owned_document. grows_body. Qed.

Lemma grows_document_text what document :
  grows (document_text what document).
Proof. unfold document_text. grows_body. Qed.

Lemma grows_upsert_summary ctx document_id summary_type content confidence :
  grows (upsert_summary ctx document_id summary_type content confidence).
Proof. unfold upsert_summary. grows_body. Qed.

#[local] Hint Resolve grows_owned_document grows_document_text
  grows_upsert_summary : grows.

Lemma handle_grows ctx req w :
  exists added,
    audit_logs (snd (handle ctx req w)) = (audit_logs w ++ added)%list.
Proof.
  destruct req; cbn [handle];
    unfold register, login, logout, get_profile, change_password,
      upload_document, list_documents, get_document, download_document,
      update_document, delete_document, verify_document_integrity,
      summarize_document, redact_document, generate_timeline,
      transcribe_document, get_document_summaries, get_document_redactions,
      get_document_timeline, analyze_chat, get_forensic_data, get_audit_logs,
      get_chat_history, get_analysis_stats, export_analysis_data,
      health_check, dashboard_data, page_view;
    apply grows_endpoint; grows_body.
Qed.

End AuditGrowth.

Section Endpoints.

Context {platform : Platform} {analyzer : TextAnalyzer}.

(** C4. The audit log is append-only: whatever operation the service
    runs, the rows of [audit_logs] present before it are all still
    there afterwards, unchanged and in the same order, followed by the
    rows the operation added (none, one or several); and so it is along
    any sequence of operations. *)
Theorem audit_log_append_only :
  (forall ctx req w,
     exists added,
       audit_logs (snd (handle ctx req w)) = (audit_logs w ++ added)%list)
  /\ (forall w w',
        reaches w w' ->
        exists added, audit_logs w' = (audit_logs w ++ added)%list).
Proof.
  split.
  - apply handle_grows.
  - intros w w' Hr. induction Hr as [ | w' ctx req _ [l Hl]].
    + exists []. now rewrite app_nil_r.
    + destruct (handle_grows ctx req w') as [l' Hl'].
      exists (l ++ l')%list. now rewrite Hl', Hl, app_assoc.
Qed.

(** *** Running an endpoint body *)

Ltac exec :=
  cbv beta iota zeta delta
    [endpoint bind ret leave get_world modify leave_if require attempt
     log_audit_event create_chain_of_custody_record owned_document
     document_text jsonify error failure
     set_audit_logs set_users set_documents set_disk set_timelines
     set_redactions set_summaries set_chat_analyses] in *;
  cbn [fst snd status payload audit_logs users documents disk timelines
       redactions summaries chat_analyses config negb] in *.

(** Cases on a test the body is stuck on: a scrutinee that is not itself
    a case analysis. *)
Ltac not_a_match x :=
  lazymatch x with
  | match _ with _ => _ end => fail
  | ?f _ => not_a_match f
  | _ => idtac
  end.

Ltac branch :=
  match goal with
  | |- context [match ?x with _ => _ end] => not_a_match x; destruct x eqn:?
  end.

Lemma calculate_file_hash_sha256 (content : list byte) :
  calculate_file_hash content = sha256_hexdigest content.
Proof. reflexivity. Qed.

(** Primary keys: a new key is larger than every key of the table. *)
Lemma next_id_fresh (ids : list Z) (x : Z) : In x ids -> x < next_id ids.
Proof.
  unfold next_id. induction ids as [ | y ids IH]; cbn [fold_right In]; [easy | ].
  intros [-> | Hin]; [ | specialize (IH Hin) ]; lia.
Qed.

Lemma find_app_none {A : Type} (p : A -> bool) (l : list A) (a : A) :
  (forall x, In x l -> p x = false) -> p a = true -> find p (l ++ [a]) = Some a.
Proof.
  induction l as [ | y l IH]; simpl; intros Hl Ha.
  - now rewrite Ha.
  - rewrite (Hl y) by now left. apply IH; auto.
Qed.

Lemma appended_one w w' ctx action resource_type resource_id user_id details :
  audit_logs w'
  = (audit_logs w
       ++ [new_audit_log ctx w action resource_type resource_id user_id
             details])%list ->
  appended w w' [action].
Proof.
  intros E. eexists. split; [exact E | ]. split; [reflexivity | ].
  repeat constructor. discriminate.
Qed.

Lemma appended_two w w' ctx w1 a1 t1 r1 u1 d1 a2 t2 r2 u2 d2 :
  audit_logs w'
  = ((audit_logs w ++ [new_audit_log ctx w a1 t1 r1 u1 d1])
       ++ [new_audit_log ctx w1 a2 t2 r2 u2 d2])%list ->
  appended w w' [a1; a2].
Proof.
  intros E. eexists. split; [rewrite E, <- app_assoc; reflexivity | ].
  split; [reflexivity | ]. repeat constructor; discriminate.
Qed.

Lemma login_audit ctx u p w :
  successful (fst (login ctx u p w)) = true ->
  appended w (snd (login ctx u p w)) ["login_successful"].
Proof.
  unfold login. exec.
  repeat (branch; exec); try discriminate.
  intros _. eapply appended_one. reflexivity.
Qed.

Lemma export_audit ctx uid t w :
  successful (fst (export_analysis_data ctx uid t w)) = true ->
  appended w (snd (export_analysis_data ctx uid t w)) ["data_exported"].
Proof.
  unfold export_analysis_data. exec.
  repeat (branch; exec); try discriminate.
  all: intros _; eapply appended_one; reflexivity.
Qed.

Lemma upload_audit ctx uid file cn desc tags w :
  successful (fst (upload_document ctx uid file cn desc tags w)) = true ->
  appended w (snd (upload_document ctx uid file cn desc tags w))
    ["chain_of_custody_uploaded"; "document_uploaded"].
Proof.
  unfold upload_document. exec.
  repeat (branch; exec); try discriminate.
  all: intros _; eapply appended_two; reflexivity.
Qed.

Lemma delete_audit ctx uid did w :
  successful (fst (delete_document ctx uid did w)) = true ->
  appended w (snd (delete_document ctx uid did w))
    ["chain_of_custody_deleted"; "document_deleted"].
Proof.
  unfold delete_document. exec.
  repeat (branch; exec); try discriminate.
  all: intros _; eapply appended_two; reflexivity.
Qed.

Lemma redact_audit ctx uid did t ps m w :
  successful (fst (redact_document ctx uid did t ps m w)) = true ->
  appended w (snd (redact_document ctx uid did t ps m w))
    ["chain_of_custody_redacted"; "document_redacted"].
Proof.
  unfold redact_document. exec.
  repeat (branch; exec); try discriminate.
  all: intros _; eapply appended_two; reflexivity.
Qed.

(** C3, as amended.  A successful login or export adds exactly one row
    to the audit table ([login_successful], [data_exported]); a
    successful upload, delete or redact adds exactly two, the
    chain-of-custody row of the action and then the row of the endpoint.
    Every one of these rows has a timestamp. *)
Theorem successful_calls_audit_rows ctx w :
  (forall u p,
     successful (fst (login ctx u p w)) = true ->
     appended w (snd (login ctx u p w)) ["login_successful"])
  /\ (forall uid t,
        successful (fst (export_analysis_data ctx uid t w)) = true ->
        appended w (snd (export_analysis_data ctx uid t w)) ["data_exported"])
  /\ (forall uid file cn desc tags,
        successful (fst (upload_document ctx uid file cn desc tags w)) = true ->
        appended w (snd (upload_document ctx uid file cn desc tags w))
          ["chain_of_custody_uploaded"; "document_uploaded"])
  /\ (forall uid did,
        successful (fst (delete_document ctx uid did w)) = true ->
        appended w (snd (delete_document ctx uid did w))
          ["chain_of_custody_deleted"; "document_deleted"])
  /\ (forall uid did t ps m,
        successful (fst (redact_document ctx uid did t ps m w)) = true ->
        appended w (snd (redact_document ctx uid did t ps m w))
          ["chain_of_custody_redacted"; "document_redacted"]).
Proof.
  repeat split; intros.
  - now apply login_audit.
  - now apply export_audit.
  - now apply upload_audit.
  - now apply delete_audit.
  - now apply redact_audit.
Qed.

(** *** Integrity of stored documents *)

Lemma verify_when_intact ctx uid w d u file :
  get_user w uid = Some u ->
  get_owned_document w (d_id d) uid = Some d ->
  disk w (d_file_path d) = Some file ->
  sha256_hexdigest (f_content file) = d_content_hash d ->
  status (fst (verify_document_integrity ctx uid (d_id d) w)) = 200
  /\ body_field "verified" (fst (verify_document_integrity ctx uid (d_id d) w))
     = Some (JBool true).
Proof.
  intros Hu Hd Hf Hh. unfold verify_document_integrity. exec.
  rewrite Hu. exec. rewrite Hd. exec. rewrite Hf. exec.
  split; [reflexivity | ].
  unfold body_field. cbn [payload jget assoc String.eqb Ascii.eqb Bool.eqb].
  now rewrite calculate_file_hash_sha256, Hh, String.eqb_refl.
Qed.

Lemma write_file_same path f d : write_file path f d path = Some f.
Proof. unfold write_file. now rewrite String.eqb_refl. Qed.

(** What a 201 of [upload_document] leaves behind. *)
Lemma upload_created ctx uid f cn desc tags w :
  status (fst (upload_document ctx uid (Some f) cn desc tags w)) = 201 ->
  exists d u,
    get_user w uid = Some u
    /\ d_id d = next_id (map d_id (documents w))
    /\ d_user_id d = uid
    /\ d_content_hash d = sha256_hexdigest (up_content f)
    /\ documents (snd (upload_document ctx uid (Some f) cn desc tags w))
       = (documents w ++ [d])%list
    /\ users (snd (upload_document ctx uid (Some f) cn desc tags w)) = users w
    /\ disk (snd (upload_document ctx uid (Some f) cn desc tags w))
         (d_file_path d)
       = Some {| f_content := up_content f; f_mtime := utcnow ctx |}.
Proof.
  unfold upload_document. exec.
  repeat (branch; exec); try discriminate.
  intros _. do 2 eexists. split; [reflexivity | ].
  repeat apply conj.
  4: reflexivity.
  all: try reflexivity.
  apply write_file_same.
Qed.

Lemma owned_after_insert (docs : list Document) (d : Document) :
  d_id d = next_id (map d_id docs) ->
  first (fun x => (d_id x =? d_id d) && (d_user_id x =? d_user_id d))%bool
    (docs ++ [d]) = Some d.
Proof.
  intros Hid. apply find_app_none.
  - intros x Hx. apply andb_false_intro1, Z.eqb_neq.
    assert (d_id x < next_id (map d_id docs))
      by (apply next_id_fresh, in_map, Hx).
    lia.
  - now rewrite !Z.eqb_refl.
Qed.

(** C1. After a successful upload of a file with content [b], the new
    document row stores the SHA-256 hex digest of [b];
    [Document.verify_integrity] accepts [b]; the verify endpoint, called
    by the uploader right after the upload, answers 200 with
    [verified = true]; and so it does in any later state in which the
    row is still the uploader's and the file still holds [b]. *)
Theorem upload_hash_verifies ctx uid f cn desc tags w :
  status (fst (upload_document ctx uid (Some f) cn desc tags w)) = 201 ->
  let b := up_content f in
  let w' := snd (upload_document ctx uid (Some f) cn desc tags w) in
  exists d,
    documents w' = (documents w ++ [d])%list
    /\ d_content_hash d = sha256_hexdigest b
    /\ verify_integrity d b = true
    /\ (forall ctx',
          status (fst (verify_document_integrity ctx' uid (d_id d) w')) = 200
          /\ body_field "verified"
               (fst (verify_document_integrity ctx' uid (d_id d) w'))
             = Some (JBool true))
    /\ (forall ctx' w'' file,
          get_user w'' uid <> None ->
          get_owned_document w'' (d_id d) uid = Some d ->
          disk w'' (d_file_path d) = Some file ->
          f_content file = b ->
          status (fst (verify_document_integrity ctx' uid (d_id d) w'')) = 200
          /\ body_field "verified"
               (fst (verify_document_integrity ctx' uid (d_id d) w''))
             = Some (JBool true)).
Proof.
  intros H201 b w'.
  destruct (upload_created _ _ _ _ _ _ _ H201)
    as (d & u & Hu & Hid & Hown & Hhash & Hdocs & Husers & Hdisk).
  fold w' in Hdocs, Husers, Hdisk. fold b in Hhash.
  exists d. split; [exact Hdocs | ]. split; [exact Hhash | ].
  split; [unfold verify_integrity, calculate_hash;
          rewrite Hhash; apply String.eqb_refl | ].
  split.
  - intros ctx'. eapply verify_when_intact with (u := u).
    + unfold get_user. rewrite Husers. exact Hu.
    + unfold get_owned_document. rewrite Hdocs, <- Hown.
      now apply owned_after_insert.
    + exact Hdisk.
    + now rewrite Hhash.
  - intros ctx' w'' file Hu'' Hd'' Hf'' Hb.
    destruct (get_user w'' uid) as [u'' | ] eqn:E; [ | congruence].
    eapply verify_when_intact; eauto. now rewrite Hb, Hhash.
Qed.

(** C2.  What the two endpoints do when the bytes on disk no longer
    hash to the stored [content_hash].  The verify endpoint answers 200
    with [verified = false] after adding one audit row, of the action
    [document_integrity_verified] it uses for every check, with the
    outcome and both hashes in the details: no row of the dedicated
    action [document_integrity_violation] is written.  The download
    endpoint, on the same mismatch, does write such a row before it
    answers 500 without sending the file.  And when the file is gone
    from the disk, the verify endpoint answers [verified = false] with
    no audit row at all. *)
Theorem verify_mismatch_adds_no_violation_row ctx uid did w u d :
  get_user w uid = Some u ->
  get_owned_document w did uid = Some d ->
  (forall file,
     disk w (d_file_path d) = Some file ->
     sha256_hexdigest (f_content file) <> d_content_hash d ->
     (let r := verify_document_integrity ctx uid did w in
      status (fst r) = 200
      /\ body_field "verified" (fst r) = Some (JBool false)
      /\ exists e,
           audit_logs (snd r) = (audit_logs w ++ [e])%list
           /\ a_action e = "document_integrity_verified"
           /\ a_action e <> "document_integrity_violation"
           /\ a_details e
              = Some (json_dumps
                        (JObj [("filename", JStr (d_original_filename d));
                               ("verified", JBool false);
                               ("original_hash", JStr (d_content_hash d));
                               ("current_hash",
                                JStr (sha256_hexdigest (f_content file)))]))
           /\ a_timestamp e <> None)
     /\ (let r := download_document ctx uid did w in
         fst r = error 500 "Document integrity check failed"
         /\ exists e,
              audit_logs (snd r) = (audit_logs w ++ [e])%list
              /\ a_action e = "document_integrity_violation"
              /\ a_resource_id e = Some (str_of_int did)
              /\ a_timestamp e <> None))
  /\ (disk w (d_file_path d) = None ->
      let r := verify_document_integrity ctx uid did w in
      status (fst r) = 404
      /\ body_field "verified" (fst r) = Some (JBool false)
      /\ snd r = w).
Proof.
  intros Hu Hd. split.
  - intros file Hf Hh.
    assert (E : String.eqb (sha256_hexdigest (f_content file))
                  (d_content_hash d) = false) by now apply String.eqb_neq.
    split.
    + unfold verify_document_integrity. exec.
      rewrite Hu. exec. rewrite Hd. exec. rewrite Hf. exec.
      rewrite !calculate_file_hash_sha256, E.
      split; [reflexivity | ]. split; [reflexivity | ].
      eexists. split; [reflexivity | ]. repeat apply conj; try reflexivity.
      all: discriminate.
    + unfold download_document. exec.
      rewrite Hu. exec. rewrite Hd. exec. rewrite Hf. exec.
      unfold verify_integrity, calculate_hash.
      rewrite String.eqb_sym, E. exec.
      split; [reflexivity | ].
      eexists. split; [reflexivity | ]. repeat apply conj; try reflexivity.
      discriminate.
  - intros Hf. cbv zeta. unfold verify_document_integrity. exec.
    rewrite Hu. exec. rewrite Hd. exec. rewrite Hf. exec.
    repeat apply conj; reflexivity.
Qed.

(** *** Duplicate uploads *)

Lemma find_first_hit {A : Type} (p : A -> bool) (l : list A) (a : A) :
  In a l -> p a = true ->
  exists b, find p l = Some b /\ In b l /\ p b = true.
Proof.
  intros Hin Hp. destruct (find p l) as [b | ] eqn:E.
  - exists b. split; [reflexivity | ]. now apply find_some in E.
  - rewrite (find_none _ _ E _ Hin) in Hp. discriminate.
Qed.

(** An upload of bytes some stored document already hashes to changes
    nothing, whatever else the request holds; when the request passes
    the checks that come before the duplicate test, the answer is the
    409 that names the first such document; a body over the limit is
    answered 500. *)
Lemma upload_duplicate ctx uid f cn desc tags w d :
  In d (documents w) ->
  d_content_hash d = sha256_hexdigest (up_content f) ->
  let r := upload_document ctx uid (Some f) cn desc tags w in
  snd r = w
  /\ status (fst r) <> 201
  /\ (get_user w uid <> None ->
      content_length ctx <= MAX_CONTENT_LENGTH (config w) ->
      Z.of_nat (List.length (up_content f)) <= content_length ctx ->
      up_filename f <> "" ->
      allowed_file (up_filename f) = true ->
      exists existing,
        first (fun x => String.eqb (d_content_hash x)
                          (sha256_hexdigest (up_content f))) (documents w)
        = Some existing
        /\ fst r = jsonify 409
                     [("error", JStr "File already exists");
                      ("existing_document_id", JNum (d_id existing))])
  /\ (get_user w uid <> None ->
      MAX_CONTENT_LENGTH (config w) < content_length ctx ->
      fst r = failure "Upload failed" too_large_text).
Proof.
  intros Hin Hh.
  destruct (find_first_hit
              (fun x => String.eqb (d_content_hash x)
                          (sha256_hexdigest (up_content f)))
              (documents w) d Hin) as (e & He & _ & _);
    [now rewrite Hh, String.eqb_refl | ].
  unfold first. cbv zeta. unfold upload_document. exec.
  rewrite !calculate_file_hash_sha256. unfold first. rewrite He.
  repeat apply conj.
  - repeat (branch; exec); reflexivity.
  - repeat (branch; exec); discriminate.
  - intros Hu Hb Hs Hn Ha.
    destruct (get_user w uid); [ | congruence]. exec.
    apply Z.ltb_ge in Hb. rewrite Hb. exec.
    apply String.eqb_neq in Hn. rewrite Hn, Ha. exec.
    assert (Hz : (MAX_CONTENT_LENGTH (config w)
                  <? Z.of_nat (List.length (up_content f))) = false)
      by (apply Z.ltb_ge; apply Z.ltb_ge in Hb; lia).
    rewrite Hz. exec.
    exists e. split; reflexivity.
  - intros Hu Hb.
    destruct (get_user w uid); [ | congruence]. exec.
    apply Z.ltb_lt in Hb. rewrite Hb. exec. reflexivity.
Qed.


(** C9, as amended.  The duplicate test looks at the documents of all
    users: an upload of bytes that a document of another user hashes to, once it
    passes the checks made before the duplicate test (a known
    uploader, a request body within [MAX_CONTENT_LENGTH], a non-empty
    file name with an allowed extension), is answered 409 with the id
    of a stored document of that digest, and nothing is stored; when
    the uploader owns no document of that digest, the id in the answer
    is the id of a document of another user. *)
Theorem duplicate_check_is_global ctx uid f cn desc tags w d :
  In d (documents w) ->
  d_user_id d <> uid ->
  d_content_hash d = sha256_hexdigest (up_content f) ->
  get_user w uid <> None ->
  content_length ctx <= MAX_CONTENT_LENGTH (config w) ->
  Z.of_nat (List.length (up_content f)) <= content_length ctx ->
  up_filename f <> "" ->
  allowed_file (up_filename f) = true ->
  let r := upload_document ctx uid (Some f) cn desc tags w in
  exists existing,
    In existing (documents w)
    /\ d_content_hash existing = sha256_hexdigest (up_content f)
    /\ status (fst r) = 409
    /\ body_field "existing_document_id" (fst r) = Some (JNum (d_id existing))
    /\ snd r = w
    /\ ((forall x, In x (documents w) ->
                   d_content_hash x = sha256_hexdigest (up_content f) ->
                   d_user_id x <> uid) ->
        d_user_id existing <> uid).
Proof.
  intros Hin Hother Hh Hu Hb Hz Hn Ha r.
  destruct (upload_duplicate ctx uid f cn desc tags w d Hin Hh)
    as (Hw & _ & Hc & _).
  destruct (Hc Hu Hb Hz Hn Ha) as (e & He & Hr). fold r in Hw, Hr.
  apply find_some in He. destruct He as [Hine Hhe].
  apply String.eqb_eq in Hhe.
  exists e. rewrite Hr. repeat apply conj; auto.
Qed.

(** *** Deletion *)

Lemma key_injective {A : Type} (key : A -> Z) (l : list A) (a b : A) :
  NoDup (map key l) -> In a l -> In b l -> key a = key b -> a = b.
Proof.
  induction l as [ | x l IH]; simpl; [easy | ].
  intros Hnd Ha Hb Hk. inversion Hnd as [ | ? ? Hx Hl]; subst.
  destruct Ha as [-> | Ha], Hb as [-> | Hb]; auto.
  - exfalso. apply Hx. rewrite Hk. now apply in_map.
  - exfalso. apply Hx. rewrite <- Hk. now apply in_map.
Qed.

(** C10. [delete_document] answers 200 only to a caller whose role is
    admin or forensic_analyst and who owns the document, and only for a
    document no summary, redaction or timeline row refers to; a caller
    without such a role (or unknown) gets 403; a caller with the role
    gets 404 for a document that is missing or belongs to someone else;
    an answer 403 or 404 leaves the whole state, the document rows and
    the files, as it was; any answer other than 200 leaves every
    document row in place; and in a table with unique ids no call
    removes a document owned by another user.  The deletion of an owned
    document that a summary, redaction or timeline row refers to fails
    at the commit: the answer is 500, 'Deletion failed', the row stays,
    but by then the file is removed and two audit rows are written. *)
Theorem delete_requires_role_and_ownership ctx uid did w :
  let r := delete_document ctx uid did w in
  (status (fst r) = 200 ->
   exists u d,
     get_user w uid = Some u
     /\ str_in (u_role u) ["admin"; "forensic_analyst"] = true
     /\ In d (documents w) /\ d_id d = did /\ d_user_id d = uid
     /\ unreferenced did w = true)
  /\ (is_privileged (get_user w uid) = false ->
      fst r = error 403 "Insufficient permissions" /\ snd r = w)
  /\ (is_privileged (get_user w uid) = true ->
      get_owned_document w did uid = None ->
      fst r = error 404 "Document not found" /\ snd r = w)
  /\ (status (fst r) = 403 \/ status (fst r) = 404 -> snd r = w)
  /\ (status (fst r) <> 200 -> documents (snd r) = documents w)
  /\ (forall d info,
        is_privileged (get_user w uid) = true ->
        get_owned_document w did uid = Some d ->
        document_fields d = Ok info ->
        unreferenced (d_id d) w = false ->
        status (fst r) = 500
        /\ body_field "error" (fst r) = Some (JStr "Deletion failed")
        /\ documents (snd r) = documents w
        /\ path_exists (snd r) (d_file_path d) = false
        /\ appended w (snd r) ["chain_of_custody_deleted"; "document_deleted"])
  /\ (NoDup (map d_id (documents w)) ->
      forall d', In d' (documents w) -> d_user_id d' <> uid ->
                 In d' (documents (snd r))).
Proof.
  cbv zeta. unfold delete_document. exec.
  repeat apply conj.
  - repeat (branch; exec); try discriminate. intros _.
    match goal with H : get_owned_document _ _ _ = Some ?d |- _ =>
      apply find_some in H; destruct H as [Hin Hp];
      apply andb_prop in Hp; destruct Hp as [Hi Ho];
      apply Z.eqb_eq in Hi; apply Z.eqb_eq in Ho end.
    do 2 eexists. repeat apply conj; eauto.
    + now apply negb_false_iff.
    + match goal with H : negb (unreferenced _ _) = false |- _ =>
        apply negb_false_iff in H; rewrite Hi in H; exact H end.
  - unfold is_privileged. intros Hp.
    destruct (get_user w uid); [rewrite Hp | ]; exec; now split.
  - unfold is_privileged. intros Hp Hd.
    destruct (get_user w uid); [rewrite Hp | discriminate]. exec.
    rewrite Hd. exec. now split.
  - repeat (branch; exec); try reflexivity.
    all: intros [H | H]; discriminate H.
  - repeat (branch; exec); try reflexivity; intros H; now contradiction H.
  - unfold is_privileged. intros d info Hp Hd Hf Hr.
    destruct (get_user w uid); [rewrite Hp | discriminate]. exec.
    rewrite Hd. exec. rewrite Hf. exec. rewrite Hr. exec.
    unfold path_exists. cbn [disk].
    destruct (disk w (d_file_path d)) eqn:E; exec.
    all: repeat apply conj; try reflexivity.
    all: try (eapply appended_two; reflexivity).
    + unfold remove_file. now rewrite String.eqb_refl.
    + now rewrite E.
  - intros Hnd d' Hin Hother.
    repeat (branch; exec); try exact Hin.
    all: match goal with H : get_owned_document _ _ _ = Some ?d |- _ =>
      apply find_some in H; destruct H as [Hin0 Hp];
      apply andb_prop in Hp; destruct Hp as [Hi Ho]; apply Z.eqb_eq in Ho end.
    all: apply filter_In; split; [exact Hin | ].
    all: apply negb_true_iff, Z.eqb_neq; intros Hk.
    all: apply Hother; rewrite (key_injective d_id _ _ _ Hnd Hin Hin0 Hk).
    all: exact Ho.
Qed.

(** *** Timeline regeneration *)

Lemma timeline_rows_document ctx did i events t :
  In t (timeline_rows ctx did i events) -> t_document_id t = did.
Proof.
  revert i. induction events as [ | e events IH]; simpl; intros i; [easy | ].
  intros [<- | Hin]; [reflexivity | eauto].
Qed.

Lemma filter_all {A : Type} (p : A -> bool) (l : list A) :
  (forall x, In x l -> p x = true) -> filter p l = l.
Proof.
  induction l as [ | a l IH]; simpl; intros H; [reflexivity | ].
  rewrite (H a) by now left. f_equal. apply IH. intros; apply H; now right.
Qed.

Lemma filter_none {A : Type} (p : A -> bool) (l : list A) :
  (forall x, In x l -> p x = false) -> filter p l = [].
Proof.
  induction l as [ | a l IH]; simpl; intros H; [reflexivity | ].
  rewrite (H a) by now left. apply IH. intros; apply H; now right.
Qed.

Lemma timeline_rows_events ctx did i events :
  map (fun t => (t_event_date t, t_event_description t, t_confidence_score t))
    (timeline_rows ctx did i events)
  = map (fun e => (ev_date e, ev_description e, Some (ev_confidence e))) events.
Proof.
  revert i. induction events as [ | e events IH]; simpl; intros i;
    [reflexivity | now rewrite IH].
Qed.

Lemma timeline_rows_length ctx did i events :
  List.length (timeline_rows ctx did i events) = List.length events.
Proof.
  revert i. induction events as [ | e events IH]; simpl; intros i;
    [reflexivity | now rewrite IH].
Qed.

(** What a 200 of [generate_timeline] leaves behind. *)
Lemma timeline_after_success ctx uid did w :
  status (fst (generate_timeline ctx uid did w)) = 200 ->
  let w' := snd (generate_timeline ctx uid did w) in
  exists d file text,
    get_owned_document w did uid = Some d
    /\ disk w (d_file_path d) = Some file
    /\ extract_text_from_file (d_file_path d) (f_content file) (d_file_type d)
       = Ok (Some text)
    /\ timelines w'
       = (timelines_of_others did w
            ++ timeline_rows ctx did
                 (next_id (map t_id (timelines_of_others did w)))
                 (extract_timeline_events_basic text))%list
    /\ documents w' = documents w
    /\ disk w' = disk w.
Proof.
  intros H200 w'. subst w'. revert H200. unfold generate_timeline. exec.
  repeat (branch; exec); try discriminate. intros _.
  match goal with H : negb (opt_truthy ?a) = false |- _ =>
    destruct a as [text | ]; [ | discriminate H] end.
  cbn [default].
  do 3 eexists. repeat apply conj; try eassumption; reflexivity.
Qed.

Lemma timeline_of_after_success ctx uid did w :
  status (fst (generate_timeline ctx uid did w)) = 200 ->
  let w' := snd (generate_timeline ctx uid did w) in
  exists d file text,
    get_owned_document w did uid = Some d
    /\ disk w (d_file_path d) = Some file
    /\ extract_text_from_file (d_file_path d) (f_content file) (d_file_type d)
       = Ok (Some text)
    /\ timeline_of did w'
       = timeline_rows ctx did
           (next_id (map t_id (timelines_of_others did w)))
           (extract_timeline_events_basic text)
    /\ timelines_of_others did w' = timelines_of_others did w.
Proof.
  intros H200 w'.
  destruct (timeline_after_success ctx uid did w H200)
    as (d & file & text & Hd & Hf & Ht & Hw & _).
  fold w' in Hw. exists d, file, text. repeat apply conj; auto.
  - unfold timeline_of. rewrite Hw, filter_app.
    unfold timelines_of_others at 1. rewrite filter_none, filter_all.
    + reflexivity.
    + intros t Hin. apply Z.eqb_eq. eapply timeline_rows_document, Hin.
    + intros t Hin. apply filter_In in Hin. destruct Hin as [_ Hin].
      now apply negb_true_iff.
  - unfold timelines_of_others at 1. rewrite Hw, filter_app.
    rewrite (filter_none _ (timeline_rows _ _ _ _)), app_nil_r.
    + apply filter_all. intros t Hin. apply filter_In in Hin. tauto.
    + intros t Hin. apply negb_false_iff, Z.eqb_eq.
      eapply timeline_rows_document, Hin.
Qed.

Lemma timeline_kept_on_failure ctx uid did w :
  status (fst (generate_timeline ctx uid did w)) <> 200 ->
  timelines (snd (generate_timeline ctx uid did w)) = timelines w.
Proof.
  unfold generate_timeline. exec.
  repeat (branch; exec); try reflexivity. intros H. now contradiction H.
Qed.

(** C8. A successful timeline generation for a document replaces its
    timeline: whatever rows the document had before (from earlier calls
    or not), after the call its rows are exactly the rows built from the
    events just extracted from its text, one row per event, in order,
    and the rows of the other documents are untouched.  A call that
    does not succeed leaves the timeline table as it was.  So repeated
    calls do not accumulate rows: a second successful call right after
    the first leaves the document with as many rows as the first. *)
Theorem timeline_is_replaced ctx uid did w :
  let r := generate_timeline ctx uid did w in
  (status (fst r) = 200 ->
   exists d file text,
     get_owned_document w did uid = Some d
     /\ disk w (d_file_path d) = Some file
     /\ extract_text_from_file (d_file_path d) (f_content file)
          (d_file_type d) = Ok (Some text)
     /\ timeline_of did (snd r)
        = timeline_rows ctx did
            (next_id (map t_id (timelines_of_others did w)))
            (extract_timeline_events_basic text)
     /\ map (fun t => (t_event_date t, t_event_description t,
                       t_confidence_score t)) (timeline_of did (snd r))
        = map (fun e => (ev_date e, ev_description e, Some (ev_confidence e)))
            (extract_timeline_events_basic text)
     /\ List.length (timeline_of did (snd r))
        = List.length (extract_timeline_events_basic text)
     /\ timelines_of_others did (snd r) = timelines_of_others did w)
  /\ (status (fst r) <> 200 -> timelines (snd r) = timelines w)
  /\ (forall ctx2,
        status (fst r) = 200 ->
        status (fst (generate_timeline ctx2 uid did (snd r))) = 200 ->
        List.length
          (timeline_of did (snd (generate_timeline ctx2 uid did (snd r))))
        = List.length (timeline_of did (snd r))).
Proof.
  cbv zeta. repeat apply conj.
  - intros H200.
    destruct (timeline_of_after_success ctx uid did w H200)
      as (d & file & text & Hd & Hf & Ht & Hmine & Hothers).
    exists d, file, text. repeat apply conj; auto.
    + rewrite Hmine. apply timeline_rows_events.
    + rewrite Hmine. apply timeline_rows_length.
  - apply timeline_kept_on_failure.
  - intros ctx2 H1 H2.
    destruct (timeline_after_success ctx uid did w H1)
      as (d & file & text & Hd & Hf & Ht & _ & Hdocs & Hdisk).
    destruct (timeline_of_after_success ctx uid did w H1)
      as (d1 & file1 & text1 & Hd1 & Hf1 & Ht1 & Hmine1 & _).
    destruct (timeline_of_after_success ctx2 uid did _ H2)
      as (d2 & file2 & text2 & Hd2 & Hf2 & Ht2 & Hmine2 & _).
    unfold get_owned_document in Hd2. rewrite Hdocs in Hd2.
    fold (get_owned_document w did uid) in Hd2.
    rewrite Hdisk in Hf2.
    assert (d2 = d1) by congruence. subst d2.
    assert (file2 = file1) by congruence. subst file2.
    assert (text2 = text1) by congruence. subst text2.
    rewrite Hmine1, Hmine2. now rewrite !timeline_rows_length.
Qed.

(** *** Passwords *)












End Endpoints.

(** ** Redaction of a social security number *)

Section Redaction.

Import Re Redact.
Local Open Scope nat_scope.
Local Open Scope string_scope.

Lemma ssn_digit_led : digit_led ssn.
Proof.
  intros p s i H. unfold match_at, ssn. cbn [run Times].
  destruct (at_boundary _); [ | reflexivity].
  destruct s as [ | a s]; cbn [rest]; [reflexivity | ]. now rewrite H.
Qed.

Lemma phone_digit_led : digit_led phone.
Proof.
  intros p s i H. unfold match_at, phone. cbn [run Times].
  destruct (at_boundary _); [ | reflexivity].
  destruct s as [ | a s]; cbn [rest]; [reflexivity | ]. now rewrite H.
Qed.

Lemma credit_card_digit_led : digit_led credit_card.
Proof.
  intros p s i H. unfold match_at, credit_card. cbn [run Times].
  destruct (at_boundary _); [ | reflexivity].
  destruct s as [ | a s]; cbn [rest]; [reflexivity | ]. now rewrite H.
Qed.

Lemma scan_digit_free r :
  digit_led r ->
  forall s p i, PyStr.any Cls.digit s = false -> scan r 0 p s i = [].
Proof.
  intros Hr s. induction s as [ | a s IH]; intros p i Hs; cbn [scan].
  - now rewrite Hr.
  - cbn [PyStr.any] in Hs. apply orb_false_elim in Hs. destruct Hs as [Ha Hs].
    rewrite Hr by exact Ha. now apply IH.
Qed.


Lemma many_needs (cls : ascii -> bool) (k : cursor -> option cursor) :
  forall s min p i,
    (forall p' s' i', first_char s' <> Some "@"%char ->
                      k (Cursor p' s' i') = None) ->
    PyStr.any (Cls.chr "@") s = false ->
    many cls min k p s i = None.
Proof.
  induction s as [ | a s IH]; intros min p i Hk Hs; cbn [many].
  - rewrite Hk by discriminate. now destruct min.
  - cbn [PyStr.any] in Hs. apply orb_false_elim in Hs. destruct Hs as [Ha Hs].
    rewrite IH by assumption.
    rewrite Hk.
    + destruct min; now destruct (cls a).
    + cbn. intros E. injection E as ->. discriminate.
Qed.

Lemma email_needs_at s p i :
  PyStr.any (Cls.chr "@") s = false -> match_at email (Cursor p s i) = None.
Proof.
  intros Hs. unfold match_at, email. cbn [run prev rest pos].
  destruct (at_boundary _); [ | reflexivity].
  apply many_needs; [ | exact Hs].
  intros p' s' i' Hf. destruct s' as [ | b s']; [reflexivity | ].
  cbn [rest].
  destruct (Cls.chr "@" b) eqn:E; [ | reflexivity].
  exfalso. apply Hf. cbn. f_equal. unfold Cls.chr in E.
  now apply Ascii.eqb_eq in E.
Qed.

Lemma scan_email_free s :
  forall p i, PyStr.any (Cls.chr "@") s = false -> scan email 0 p s i = [].
Proof.
  induction s as [ | a s IH]; intros p i Hs; cbn [scan].
  - now rewrite email_needs_at.
  - rewrite email_needs_at by exact Hs.
    cbn [PyStr.any] in Hs. apply orb_false_elim in Hs. now apply IH.
Qed.




















Lemma fold_apply_match name marker ms acc :
  snd (fold_left (apply_match name marker) ms acc)
  = (snd acc ++ map (mk_entry name) ms)%list.
Proof.
  revert acc. induction ms as [ | m ms IH]; intros [t l]; cbn [fold_left map snd].
  - now rewrite app_nil_r.
  - unfold apply_match at 2. rewrite IH. cbn [snd].
    now rewrite <- app_assoc.
Qed.

Lemma apply_pattern_entries marker acc p :
  exists ms,
    snd (apply_pattern marker acc p)
    = (snd acc ++ map (mk_entry (fst p)) ms)%list
    /\ ms = finditer (snd p) (fst acc).
Proof.
  eexists. split; [ | reflexivity]. unfold apply_pattern.
  apply fold_apply_match.
Qed.

Lemma scan_starts r :
  forall s skip p i m, In m (scan r skip p s i) -> i + skip <= m_start m.
Proof.
  induction s as [ | a s IH]; intros skip p i m; cbn [scan].
  - destruct skip; [ | easy].
    destruct (match_at r _); [ | easy].
    intros [<- | []]. cbn. lia.
  - destruct skip as [ | n].
    + destruct (match_at r _) as [e | ].
      * intros [<- | Hin]; [cbn; lia | ]. apply IH in Hin. lia.
      * intros Hin. apply IH in Hin. lia.
    + intros Hin. apply IH in Hin. lia.
Qed.


(** A match of the SSN pattern has eleven characters. *)
Lemma ssn_match_end p s i e :
  match_at ssn (Cursor p s i) = Some e -> pos e = i + 11.
Proof.
  unfold match_at, ssn. cbn [run Times rest prev pos].
  destruct (at_boundary _); [ | discriminate].
  do 11 (destruct s as [ | ? s]; [discriminate | ];
         match goal with
         | |- context [if ?b then _ else _] => destruct b; [ | discriminate]
         end; cbn [rest pos]).
  destruct (at_boundary _); [ | discriminate].
  intros E. injection E as <-. cbn [pos]. lia.
Qed.




Lemma apply_pattern_snd marker acc p :
  snd (apply_pattern marker acc p)
  = (snd acc ++ map (mk_entry (fst p)) (finditer (snd p) (fst acc)))%list.
Proof. unfold apply_pattern. apply fold_apply_match. Qed.

Lemma redact_text_entries text marker :
  PyStr.truthy text = true ->
  exists t others,
    redact_text text marker
    = Redacted t (map (mk_entry "ssn") (finditer ssn text) ++ others)%list
    /\ forall e, In e others -> e_type e <> "ssn".
Proof.
  intros Ht. unfold redact_text. rewrite Ht. cbn [negb].
  unfold patterns. cbn [fold_left].
  set (a1 := apply_pattern marker (text, []) ("ssn", ssn)).
  set (a2 := apply_pattern marker a1 ("phone", phone)).
  set (a3 := apply_pattern marker a2 ("email", email)).
  set (a4 := apply_pattern marker a3 ("credit_card", credit_card)).
  assert (E : snd a4
              = (map (mk_entry "ssn") (finditer ssn text)
                   ++ (map (mk_entry "phone") (finditer phone (fst a1))
                         ++ map (mk_entry "email") (finditer email (fst a2))
                         ++ map (mk_entry "credit_card")
                              (finditer credit_card (fst a3))))%list).
  { subst a4 a3 a2 a1. rewrite !apply_pattern_snd. cbn [fst snd app].
    now rewrite <- !app_assoc. }
  destruct a4 as [t l]. cbn [snd] in E. subst l.
  do 2 eexists. split; [reflexivity | ].
  intros e. rewrite !in_app_iff, !in_map_iff.
  intros [(m & <- & _) | [(m & <- & _) | (m & <- & _)]]; discriminate.
Qed.


(** *** The replacement of the occurrence *)












End Redaction.

(** ** The properties on the sample data *)

Section Samples.

#[local] Existing Instance Fixture.test_platform.
#[local] Existing Instance Fixture.test_analyzer.

Import Fixture.

Lemma upload_hash_verifies_witness :
  let r := upload_document ctx 1 (Some memo_upload) None None None fresh in
  status (fst r) = 201
  /\ exists d,
       documents (snd r) = [d]
       /\ d_content_hash d = sha256_hexdigest memo_bytes
       /\ body_field "verified"
            (fst (verify_document_integrity ctx 1 (d_id d) (snd r)))
          = Some (JBool true).
Proof.
  cbv zeta.
  assert (H : status (fst (upload_document ctx 1 (Some memo_upload) None None
                             None fresh)) = 201)
    by (vm_compute; reflexivity).
  split; [exact H | ].
  destruct (upload_hash_verifies ctx 1 memo_upload None None None fresh H)
    as (d & Hd & Hh & _ & Hv & _).
  exists d. split; [exact Hd | ]. split; [exact Hh | ]. apply Hv.
Defined.

Lemma verify_mismatch_adds_no_violation_row_witness :
  sha256_hexdigest (f_content tampered_file) <> d_content_hash memo
  /\ body_field "verified" (fst (verify_document_integrity ctx 2 1 tampered))
     = Some (JBool false)
  /\ (exists e,
        audit_logs (snd (verify_document_integrity ctx 2 1 tampered))
        = (audit_logs tampered ++ [e])%list
        /\ a_action e = "document_integrity_verified"
        /\ a_action e <> "document_integrity_violation")
  /\ (exists e,
        audit_logs (snd (download_document ctx 2 1 tampered))
        = (audit_logs tampered ++ [e])%list
        /\ a_action e = "document_integrity_violation").
Proof.
  assert (Hu : get_user tampered 2 = Some bob) by reflexivity.
  assert (Hd : get_owned_document tampered 1 2 = Some memo) by reflexivity.
  assert (Hf : disk tampered (d_file_path memo) = Some tampered_file)
    by reflexivity.
  assert (Hh : sha256_hexdigest (f_content tampered_file) <> d_content_hash memo)
    by (vm_compute; discriminate).
  destruct (proj1 (verify_mismatch_adds_no_violation_row ctx 2 1 tampered
                     Hu Hd) tampered_file Hf Hh)
    as [(_ & Hv & e & He & Ha & Hn & _) (_ & e' & He' & Ha' & _)].
  split; [exact Hh | ]. split; [exact Hv | ]. split.
  - exists e. repeat split; assumption.
  - exists e'. split; assumption.
Defined.

Lemma successful_calls_audit_rows_witness :
  successful (fst (login ctx (Some "alice") (Some "Wonder1and!") fresh)) = true
  /\ appended fresh
       (snd (login ctx (Some "alice") (Some "Wonder1and!") fresh))
       ["login_successful"].
Proof.
  assert (H : successful (fst (login ctx (Some "alice") (Some "Wonder1and!")
                                 fresh)) = true)
    by (vm_compute; reflexivity).
  split; [exact H | ].
  exact (proj1 (successful_calls_audit_rows ctx fresh) _ _ H).
Defined.

(** C3 as the specification states it fails on an upload: the call succeeds and
    adds two audit rows, not one. *)
Lemma upload_adds_two_audit_rows :
  let r := upload_document ctx 1 (Some memo_upload) None None None fresh in
  successful (fst r) = true
  /\ map a_action (audit_logs (snd r))
     = ["chain_of_custody_uploaded"; "document_uploaded"]
  /\ ~ (exists e, audit_logs (snd r) = (audit_logs fresh ++ [e])%list).
Proof.
  cbv zeta. split; [vm_compute; reflexivity | ].
  split; [vm_compute; reflexivity | ].
  intros (e & He). apply (f_equal (@List.length _)) in He.
  vm_compute in He. discriminate He.
Qed.

Lemma audit_log_append_only_witness :
  let w1 := snd (handle ctx (Login (Some "bob") (Some "Builder2go?")) stored) in
  let w2 := snd (handle ctx (VerifyDocumentIntegrity 2 1) w1) in
  let w3 := snd (handle ctx (DeleteDocument 2 1) w2) in
  map a_action (audit_logs w1) = ["login_successful"]
  /\ (exists added, audit_logs w2 = (audit_logs w1 ++ added)%list)
  /\ (exists added, audit_logs w3 = (audit_logs w2 ++ added)%list)
  /\ (exists added, audit_logs w3 = (audit_logs w1 ++ added)%list).
Proof.
  cbv zeta. split; [vm_compute; reflexivity | ]. split; [ | split].
  - apply (proj1 audit_log_append_only).
  - apply (proj1 audit_log_append_only).
  - apply (proj2 audit_log_append_only).
    apply reaches_step, reaches_step, reaches_refl.
Defined.



Lemma duplicate_check_is_global_witness :
  let r := upload_document ctx 1 (Some memo_upload) None None None stored in
  status (fst r) = 409
  /\ body_field "existing_document_id" (fst r) = Some (JNum (d_id memo))
  /\ d_user_id memo <> 1.
Proof.
  cbv zeta.
  assert (Hin : In memo (documents stored)) by (left; reflexivity).
  assert (Ho : d_user_id memo <> 1) by discriminate.
  assert (Hh : d_content_hash memo = sha256_hexdigest (up_content memo_upload))
    by reflexivity.
  assert (Hu : get_user stored 1 <> None) by discriminate.
  assert (Hb : content_length ctx <= MAX_CONTENT_LENGTH (config stored))
    by (vm_compute; discriminate).
  assert (Hz : Z.of_nat (List.length (up_content memo_upload))
               <= content_length ctx)
    by (vm_compute; discriminate).
  assert (Hn : up_filename memo_upload <> "") by discriminate.
  assert (Ha : allowed_file (up_filename memo_upload) = true) by reflexivity.
  destruct (@duplicate_check_is_global _ ctx 1 memo_upload None None None
              stored memo Hin Ho Hh Hu Hb Hz Hn Ha)
    as (existing & Hine & _ & Hs & Hi & _).
  destruct Hine as [<- | []]. repeat split; assumption.
Defined.

(** C9 as it is stated fails: alice sends the bytes of bob's document in
    a request whose body is over [MAX_CONTENT_LENGTH]; the answer is
    500, 'Upload failed', and names no document.  Nor is a document
    named when she sends them under a name that is not allowed or
    without a name (400), or when the uploader is unknown (404). *)
Lemma foreign_duplicate_that_fails_an_earlier_check :
  let large := upload_document oversized 1 (Some memo_upload) None None None
                 stored in
  let refused := upload_document ctx 1 (Some memo_as_program) None None None
                   stored in
  let unnamed := upload_document ctx 1 (Some memo_unnamed) None None None
                   stored in
  let unknown := upload_document ctx 9 (Some memo_upload) None None None
                   stored in
  In memo (documents stored)
  /\ d_user_id memo <> 1
  /\ d_content_hash memo = sha256_hexdigest memo_bytes
  /\ (status (fst large) = 500
      /\ body_field "error" (fst large) = Some (JStr "Upload failed")
      /\ body_field "existing_document_id" (fst large) = None)
  /\ (status (fst refused) = 400
      /\ body_field "existing_document_id" (fst refused) = None)
  /\ (status (fst unnamed) = 400
      /\ body_field "existing_document_id" (fst unnamed) = None)
  /\ (status (fst unknown) = 404
      /\ body_field "existing_document_id" (fst unknown) = None).
Proof.
  cbv zeta. split; [left; reflexivity | ]. split; [discriminate | ].
  repeat split; vm_compute; reflexivity.
Qed.



Lemma timeline_is_replaced_witness :
  let r := generate_timeline ctx 2 1 dated in
  let r2 := generate_timeline ctx 2 1 (snd r) in
  timeline_of 1 dated = [old_event 1 1; old_event 3 1]
  /\ timelines_of_others 1 dated = [old_event 2 7]
  /\ List.length (timeline_of 1 (snd r)) = 1%nat
  /\ timelines_of_others 1 (snd r) = [old_event 2 7]
  /\ List.length (timeline_of 1 (snd r2)) = 1%nat.
Proof.
  cbv zeta.
  assert (H1 : status (fst (generate_timeline ctx 2 1 dated)) = 200)
    by (vm_compute; reflexivity).
  assert (H2 : status (fst (generate_timeline ctx 2 1
                              (snd (generate_timeline ctx 2 1 dated)))) = 200)
    by (vm_compute; reflexivity).
  destruct (timeline_is_replaced ctx 2 1 dated) as (Hdone & _ & Hagain).
  destruct (Hdone H1)
    as (d & file & text & Hd & Hf & Ht & _ & _ & Hlen & Hothers).
  assert (Htext : text = "memo of 123-45-6789").
  { injection Hd as <-. vm_compute in Hf. injection Hf as <-.
    vm_compute in Ht. now injection Ht as <-. }
  subst text.
  split; [reflexivity | ]. split; [reflexivity | ].
  split; [exact Hlen | ]. split; [exact Hothers | ].
  exact (eq_trans (Hagain ctx H1 H2) Hlen).
Defined.

Lemma delete_requires_role_and_ownership_witness :
  (fst (delete_document ctx 1 1 stored) = error 403 "Insufficient permissions"
   /\ snd (delete_document ctx 1 1 stored) = stored)
  /\ (exists u d,
        get_user stored 2 = Some u
        /\ str_in (u_role u) ["admin"; "forensic_analyst"] = true
        /\ In d (documents stored) /\ d_id d = 1 /\ d_user_id d = 2
        /\ unreferenced 1 stored = true)
  /\ (status (fst (delete_document ctx 2 1 summarized)) = 500
      /\ documents (snd (delete_document ctx 2 1 summarized))
         = documents summarized
      /\ path_exists (snd (delete_document ctx 2 1 summarized))
           (d_file_path memo) = false).
Proof.
  destruct (delete_requires_role_and_ownership ctx 1 1 stored)
    as (_ & H403 & _).
  destruct (delete_requires_role_and_ownership ctx 2 1 stored)
    as (H200 & _).
  destruct (delete_requires_role_and_ownership ctx 2 1 summarized)
    as (_ & _ & _ & _ & _ & H500 & _).
  split; [exact (H403 eq_refl) | ]. split.
  - apply H200. vm_compute. reflexivity.
  - destruct (H500 memo _ eq_refl eq_refl eq_refl eq_refl)
      as (Hs & _ & Hd & Hp & _).
    repeat split; assumption.
Defined.



End Samples.

(** * Further properties *)

(** ** File names and file types *)

Section Filenames.
Local Open Scope nat_scope.
Local Open Scope string_scope.

Lemma all_map (p : ascii -> bool) (f : ascii -> ascii) (s : string) :
  (forall c, p (f c) = true) -> PyStr.all p (PyStr.map f s) = true.
Proof.
  intros H. induction s as [ | c s IH]; [reflexivity | ].
  cbn [PyStr.map PyStr.all]. now rewrite H, IH.
Qed.

Lemma all_substring (p : ascii -> bool) (s : string) :
  PyStr.all p s = true -> forall n m, PyStr.all p (substring n m s) = true.
Proof.
  induction s as [ | c s IH]; intros H n m.
  - now destruct n, m.
  - cbn [PyStr.all] in H. apply andb_prop in H. destruct H as [Hc Hs].
    destruct n as [ | n]; [destruct m as [ | m] | ]; cbn [substring PyStr.all].
    + reflexivity.
    + now rewrite Hc, IH.
    + now apply IH.
Qed.

Lemma all_after_last (p : ascii -> bool) (sep : ascii) (s t : string) :
  PyStr.all p s = true -> PyStr.after_last sep s = Some t ->
  PyStr.all p t = true.
Proof.
  revert t. induction s as [ | c s IH]; intros t H E; [discriminate | ].
  cbn [PyStr.all] in H. apply andb_prop in H. destruct H as [Hc Hs].
  cbn [PyStr.after_last] in E.
  destruct (PyStr.after_last sep s) as [u | ].
  - injection E as <-. now apply IH.
  - destruct (Ascii.eqb c sep); [ | discriminate]. now injection E as <-.
Qed.

Lemma all_app (p : ascii -> bool) (s t : string) :
  PyStr.all p (s ++ t) = (PyStr.all p s && PyStr.all p t)%bool.
Proof.
  induction s as [ | c s IH]; [reflexivity | ].
  cbn [append PyStr.all]. now rewrite IH, andb_assoc.
Qed.

Lemma all_slice_to (p : ascii -> bool) (s : string) (n : Z) :
  PyStr.all p s = true -> PyStr.all p (PyStr.slice_to n s) = true.
Proof.
  intros H. unfold PyStr.slice_to, PyStr.take.
  destruct (n <? 0)%Z; now apply all_substring.
Qed.

Lemma all_none (p q : ascii -> bool) (s : string) :
  (forall c, p c = true -> q c = false) ->
  PyStr.all p s = true -> PyStr.any q s = false.
Proof.
  intros H. induction s as [ | c s IH]; [reflexivity | ].
  cbn [PyStr.all PyStr.any]. intros E. apply andb_prop in E.
  destruct E as [Hc Hs]. now rewrite (H c Hc), IH.
Qed.

Lemma sanitize_filename_kept (filename : string) :
  PyStr.all kept_in_filename (sanitize_filename filename) = true.
Proof.
  unfold sanitize_filename.
  set (g := PyStr.map _ (basename filename)).
  assert (Hg : PyStr.all kept_in_filename g = true).
  { apply all_map. intros c. fold (kept_in_filename c).
    now destruct (kept_in_filename c) eqn:E. }
  destruct (255 <? String.length g)%nat; [ | exact Hg].
  unfold splitext.
  destruct (PyStr.after_last "." g) as [after | ] eqn:E.
  - assert (Ha : PyStr.all kept_in_filename after = true)
      by exact (@all_after_last _ _ _ _ Hg E).
    destruct (PyStr.all (Cls.chr ".") _).
    + rewrite all_app. now rewrite all_slice_to.
    + rewrite all_app. cbn [PyStr.all]. rewrite Ha.
      rewrite all_slice_to; [reflexivity | ].
      now apply all_substring.
  - rewrite all_app. now rewrite all_slice_to.
Qed.

(** X1.  Whatever name it is given, [sanitize_filename] returns a name made
    only of word characters, white space, dots and hyphens: every other
    character was replaced or cut away.  In particular the result holds
    no slash, no backslash and no NUL character, so it names no
    directory. *)
Theorem sanitize_filename_safe (filename : string) :
  PyStr.all kept_in_filename (sanitize_filename filename) = true
  /\ PyStr.mem (sanitize_filename filename) "/" = false
  /\ PyStr.mem (sanitize_filename filename) "\" = false
  /\ PyStr.mem (sanitize_filename filename) "000" = false.
Proof.
  assert (H := sanitize_filename_kept filename).
  repeat apply conj; [exact H | | | ];
    (apply (@all_none kept_in_filename); [ | exact H]);
    intros c Hc; destruct (Ascii.eqb _ c) eqn:E; try reflexivity;
    apply Ascii.eqb_eq in E; subst c; discriminate Hc.
Qed.

Lemma str_length_map (f : ascii -> ascii) (s : string) :
  String.length (PyStr.map f s) = String.length s.
Proof. induction s as [ | c s IH]; [reflexivity | ]. cbn. now rewrite IH. Qed.

Lemma after_last_map (f : ascii -> ascii) (sep : ascii) (s : string) :
  (forall c, Ascii.eqb (f c) sep = Ascii.eqb c sep) ->
  PyStr.after_last sep (PyStr.map f s)
  = option_map (PyStr.map f) (PyStr.after_last sep s).
Proof.
  intros H. induction s as [ | c s IH]; [reflexivity | ].
  cbn [PyStr.map PyStr.after_last]. rewrite IH, H.
  destruct (PyStr.after_last sep s); [reflexivity | ].
  now destruct (Ascii.eqb c sep).
Qed.

Lemma after_last_within (sep1 sep2 : ascii) (s b e : string) :
  PyStr.after_last sep1 s = Some b ->
  PyStr.after_last sep2 b = Some e ->
  PyStr.after_last sep2 s = Some e.
Proof.
  revert b. induction s as [ | c s IH]; intros b H1 H2; [discriminate | ].
  cbn [PyStr.after_last] in *.
  destruct (PyStr.after_last sep1 s) as [t | ].
  - injection H1 as ->. now rewrite (IH b eq_refl H2).
  - destruct (Ascii.eqb c sep1); [ | discriminate].
    injection H1 as ->. now rewrite H2.
Qed.

Lemma length_take (n : nat) (s : string) :
  String.length (PyStr.take n s) = Nat.min n (String.length s).
Proof.
  unfold PyStr.take. revert n. induction s as [ | c s IH]; intros [ | n];
    try reflexivity.
  cbn [substring String.length Nat.min]. now rewrite IH.
Qed.

Lemma str_length_app (s t : string) :
  String.length (s ++ t) = String.length s + String.length t.
Proof. induction s as [ | c s IH]; [reflexivity | ]. cbn. now rewrite IH. Qed.

Lemma kept_dot (c : ascii) :
  Ascii.eqb (if kept_in_filename c then c else "_"%char) "."
  = Ascii.eqb c ".".
Proof.
  destruct (kept_in_filename c) eqn:E; [reflexivity | ].
  destruct (Ascii.eqb c ".") eqn:D; [ | reflexivity].
  apply Ascii.eqb_eq in D. subst c. discriminate E.
Qed.

(** X2.  When the part of the name after its last dot has fewer than 255
    characters, [sanitize_filename] returns at most 255 characters.
    (A longer extension is kept whole: see
    [sanitize_filename_long].) *)
Theorem sanitize_filename_length (filename : string) :
  String.length (extension_of filename) < 255 ->
  String.length (sanitize_filename filename) <= 255.
Proof.
  intros Hext. unfold sanitize_filename.
  set (clean := fun c : ascii => _).
  set (g := PyStr.map clean (basename filename)).
  destruct (255 <? String.length g)%nat eqn:Hlong;
    [ | now apply Nat.ltb_ge in Hlong].
  assert (Hwhole : String.length (PyStr.slice_to (255 - Z.of_nat 0) g ++ "")
                   <= 255).
  { rewrite str_length_app. cbn [String.length]. unfold PyStr.slice_to.
    cbn. rewrite length_take. lia. }
  unfold splitext.
  destruct (PyStr.after_last "." g) as [after | ] eqn:E; [ | exact Hwhole].
  destruct (PyStr.all (Cls.chr ".") _); [exact Hwhole | ].
  assert (Hafter : String.length after < 255).
  { unfold g in E. rewrite after_last_map in E by exact kept_dot.
    destruct (PyStr.after_last "." (basename filename)) as [a0 | ] eqn:E0;
      [ | discriminate].
    injection E as <-. rewrite str_length_map.
    assert (Ef : PyStr.after_last "." filename = Some a0).
    { unfold basename in E0.
      destruct (PyStr.after_last "/" filename) as [b | ] eqn:Eb;
        [ | exact E0].
      exact (@after_last_within _ _ _ _ _ Eb E0). }
    unfold extension_of in Hext. now rewrite Ef in Hext. }
  rewrite str_length_app. cbn [String.length]. unfold PyStr.slice_to.
  destruct (255 - Z.of_nat (S (String.length after)) <? 0)%Z eqn:Hneg;
    [apply Z.ltb_lt in Hneg; lia | ].
  rewrite length_take. lia.
Qed.

Lemma lower_char_dot (c : ascii) :
  Ascii.eqb (PyStr.lower_char c) "." = Ascii.eqb c ".".
Proof.
  destruct c as [b0 b1 b2 b3 b4 b5 b6 b7].
  destruct b0, b1, b2, b3, b4, b5, b6, b7; reflexivity.
Qed.

Lemma allowed_file_known_type (filename : string) :
  allowed_file filename = true -> get_file_type filename <> "other".
Proof.
  unfold allowed_file, get_file_type.
  destruct (PyStr.after_last "." filename) as [ext | ] eqn:E; [ | discriminate].
  assert (L : PyStr.after_last "." (PyStr.lower filename)
              = Some (PyStr.lower ext)).
  { unfold PyStr.lower. rewrite after_last_map by exact lower_char_dot.
    now rewrite E. }
  rewrite L. unfold str_in at 1. intros H. apply existsb_exists in H.
  destruct H as (x & Hin & Hx). apply String.eqb_eq in Hx. rewrite Hx.
  unfold default_allowed_extensions in Hin. cbn [In] in Hin.
  repeat (destruct Hin as [<- | Hin]; [vm_compute; discriminate | ]).
  destruct Hin.
Qed.

(** X3.  A file name [allowed_file] accepts is never classified as other by
    [get_file_type]: its type is document, audio, video, image or
    spreadsheet.  The two functions take the extension in different
    ways (lower-casing after or before the split) and agree on it. *)
Theorem allowed_file_has_type (filename : string) :
  allowed_file filename = true ->
  get_file_type filename <> "other"
  /\ In (get_file_type filename)
       ["document"; "audio"; "video"; "image"; "spreadsheet"].
Proof.
  intros H. assert (N := allowed_file_known_type filename H).
  split; [exact N | ]. unfold get_file_type in *.
  repeat match goal with
         | |- context [if ?b then _ else _] =>
             destruct b; [cbn [In]; tauto | ]
         end.
  now elim N.
Qed.

End Filenames.

(** ** What the redaction reports *)

Section RedactionMore.
Import Re Redact.
Local Open Scope nat_scope.
Local Open Scope string_scope.

(** X4.  A text without a digit and without an at-sign has nothing to
    redact: [redact_text] returns it unchanged with an empty list of
    redactions (and the empty text as it is). *)
Theorem redact_text_plain (text marker : string) :
  PyStr.any Cls.digit text = false ->
  PyStr.any (Cls.chr "@") text = false ->
  redact_text text marker
  = if PyStr.truthy text then Redacted text [] else Unchanged text.
Proof.
  intros Hd Ha. unfold redact_text.
  destruct (PyStr.truthy text); [ | reflexivity]. cbn [negb].
  unfold patterns, apply_pattern, finditer. cbn [fold_left fst snd].
  rewrite (scan_digit_free ssn_digit_led) by exact Hd. cbn [fold_left fst].
  rewrite (scan_digit_free phone_digit_led) by exact Hd. cbn [fold_left fst].
  rewrite scan_email_free by exact Ha. cbn [fold_left fst].
  rewrite (scan_digit_free credit_card_digit_led) by exact Hd.
  reflexivity.
Qed.

Lemma ssn_match_length p s i e :
  match_at ssn (Cursor p s i) = Some e -> 11 <= String.length s.
Proof.
  unfold match_at, ssn. cbn [run Times rest prev pos].
  destruct (at_boundary _); [ | discriminate].
  do 11 (destruct s as [ | ? s]; [discriminate | ];
         match goal with
         | |- context [if ?b then _ else _] => destruct b; [ | discriminate]
         end; cbn [rest pos]).
  intros _. cbn [String.length]. lia.
Qed.

Lemma length_substring_0 (n : nat) (s : string) :
  n <= String.length s -> String.length (substring 0 n s) = n.
Proof.
  revert n. induction s as [ | c s IH]; intros [ | n] H; cbn in *;
    try reflexivity; try lia.
  rewrite IH; lia.
Qed.

Lemma scan_ssn_located :
  forall s skip p i m,
    In m (scan ssn skip p s i) ->
    m_end m = m_start m + 11
    /\ substring (m_start m - i) 11 s = m_group m
    /\ String.length (m_group m) = 11.
Proof.
  induction s as [ | a s IH]; intros skip p i m; cbn [scan].
  - destruct skip; [ | easy].
    now rewrite (ssn_digit_led p "" i I).
  - assert (Hlater : forall n q,
              In m (scan ssn n q s (S i)) ->
              m_end m = m_start m + 11
              /\ substring (m_start m - i) 11 (String a s) = m_group m
              /\ String.length (m_group m) = 11).
    { intros n q Hin. destruct (IH _ _ _ _ Hin) as (He & Hg & Hl).
      repeat apply conj; [exact He | | exact Hl].
      apply scan_starts in Hin.
      replace (m_start m - i) with (S (m_start m - S i)) by lia.
      exact Hg. }
    destruct skip as [ | n]; [ | apply Hlater].
    destruct (match_at ssn _) as [e | ] eqn:E; [ | apply Hlater].
    intros [<- | Hin]; [ | now apply Hlater in Hin].
    assert (L := ssn_match_length _ _ _ E).
    apply ssn_match_end in E. cbn [m_start m_end m_group].
    rewrite E, Nat.sub_diag. replace (i + 11 - i) with 11 by lia.
    repeat apply conj; [reflexivity | reflexivity | ].
    now apply length_substring_0.
Qed.

(** X5.  Every entry of type ssn that [redact_text] reports locates its
    original in the input: the end offset is the start offset plus
    eleven, and the eleven characters of the input text from the start
    offset are the entry's original. *)
Theorem ssn_entries_locate_original (text marker t : string)
    (l : list entry) (e : entry) :
  redact_text text marker = Redacted t l ->
  In e l ->
  e_type e = "ssn" ->
  e_end e = e_start e + 11
  /\ substring (e_start e) 11 text = e_original e
  /\ String.length (e_original e) = 11.
Proof.
  intros Hr Hin Hty.
  assert (Ht : PyStr.truthy text = true).
  { unfold redact_text in Hr. destruct (PyStr.truthy text); [reflexivity | ].
    discriminate Hr. }
  destruct (@redact_text_entries text marker Ht) as (t' & others & Hr' & Ho).
  rewrite Hr' in Hr. injection Hr as _ <-.
  apply in_app_or in Hin. destruct Hin as [Hin | Hin];
    [ | now apply Ho in Hin].
  apply in_map_iff in Hin. destruct Hin as (m & <- & Hm).
  unfold finditer in Hm. apply scan_ssn_located in Hm.
  destruct Hm as (He & Hg & Hl). rewrite Nat.sub_0_r in Hg.
  cbn [mk_entry e_start e_end e_original].
  repeat apply conj; assumption.
Qed.
End RedactionMore.

(** ** Keywords *)

Example extract_keywords_sample :
  Keywords.extract_keywords
    "The court found the evidence; the Court's EVIDENCE was found, e-mail abc123 it." 3
  = ["court"; "found"; "evidence"; "mail"].
Proof. vm_compute. reflexivity. Qed.

Section KeywordsProperties.
Import Re Keywords.
Local Open Scope nat_scope.
Local Open Scope string_scope.

(** What a greedy repetition consumed: [n] characters of the class. *)
Lemma many_span (cls : ascii -> bool) (k : cursor -> option cursor) :
  forall s min p i e,
    many cls min k p s i = Some e ->
    exists n c,
      min <= n <= String.length s
      /\ PyStr.all cls (PyStr.take n s) = true
      /\ pos c = i + n
      /\ k c = Some e.
Proof.
  induction s as [ | a s IH]; intros min p i e; cbn [many].
  - destruct min; [ | discriminate]. intros H.
    exists 0, (Cursor p "" i). cbn. repeat apply conj; auto.
  - assert (Hstop : match min with
                    | 0 => k (Cursor p (String a s) i)
                    | S _ => None
                    end = Some e ->
                    exists n c,
                      min <= n <= String.length (String a s)
                      /\ PyStr.all cls (PyStr.take n (String a s)) = true
                      /\ pos c = i + n /\ k c = Some e).
    { destruct min; [ | discriminate]. intros H.
      exists 0, (Cursor p (String a s) i). cbn.
      repeat apply conj; auto. lia. }
    destruct (cls a) eqn:Ha; [ | exact Hstop].
    destruct (many cls (Nat.pred min) k (Some a) s (S i)) as [e' | ] eqn:E;
      [ | exact Hstop].
    intros H. injection H as ->.
    destruct (IH _ _ _ _ E) as (n & c & Hn & Hall & Hpos & Hk).
    exists (S n), c. cbn [String.length PyStr.take substring PyStr.all].
    unfold PyStr.take in Hall. rewrite Ha, Hall.
    repeat apply conj; auto; lia.
Qed.

(** A match of the word pattern is a non-empty run of letters. *)
Lemma word_match p s i e :
  match_at word_pattern (Cursor p s i) = Some e ->
  exists n,
    1 <= n <= String.length s
    /\ pos e = i + n
    /\ PyStr.all letter (PyStr.take n s) = true.
Proof.
  unfold match_at, word_pattern. cbn [run prev rest pos].
  destruct (at_boundary _); [ | discriminate]. intros H.
  apply many_span in H. destruct H as (n & c & Hn & Hall & Hpos & Hk).
  destruct (at_boundary c); [ | discriminate]. injection Hk as <-.
  exists n. auto.
Qed.

(** Every match the scan reports is a run of letters of the subject. *)
Lemma scan_words :
  forall s skip p i m,
    In m (scan word_pattern skip p s i) ->
    m_group m <> ""
    /\ PyStr.all letter (m_group m) = true
    /\ exists j, substring j (String.length (m_group m)) s = m_group m.
Proof.
  induction s as [ | a s IH]; intros skip p i m; cbn [scan].
  - destruct skip; [ | easy].
    destruct (match_at word_pattern _) as [e | ] eqn:E; [ | easy].
    apply word_match in E. destruct E as (n & Hn & _). cbn in Hn. lia.
  - assert (Hlater : forall n q,
              In m (scan word_pattern n q s (S i)) ->
              m_group m <> ""
              /\ PyStr.all letter (m_group m) = true
              /\ exists j, substring j (String.length (m_group m))
                             (String a s) = m_group m).
    { intros n q Hin. destruct (IH _ _ _ _ Hin) as (Hne & Hall & j & Hj).
      repeat apply conj; auto. now exists (S j). }
    destruct skip as [ | n]; [ | apply Hlater].
    destruct (match_at word_pattern _) as [e | ] eqn:E; [ | apply Hlater].
    intros [<- | Hin]; [ | now apply Hlater in Hin].
    apply word_match in E. destruct E as (n & Hn & Hpos & Hall).
    cbn [m_group]. rewrite Hpos. replace (i + n - i) with n by lia.
    assert (L : String.length (PyStr.take n (String a s)) = n).
    { rewrite length_take. lia. }
    repeat apply conj.
    + intros E. rewrite E in L. cbn in L. lia.
    + exact Hall.
    + exists 0. now rewrite L.
Qed.

Lemma tally_keys word counts k :
  In k (map fst (tally word counts)) <-> k = word \/ In k (map fst counts).
Proof.
  induction counts as [ | [k' n] rest IH]; cbn [tally map fst In].
  - intuition congruence.
  - destruct (String.eqb k' word) eqn:E; cbn [map fst In].
    + apply String.eqb_eq in E. subst. intuition congruence.
    + rewrite IH. intuition congruence.
Qed.

Lemma tally_NoDup word counts :
  NoDup (map fst counts) -> NoDup (map fst (tally word counts)).
Proof.
  induction counts as [ | [k n] rest IH]; cbn [tally map fst]; intros H.
  - repeat constructor. easy.
  - inversion H as [ | ? ? Hk Hr]; subst.
    destruct (String.eqb k word) eqn:E; cbn [map fst].
    + now constructor.
    + constructor; [ | now apply IH].
      rewrite tally_keys. intros [-> | Hin]; [ | contradiction].
      now rewrite String.eqb_refl in E.
Qed.

Lemma Counter_keys words k :
  In k (map fst (Counter words)) <-> In k words.
Proof.
  unfold Counter.
  assert (G : forall acc,
            In k (map fst (fold_left (fun c w => tally w c) words acc))
            <-> In k words \/ In k (map fst acc)).
  { induction words as [ | w ws IH]; intros acc; cbn [fold_left In].
    - tauto.
    - rewrite IH, tally_keys. intuition congruence. }
  rewrite G. cbn. tauto.
Qed.

Lemma Counter_NoDup words : NoDup (map fst (Counter words)).
Proof.
  unfold Counter.
  assert (G : forall acc,
            NoDup (map fst acc) ->
            NoDup (map fst (fold_left (fun c w => tally w c) words acc))).
  { induction words as [ | w ws IH]; intros acc H; cbn [fold_left]; auto.
    now apply IH, tally_NoDup. }
  apply G. constructor.
Qed.

Lemma place_keys x sorted k :
  In k (map fst (place x sorted)) <-> k = fst x \/ In k (map fst sorted).
Proof.
  induction sorted as [ | y rest IH]; cbn [place map In].
  - intuition congruence.
  - destruct (snd y <=? snd x)%nat; cbn [map In]; [intuition congruence | ].
    rewrite IH. intuition congruence.
Qed.

Lemma place_NoDup x sorted :
  NoDup (map fst sorted) -> ~ In (fst x) (map fst sorted) ->
  NoDup (map fst (place x sorted)).
Proof.
  induction sorted as [ | y rest IH]; cbn [place map]; intros H Hx.
  - repeat constructor. easy.
  - destruct (snd y <=? snd x)%nat; cbn [map].
    + now constructor.
    + inversion H as [ | ? ? Hy Hr]; subst. cbn [In] in Hx.
      constructor; [ | apply IH; tauto].
      rewrite place_keys. intros [E | Hin]; [ | contradiction].
      apply Hx. now left.
Qed.

Lemma sorted_keys counts k :
  In k (map fst (fold_right place [] counts)) <-> In k (map fst counts).
Proof.
  induction counts as [ | x rest IH]; cbn [fold_right map In]; [tauto | ].
  rewrite place_keys, IH. intuition congruence.
Qed.

Lemma sorted_NoDup counts :
  NoDup (map fst counts) -> NoDup (map fst (fold_right place [] counts)).
Proof.
  induction counts as [ | x rest IH]; cbn [fold_right map]; intros H;
    [constructor | ].
  inversion H as [ | ? ? Hx Hr]; subst.
  apply place_NoDup; [now apply IH | now rewrite sorted_keys].
Qed.

Lemma firstn_In {A : Type} (n : nat) (l : list A) (x : A) :
  In x (firstn n l) -> In x l.
Proof.
  revert n. induction l as [ | a l IH]; intros [ | n]; cbn [firstn In];
    try easy.
  intros [-> | H]; [now left | right; now apply (IH n)].
Qed.

Lemma firstn_NoDup {A : Type} (n : nat) (l : list A) :
  NoDup l -> NoDup (firstn n l).
Proof.
  revert n. induction l as [ | a l IH]; intros [ | n] H; cbn [firstn];
    try constructor.
  - inversion H as [ | ? ? Ha Hl]; subst. intros Hin. apply Ha.
    now apply firstn_In in Hin.
  - inversion H; subst. now apply IH.
Qed.

Lemma lower_char_not_upper (c : ascii) :
  Cls.upper (PyStr.lower_char c) = false.
Proof.
  destruct c as [b0 b1 b2 b3 b4 b5 b6 b7].
  destruct b0, b1, b2, b3, b4, b5, b6, b7; reflexivity.
Qed.

Lemma all_both (p q r : ascii -> bool) (s : string) :
  (forall c, p c = true -> q c = true -> r c = true) ->
  PyStr.all p s = true -> PyStr.all q s = true -> PyStr.all r s = true.
Proof.
  intros H. induction s as [ | c s IH]; [reflexivity | ].
  cbn [PyStr.all]. intros Hp Hq. apply andb_prop in Hp, Hq.
  destruct Hp as [Hp1 Hp2], Hq as [Hq1 Hq2].
  now rewrite (H c Hp1 Hq1), IH.
Qed.

(** X6.  [extract_keywords] returns at most twenty keywords, without
    repetition; each is a non-empty word of lower-case ASCII letters
    that occurs in the lower-cased text, has at least [min_length]
    characters and is not a stop word. *)
Theorem extract_keywords_sound (text : string) (min_length : nat) :
  let keywords := extract_keywords text min_length in
  List.length keywords <= 20
  /\ NoDup keywords
  /\ forall k, In k keywords ->
       k <> ""
       /\ min_length <= String.length k
       /\ ~ In k stop_words
       /\ PyStr.all Cls.lower k = true
       /\ exists j, substring j (String.length k) (PyStr.lower text) = k.
Proof.
  unfold extract_keywords.
  destruct (negb (PyStr.truthy text));
    [repeat apply conj; [cbn; lia | constructor | easy] | ].
  unfold most_common. repeat apply conj.
  - rewrite List.length_map, List.length_firstn. lia.
  - rewrite <- firstn_map. apply firstn_NoDup, sorted_NoDup, Counter_NoDup.
  - intros k Hk. rewrite <- firstn_map in Hk. apply firstn_In in Hk.
    rewrite sorted_keys, Counter_keys in Hk. unfold candidates in Hk.
    apply filter_In in Hk. destruct Hk as [Hin Hk].
    apply andb_prop in Hk. destruct Hk as [Hlen Hstop].
    apply Nat.leb_le in Hlen. apply negb_true_iff in Hstop.
    unfold findall in Hin. apply in_map_iff in Hin.
    destruct Hin as (m & <- & Hm). unfold finditer in Hm.
    apply scan_words in Hm. destruct Hm as (Hne & Hall & j & Hj).
    repeat apply conj; auto.
    + intros Hin. unfold str_in in Hstop.
      rewrite <- not_true_iff_false, existsb_exists in Hstop.
      apply Hstop. exists (m_group m). split; [exact Hin | ].
      apply String.eqb_refl.
    + apply (@all_both letter (fun c => negb (Cls.upper c))).
      * intros c Hc Hu. unfold letter in Hc.
        apply negb_true_iff in Hu. rewrite Hu in Hc.
        now rewrite orb_false_r in Hc.
      * exact Hall.
      * rewrite <- Hj. apply all_substring. unfold PyStr.lower.
        apply all_map. intros c. now rewrite lower_char_not_upper.
    + now exists j.
Qed.

Lemma held_tally k word counts :
  held k (tally word counts)
  = held k counts + (if string_dec word k then 1 else 0).
Proof.
  unfold held. induction counts as [ | [k' n] rest IH]; cbn [tally find fst].
  - destruct (string_dec word k) as [-> | N].
    + now rewrite String.eqb_refl.
    + apply String.eqb_neq in N. now rewrite N.
  - destruct (String.eqb k' word) eqn:E; cbn [find fst snd].
    + apply String.eqb_eq in E. subst k'.
      destruct (string_dec word k) as [-> | N].
      * rewrite String.eqb_refl. cbn [snd]. lia.
      * apply String.eqb_neq in N. rewrite N. lia.
    + destruct (String.eqb k' k) eqn:E'; [ | exact IH].
      apply String.eqb_eq in E'. subst k'.
      destruct (string_dec word k) as [-> | N]; [ | cbn [snd]; lia].
      now rewrite String.eqb_refl in E.
Qed.

Lemma held_Counter k words :
  held k (Counter words) = count_occ string_dec words k.
Proof.
  unfold Counter.
  assert (G : forall acc,
            held k (fold_left (fun c w => tally w c) words acc)
            = held k acc + count_occ string_dec words k).
  { induction words as [ | w ws IH]; intros acc; cbn [fold_left count_occ].
    - lia.
    - rewrite IH, held_tally. destruct (string_dec w k); lia. }
  now rewrite G.
Qed.

Lemma held_In k n counts :
  NoDup (map fst counts) -> In (k, n) counts -> held k counts = n.
Proof.
  unfold held. induction counts as [ | [k' n'] rest IH]; cbn [map fst In find];
    [easy | ].
  intros H Hin. inversion H as [ | ? ? Hk Hr]; subst.
  destruct Hin as [E | Hin].
  - injection E as -> ->. now rewrite String.eqb_refl.
  - destruct (String.eqb k' k) eqn:E; [ | now apply IH].
    apply String.eqb_eq in E. subst k'. exfalso. apply Hk.
    apply in_map_iff. now exists (k, n).
Qed.

Lemma place_In x sorted y :
  In y (place x sorted) <-> y = x \/ In y sorted.
Proof.
  induction sorted as [ | z rest IH]; cbn [place In].
  - intuition congruence.
  - destruct (snd z <=? snd x)%nat; cbn [In]; [intuition congruence | ].
    rewrite IH. intuition congruence.
Qed.

Lemma place_sorted x sorted :
  StronglySorted outranks sorted -> StronglySorted outranks (place x sorted).
Proof.
  induction 1 as [ | y rest Hs IH Hy]; cbn [place].
  - repeat constructor.
  - destruct (snd y <=? snd x)%nat eqn:E.
    + apply Nat.leb_le in E. constructor; [now constructor | ].
      constructor; [exact E | ].
      rewrite Forall_forall in *. intros z Hz. specialize (Hy z Hz).
      unfold outranks in *. lia.
    + apply Nat.leb_gt in E. constructor; [exact IH | ].
      rewrite Forall_forall in *. intros z Hz. apply place_In in Hz.
      destruct Hz as [-> | Hz]; [unfold outranks; lia | now apply Hy].
Qed.

Lemma sorted_by_count counts :
  StronglySorted outranks (fold_right place [] counts).
Proof.
  induction counts as [ | x rest IH]; cbn [fold_right];
    [constructor | now apply place_sorted].
Qed.

Lemma sorted_In counts y :
  In y (fold_right place [] counts) <-> In y counts.
Proof.
  induction counts as [ | x rest IH]; cbn [fold_right In]; [tauto | ].
  rewrite place_In, IH. intuition congruence.
Qed.

Lemma sorted_split {A : Type} (R : A -> A -> Prop) (l1 l2 : list A) :
  StronglySorted R (l1 ++ l2) ->
  StronglySorted R l1 /\ forall a b, In a l1 -> In b l2 -> R a b.
Proof.
  induction l1 as [ | x l1 IH]; cbn [app]; intros H.
  - split; [constructor | easy].
  - inversion H as [ | ? ? Hs Hx]; subst. destruct (IH Hs) as [H1 H2].
    rewrite Forall_forall in Hx. split.
    + constructor; [exact H1 | ]. apply Forall_forall. intros y Hy.
      apply Hx, in_or_app. now left.
    + intros a b [<- | Ha] Hb; [ | now apply H2].
      apply Hx, in_or_app. now right.
Qed.

Lemma sorted_map {A B : Type} (R : A -> A -> Prop) (S : B -> B -> Prop)
    (f : A -> B) (l : list A) :
  (forall a b, In a l -> In b l -> R a b -> S (f a) (f b)) ->
  StronglySorted R l -> StronglySorted S (map f l).
Proof.
  intros H Hs. induction Hs as [ | x l Hs IH Hx]; cbn [map];
    [constructor | ].
  constructor.
  - apply IH. intros a b Ha Hb. apply H; now right.
  - rewrite Forall_forall in *. intros y Hy. apply in_map_iff in Hy.
    destruct Hy as (z & <- & Hz). apply H; [now left | now right | ].
    now apply Hx.
Qed.

(** X7.  The keywords come in the order of their number of occurrences
    among the candidate words, most frequent first; a candidate is left
    out only when twenty keywords were returned, and then it occurs no
    more often than any of them. *)
Theorem extract_keywords_ranked (text : string) (min_length : nat) :
  let keywords := extract_keywords text min_length in
  let occurrences k :=
    count_occ string_dec (candidates text min_length) k in
  StronglySorted (fun a b => occurrences b <= occurrences a) keywords
  /\ forall c,
       In c (candidates text min_length) -> ~ In c keywords ->
       List.length keywords = 20
       /\ forall k, In k keywords -> occurrences c <= occurrences k.
Proof.
  unfold extract_keywords.
  destruct (PyStr.truthy text) eqn:Ht; cbn [negb].
  2: { destruct text; [ | discriminate]. split; [constructor | easy]. }
  set (ws := candidates text min_length).
  set (sorted := fold_right place [] (Counter ws)).
  assert (Hcount : forall k n, In (k, n) sorted ->
                               n = count_occ string_dec ws k).
  { intros k n Hin. unfold sorted in Hin. rewrite sorted_In in Hin.
    rewrite <- held_Counter. symmetry.
    apply held_In; [apply Counter_NoDup | exact Hin]. }
  assert (Hs : StronglySorted outranks
                 (firstn 20 sorted ++ skipn 20 sorted)).
  { rewrite firstn_skipn. apply sorted_by_count. }
  apply sorted_split in Hs. destruct Hs as [Hs Hcut].
  unfold most_common. fold sorted. split.
  - apply (sorted_map (R := outranks)); [ | exact Hs].
    intros [k n] [k' n'] Ha Hb Hab. apply firstn_In in Ha, Hb.
    apply Hcount in Ha, Hb. cbn [fst]. unfold outranks in Hab.
    cbn [snd] in Hab. lia.
  - intros c Hc Hout.
    assert (Hin : In c (map fst sorted)).
    { unfold sorted. now rewrite sorted_keys, Counter_keys. }
    apply in_map_iff in Hin. destruct Hin as ([c' n] & Ec & Hin).
    cbn [fst] in Ec. subst c'.
    rewrite <- (firstn_skipn 20 sorted) in Hin. apply in_app_or in Hin.
    destruct Hin as [Hin | Hin].
    { exfalso. apply Hout. apply in_map_iff. now exists (c, n). }
    split.
    + rewrite List.length_map, List.length_firstn.
      destruct (Nat.le_gt_cases (List.length sorted) 20) as [L | L];
        [ | lia].
      rewrite skipn_all2 in Hin by exact L. destruct Hin.
    + intros k Hk. apply in_map_iff in Hk.
      destruct Hk as ([k' m] & Ek & Hk). cbn [fst] in Ek. subst k'.
      specialize (Hcut _ _ Hk Hin). unfold outranks in Hcut.
      cbn [snd] in Hcut.
      apply firstn_In in Hk. apply Hcount in Hk.
      assert (Hin' : In (c, n) sorted).
      { rewrite <- (firstn_skipn 20 sorted). apply in_or_app. now right. }
      apply Hcount in Hin'. lia.
Qed.

End KeywordsProperties.

(** ** Summaries *)

Example re_split_samples :
  Summary.re_split "a.b!?c." = ["a"; "b"; "c"; ""]
  /\ Summary.re_split ".a" = [""; "a"] /\ Summary.re_split "" = [""]
  /\ Summary.re_split "..." = [""; ""].
Proof. repeat split. Qed.

Section SummaryProperties.
Import Summary.
Local Open Scope nat_scope.
Local Open Scope string_scope.

Lemma re_split_no_mark (text : string) :
  Forall (fun piece => PyStr.any mark piece = false) (re_split text).
Proof.
  induction text as [ | c rest IH]; cbn [re_split].
  - repeat constructor.
  - destruct (mark c) eqn:Hc.
    + destruct rest as [ | c' rest']; [now constructor | ].
      destruct (mark c'); [exact IH | now constructor].
    + destruct (re_split rest) as [ | piece pieces].
      * constructor; [ | constructor]. cbn [PyStr.any]. now rewrite Hc.
      * inversion IH; subst. constructor; [ | assumption].
        cbn [PyStr.any]. now rewrite Hc.
Qed.

Lemma any_lstrip (q : ascii -> bool) (s : string) :
  PyStr.any q s = false -> PyStr.any q (lstrip s) = false.
Proof.
  induction s as [ | c s IH]; [easy | ]. cbn [lstrip].
  destruct (Cls.space c); [ | easy].
  cbn [PyStr.any]. intros H. apply orb_false_elim in H. now apply IH.
Qed.

Lemma any_rev_acc (q : ascii -> bool) (s acc : string) :
  PyStr.any q (PyStr.rev_acc s acc) = (PyStr.any q s || PyStr.any q acc)%bool.
Proof.
  revert acc. induction s as [ | c s IH]; intros acc; [reflexivity | ].
  cbn [PyStr.rev_acc PyStr.any]. rewrite IH. cbn [PyStr.any].
  now destruct (q c), (PyStr.any q s), (PyStr.any q acc).
Qed.

Lemma any_rev (q : ascii -> bool) (s : string) :
  PyStr.any q (PyStr.rev s) = PyStr.any q s.
Proof. unfold PyStr.rev. rewrite any_rev_acc. cbn. apply orb_false_r. Qed.

Lemma any_strip (q : ascii -> bool) (s : string) :
  PyStr.any q s = false -> PyStr.any q (strip s) = false.
Proof.
  intros H. unfold strip. rewrite any_rev. apply any_lstrip.
  rewrite any_rev. now apply any_lstrip.
Qed.

Lemma sentences_spec (text s : string) :
  In s (sentences text) ->
  20 < String.length s
  /\ PyStr.any mark s = false
  /\ exists piece, In piece (re_split text) /\ s = strip piece.
Proof.
  unfold sentences. intros H. apply filter_In in H. destruct H as [Hin Hlen].
  apply Nat.ltb_lt in Hlen. apply in_map_iff in Hin.
  destruct Hin as (piece & <- & Hp). repeat apply conj; [exact Hlen | | ].
  - apply any_strip.
    exact (proj1 (Forall_forall _ _) (re_split_no_mark text) _ Hp).
  - now exists piece.
Qed.

(** X8.  For a text of at least a hundred characters (stripped) and one of
    the three summary types, [generate_summary_basic] returns sentences
    joined by a period and a space, with a final period: at most three
    sentences for brief, ten for detailed, five for key_points; each is
    a stripped piece of the text between sentence marks, is longer than
    twenty characters and holds no period, exclamation mark or question
    mark. *)
Theorem summary_is_made_of_sentences (text summary_type : string) :
  100 <= String.length (strip text) ->
  valid_summary_type summary_type = true ->
  exists chosen,
    generate_summary_basic text summary_type = join ". " chosen ++ "."
    /\ List.length chosen <= summary_bound summary_type
    /\ forall s, In s chosen ->
         20 < String.length s
         /\ PyStr.any mark s = false
         /\ exists piece, In piece (re_split text) /\ s = strip piece.
Proof.
  intros Hlen Hty. unfold generate_summary_basic, summary_bound.
  assert (Ht : PyStr.truthy text = true).
  { destruct text; [cbn in Hlen; lia | reflexivity]. }
  rewrite Ht. apply Nat.ltb_ge in Hlen. rewrite Hlen. cbn [negb orb].
  assert (Hsub : forall n l s,
            incl l (sentences text) -> In s (firstn n l) ->
            20 < String.length s
            /\ PyStr.any mark s = false
            /\ exists piece, In piece (re_split text) /\ s = strip piece).
  { intros n l s Hl Hs. apply firstn_In in Hs. now apply sentences_spec, Hl. }
  unfold valid_summary_type, str_in in Hty. cbn [existsb] in Hty.
  destruct (String.eqb summary_type "brief").
  { eexists. split; [reflexivity | ]. split.
    - rewrite List.length_firstn. lia.
    - intros s. apply Hsub, incl_refl. }
  destruct (String.eqb summary_type "detailed").
  { eexists. split; [reflexivity | ]. split.
    - rewrite List.length_firstn. lia.
    - intros s. apply Hsub, incl_refl. }
  destruct (String.eqb summary_type "key_points"); [ | discriminate].
  destruct (filter has_key_term (sentences text)) as [ | k ks] eqn:F.
  - eexists. split; [reflexivity | ]. split.
    + rewrite List.length_firstn. lia.
    + intros s. apply Hsub, incl_refl.
  - eexists. split; [reflexivity | ]. split.
    + rewrite List.length_firstn. lia.
    + intros s. apply Hsub. rewrite <- F. intros x Hx.
      now apply filter_In in Hx.
Qed.

(** X9.  A text of at least a hundred characters in which no sentence is
    longer than twenty characters is summarised, for each of the three
    types, as a single period. *)
Theorem summary_of_short_sentences (text summary_type : string) :
  100 <= String.length (strip text) ->
  valid_summary_type summary_type = true ->
  (forall piece, In piece (re_split text) ->
                 String.length (strip piece) <= 20) ->
  generate_summary_basic text summary_type = ".".
Proof.
  intros Hlen Hty Hshort. unfold generate_summary_basic.
  assert (Ht : PyStr.truthy text = true).
  { destruct text; [cbn in Hlen; lia | reflexivity]. }
  rewrite Ht. apply Nat.ltb_ge in Hlen. rewrite Hlen. cbn [negb orb].
  assert (E : sentences text = []).
  { unfold sentences. apply filter_none. intros s Hs.
    apply in_map_iff in Hs. destruct Hs as (piece & <- & Hp).
    apply Nat.ltb_ge. now apply Hshort. }
  rewrite E. cbn [filter List.length Nat.min firstn join append].
  unfold valid_summary_type, str_in in Hty. cbn [existsb] in Hty.
  destruct (String.eqb summary_type "brief"); [reflexivity | ].
  destruct (String.eqb summary_type "detailed"); [reflexivity | ].
  destruct (String.eqb summary_type "key_points"); [reflexivity | ].
  discriminate.
Qed.

End SummaryProperties.

(** ** Required fields of a JSON object *)

Section Validation.
Local Open Scope string_scope.

(** X10.  [validate_json_structure] accepts exactly the JSON objects that have
    every required field as a key; for an object that lacks some, the
    message names the first required field that is missing. *)
Theorem validate_json_structure_spec (data : json)
    (required_fields : list string) :
  (fst (validate_json_structure data required_fields) = true
   <-> exists fields,
         data = JObj fields
         /\ forall field, In field required_fields ->
                          assoc field fields <> None)
  /\ (forall fields present field rest,
        data = JObj fields ->
        required_fields = (present ++ field :: rest)%list ->
        (forall p, In p present -> assoc p fields <> None) ->
        assoc field fields = None ->
        validate_json_structure data required_fields
        = (false, "Required field '" ++ field ++ "' is missing")).
Proof.
  assert (M : forall fields required,
            first_missing fields required = None
            <-> forall field, In field required -> assoc field fields <> None).
  { intros fields required.
    induction required as [ | f rest IH]; cbn [first_missing In].
    - split; [intros _ field [] | reflexivity].
    - destruct (assoc f fields) as [v | ] eqn:E.
      + rewrite IH. split.
        * intros H field [<- | Hin]; [congruence | now apply H].
        * intros H field Hin. apply H. now right.
      + split; [discriminate | ]. intros H. now elim (H f (or_introl eq_refl)). }
  split.
  - unfold validate_json_structure. split.
    + destruct data; try discriminate.
      destruct (first_missing fields required_fields) eqn:E;
        [discriminate | ].
      intros _. exists fields. split; [reflexivity | now apply M].
    + intros (fields & -> & H). apply M in H. now rewrite H.
  - intros fields present field rest -> -> Hp Hf.
    unfold validate_json_structure.
    assert (F : first_missing fields (present ++ field :: rest)%list
                = Some field).
    { induction present as [ | p present IH]; cbn [app first_missing].
      - now rewrite Hf.
      - destruct (assoc p fields) eqn:E.
        + apply IH. intros q Hq. apply Hp. now right.
        + now elim (Hp p (or_introl eq_refl)). }
    now rewrite F.
Qed.

End Validation.

(** ** The endpoints, one call at a time *)

(** Running an endpoint body, as in the section of the audit rows. *)
Ltac exec :=
  cbv beta iota zeta delta
    [endpoint bind ret leave get_world modify leave_if require attempt
     log_audit_event create_chain_of_custody_record owned_document
     document_text jsonify error failure
     set_audit_logs set_users set_documents set_disk set_timelines
     set_redactions set_summaries set_chat_analyses] in *;
  cbn [fst snd status payload audit_logs users documents disk timelines
       redactions summaries chat_analyses config negb orb andb] in *.

Ltac not_a_match x :=
  lazymatch x with
  | match _ with _ => _ end => fail
  | ?f _ => not_a_match f
  | _ => idtac
  end.

Ltac branch :=
  match goal with
  | |- context [match ?x with _ => _ end] => not_a_match x; destruct x eqn:?
  end.

Section Behaviour.
Context {platform : Platform} {analyzer : TextAnalyzer}.

(** X11.  The requests that only read (profile, document list, the summaries,
    redactions and timeline of a document, chat history, statistics,
    health check, dashboard, pages) leave the whole state as it was:
    no table, no file and no audit row is written, whatever they
    answer. *)
Theorem read_only_requests_change_nothing ctx req w :
  read_only req = true -> snd (handle ctx req w) = w.
Proof.
  destruct req; try discriminate; intros _; cbn [handle];
    unfold get_profile, list_documents, get_document_summaries,
      get_document_redactions, get_document_timeline, get_chat_history,
      get_analysis_stats, health_check, dashboard_data, page_view;
    exec; repeat (branch; exec); reflexivity.
Qed.

(** X12.  A request that names a document the caller does not own (or that
    does not exist) is answered with an error object of status 404, or
    403 for a deletion by a caller without the role, and changes
    nothing: no row, no file, no audit row.  This holds for get,
    download, update, delete, verify, summarize, redact, timeline,
    transcribe and the three listings of a document. *)
Theorem foreign_document_is_out_of_reach ctx req w uid did :
  document_of req = Some (uid, did) ->
  get_owned_document w did uid = None ->
  (exists code msg,
     fst (handle ctx req w) = error code msg /\ (code = 404 \/ code = 403))
  /\ snd (handle ctx req w) = w.
Proof.
  destruct req; try discriminate; intros E; injection E as -> ->; intros H;
    cbn [handle];
    unfold get_document, download_document, update_document, delete_document,
      verify_document_integrity, summarize_document, redact_document,
      generate_timeline, transcribe_document, get_document_summaries,
      get_document_redactions, get_document_timeline;
    exec; rewrite ?H; repeat (branch; exec);
    (split; [ | reflexivity]); do 2 eexists;
    (split; [reflexivity | ]); (now left) || (now right).
Qed.

(** X13.  The forensic data, the audit logs and the data export answer 403 to
    a caller who is unknown or whose role is neither admin nor
    forensic_analyst, and leave the state unchanged: the refusal itself
    is not audited. *)
Theorem privileged_requests_need_the_role ctx req w uid :
  privileged_only req = Some uid ->
  is_privileged (get_user w uid) = false ->
  (exists msg, fst (handle ctx req w) = error 403 msg)
  /\ snd (handle ctx req w) = w.
Proof.
  destruct req; try discriminate; intros E; injection E as ->; intros H;
    cbn [handle];
    unfold get_forensic_data, get_audit_logs, export_analysis_data;
    exec; rewrite H; exec; (split; [eexists | ]; reflexivity).
Qed.

(** X14.  [login] answers 200 only when a user with the normalised name
    exists, the password passes the check against that user's hash and
    the account is active; the token is then issued for that user's id,
    name and role.  Any other answer carries no token and leaves the
    users table as it was. *)
Theorem login_requires_valid_credentials ctx u p w :
  (status (fst (login ctx u p w)) = 200 ->
   exists user,
     In user (users w)
     /\ u_username user = normalized u
     /\ check_password user (default "" p) = true
     /\ u_is_active user = true
     /\ body_field "access_token" (fst (login ctx u p w))
        = Some (JStr (create_access_token (u_id user)
                        (JObj [("username", JStr (u_username user));
                               ("role", JStr (u_role user))]))))
  /\ (status (fst (login ctx u p w)) <> 200 ->
      users (snd (login ctx u p w)) = users w
      /\ body_field "access_token" (fst (login ctx u p w)) = None).
Proof.
  unfold login, normalized. exec. split.
  - repeat (branch; exec); try discriminate. intros _.
    match goal with
    | H : first _ _ = Some ?x |- _ =>
        exists x; apply find_some in H; destruct H as [Hin Hname]
    end.
    apply String.eqb_eq in Hname.
    repeat apply conj; try assumption; try reflexivity.
    + now destruct (check_password _ _).
    + now destruct (u_is_active _).
  - repeat (branch; exec); try (intros _; split; reflexivity).
    intros H. now elim H.
Qed.

Lemma register_created ctx data w :
  status (fst (register ctx data w)) = 201 ->
  exists pw,
    reg_password data = Some pw
    /\ PyStr.truthy pw = true
    /\ validate_password_strength pw = true
    /\ (forall x, In x (users w) ->
          String.eqb (u_username x) (normalized (reg_username data)) = false)
    /\ (forall x, In x (users w) ->
          String.eqb (u_email x) (normalized (reg_email data)) = false)
    /\ users (snd (register ctx data w))
       = (users w
            ++ [ {| u_id := next_id (map u_id (users w));
                    u_username := normalized (reg_username data);
                    u_email := normalized (reg_email data);
                    u_password_hash :=
                      generate_password_hash (salt ctx) pw;
                    u_role := default "user" (reg_role data);
                    u_is_active := true;
                    u_created_at := Some (utcnow ctx);
                    u_last_login := None |} ])%list.
Proof.
  unfold register, normalized. exec.
  repeat (branch; exec); try discriminate. intros _.
  destruct (reg_password data) as [pw | ]; [ | discriminate].
  cbn [default opt_truthy] in *. exists pw.
  repeat match goal with
         | H : negb _ = false |- _ => apply negb_false_iff in H
         end.
  repeat apply conj; try assumption; try reflexivity.
  all: intros x Hx; apply not_true_iff_false; intros Hx';
    match goal with
    | H : existsb (fun u => String.eqb (?f u) ?n) ?l = false,
      H' : String.eqb (?f x) ?n = true |- _ =>
        rewrite <- not_true_iff_false, existsb_exists in H; apply H;
        now exists x
    end.
Qed.

(** X15.  Registration followed by login.  After a successful registration,
    logging in with the same user name and password succeeds (given
    that the hashing library accepts the hash it just made of that
    password, and that the name is not blank once stripped); the token
    is issued for the new id, the normalised name and the role the
    registration request asked for, user when it named none. *)
Theorem registered_user_can_log_in ctx ctx' data w :
  check_password_hash
    (generate_password_hash (salt ctx) (default "" (reg_password data)))
    (default "" (reg_password data)) = true ->
  PyStr.truthy (normalized (reg_username data)) = true ->
  status (fst (register ctx data w)) = 201 ->
  status (fst (login ctx' (reg_username data) (reg_password data)
                 (snd (register ctx data w)))) = 200
  /\ body_field "access_token"
       (fst (login ctx' (reg_username data) (reg_password data)
               (snd (register ctx data w))))
     = Some (JStr (create_access_token (next_id (map u_id (users w)))
                     (JObj [("username", JStr (normalized (reg_username data)));
                            ("role", JStr (default "user" (reg_role data)))]))).
Proof.
  intros Hhash Hname H201.
  destruct (register_created _ _ _ H201)
    as (pw & Epw & Hpw & _ & Hfresh & _ & Husers).
  rewrite Epw in *. cbn [default] in Hhash.
  set (w' := snd (register ctx data w)) in *. clearbody w'.
  unfold login. fold (normalized (reg_username data)). cbn [default].
  rewrite Hname, Hpw. exec. rewrite Husers.
  unfold first. rewrite find_app_none;
    [ | exact Hfresh | apply String.eqb_refl].
  unfold check_password. cbn [u_password_hash u_is_active].
  rewrite Hhash. exec. split; reflexivity.
Qed.

Lemma upload_row ctx uid f cn desc tags w :
  status (fst (upload_document ctx uid (Some f) cn desc tags w)) = 201 ->
  exists d,
    d_id d = next_id (map d_id (documents w))
    /\ d_user_id d = uid
    /\ d_original_filename d = up_filename f
    /\ d_content_hash d = sha256_hexdigest (up_content f)
    /\ d_file_type d = get_file_type (up_filename f)
    /\ allowed_file (up_filename f) = true
    /\ get_user w uid <> None
    /\ first (fun x => String.eqb (d_content_hash x)
                         (sha256_hexdigest (up_content f))) (documents w)
       = None
    /\ documents (snd (upload_document ctx uid (Some f) cn desc tags w))
       = (documents w ++ [d])%list
    /\ users (snd (upload_document ctx uid (Some f) cn desc tags w)) = users w
    /\ disk (snd (upload_document ctx uid (Some f) cn desc tags w))
       = write_file (d_file_path d)
           {| f_content := up_content f; f_mtime := utcnow ctx |} (disk w).
Proof.
  unfold upload_document. exec.
  repeat (branch; exec); try discriminate.
  intros _. eexists.
  repeat apply conj.
  9: reflexivity.
  all: try reflexivity.
  - match goal with H : negb _ = false |- _ =>
      now apply negb_false_iff in H end.
  - discriminate.
  - assumption.
Qed.

(** X16.  Upload followed by download.  After a successful upload the
    uploader can download the new document: the answer is 200 and sends
    the stored file under the original file name, and that file holds
    the uploaded bytes. *)
Theorem uploaded_file_can_be_downloaded ctx ctx' uid f cn desc tags w :
  status (fst (upload_document ctx uid (Some f) cn desc tags w)) = 201 ->
  let w' := snd (upload_document ctx uid (Some f) cn desc tags w) in
  exists d,
    documents w' = (documents w ++ [d])%list
    /\ fst (download_document ctx' uid (d_id d) w')
       = {| status := 200;
            payload := SendFile (d_file_path d) (up_filename f) |}
    /\ option_map f_content (disk w' (d_file_path d)) = Some (up_content f).
Proof.
  intros H201 w'.
  destruct (upload_row _ _ _ _ _ _ _ H201)
    as (d & Hid & Hown & Hname & Hhash & _ & _ & Hu & _ & Hdocs & Husers
        & Hdisk).
  fold w' in Hdocs, Husers, Hdisk. clearbody w'.
  exists d. split; [exact Hdocs | ].
  assert (Hfile : disk w' (d_file_path d)
                  = Some {| f_content := up_content f;
                            f_mtime := utcnow ctx |})
    by (rewrite Hdisk; apply write_file_same).
  split; [ | now rewrite Hfile].
  unfold download_document. exec.
  unfold get_user in *. rewrite Husers.
  destruct (first _ (users w)) as [u | ]; [ | congruence]. exec.
  unfold get_owned_document. rewrite Hdocs, <- Hown.
  rewrite owned_after_insert by exact Hid. exec.
  rewrite Hfile. exec.
  unfold verify_integrity, calculate_hash. cbn [f_content].
  rewrite Hhash, String.eqb_refl. exec. now rewrite Hname.
Qed.

(** X17.  The two integrity checks agree: in any state a download of a
    document succeeds exactly when the verify endpoint, called for the
    same caller and document, reports [verified = true]. *)
Theorem download_agrees_with_verify ctx ctx' uid did w :
  status (fst (download_document ctx uid did w)) = 200
  <-> body_field "verified" (fst (verify_document_integrity ctx' uid did w))
      = Some (JBool true).
Proof.
  unfold download_document, verify_document_integrity. exec.
  destruct (get_user w uid); exec; [ | easy].
  destruct (get_owned_document w did uid) as [d | ]; exec; [ | easy].
  destruct (disk w (d_file_path d)) as [file | ]; exec; [ | easy].
  unfold verify_integrity, calculate_hash, body_field.
  change (calculate_file_hash (f_content file))
    with (sha256_hexdigest (f_content file)).
  rewrite (String.eqb_sym (sha256_hexdigest (f_content file)) (d_content_hash d)).
  destruct (String.eqb _ _); exec;
    cbn [payload jget assoc String.eqb Ascii.eqb Bool.eqb]; easy.
Qed.

Lemma find_all_false {A : Type} (p : A -> bool) (l : list A) :
  (forall x, In x l -> p x = false) -> find p l = None.
Proof.
  induction l as [ | a l IH]; intros H; [reflexivity | ].
  cbn [find]. rewrite (H a) by now left.
  apply IH. intros x Hx. apply H. now right.
Qed.

(** X18.  After a successful deletion of a document that no summary,
    redaction or timeline row refers to, its file is no longer on disk,
    the documents table is the old one without the rows of that id, and
    get and download answer 404 for that id to every caller. *)
Theorem deleted_document_is_gone ctx uid did w :
  unreferenced did w = true ->
  status (fst (delete_document ctx uid did w)) = 200 ->
  let w' := snd (delete_document ctx uid did w) in
  (exists d,
     get_owned_document w did uid = Some d
     /\ disk w' (d_file_path d) = None
     /\ documents w'
        = filter (fun x => negb (d_id x =? did)) (documents w))
  /\ forall ctx' uid',
       status (fst (get_document ctx' uid' did w')) = 404
       /\ status (fst (download_document ctx' uid' did w')) = 404.
Proof.
  intros _ H200 w'.
  assert (F : exists d,
            get_owned_document w did uid = Some d
            /\ disk w' (d_file_path d) = None
            /\ documents w'
               = filter (fun x => negb (d_id x =? did)) (documents w)
            /\ users w' = users w).
  { subst w'. revert H200. unfold delete_document. exec.
    repeat (branch; exec); try discriminate; intros _.
    all: match goal with
         | H : get_owned_document _ _ _ = Some ?d |- _ =>
             pose proof H as Hd; unfold get_owned_document, first in Hd;
             apply find_some in Hd; destruct Hd as [_ Hd];
             apply andb_prop in Hd; destruct Hd as [Hd _];
             apply Z.eqb_eq in Hd; exists d
         end.
    all: rewrite Hd; repeat apply conj; try reflexivity.
    - unfold remove_file. now rewrite String.eqb_refl.
    - unfold path_exists in *. cbn [disk] in *.
      now destruct (disk w (d_file_path _)). }
  destruct F as (d & Hd & Hdisk & Hdocs & Husers).
  split; [now exists d | ].
  clearbody w'. intros ctx' uid'.
  assert (Hgone : get_owned_document w' did uid' = None).
  { unfold get_owned_document, first. rewrite Hdocs.
    apply find_all_false. intros x Hx. apply filter_In in Hx.
    destruct Hx as [_ Hx]. apply negb_true_iff in Hx. now rewrite Hx. }
  unfold get_document, download_document. exec.
  destruct (get_user w' uid'); exec; [ | now split].
  rewrite Hgone. exec. now split.
Qed.

(** X19.  In a table with unique ids, [update_document] changes of no
    document the id, the owner, the file names, the file path, the
    content hash, the size or the type, whatever fields the request
    body names and whatever the call answers; it touches neither the
    disk nor the users. *)
Theorem update_keeps_file_identity ctx uid did data w :
  NoDup (map d_id (documents w)) ->
  let w' := snd (update_document ctx uid did data w) in
  map file_identity (documents w') = map file_identity (documents w)
  /\ disk w' = disk w
  /\ users w' = users w.
Proof.
  intros Hnd. unfold update_document. exec.
  repeat (branch; exec); repeat apply conj; try reflexivity.
  all: unfold update_document_row; exec; rewrite map_map;
    apply map_ext_in; intros x Hx; cbn [set_metadata d_id];
    destruct (d_id x =? d_id _) eqn:E; [ | reflexivity];
    apply Z.eqb_eq in E;
    match goal with
    | H : get_owned_document _ _ _ = Some ?d |- _ =>
        unfold get_owned_document, first in H; apply find_some in H;
        destruct H as [Hin _];
        rewrite (@key_injective _ d_id _ x d Hnd Hx Hin E)
    end; reflexivity.
Qed.


(** X21.  For a privileged caller and a document that exists, the forensic
    data endpoint always answers 500 and writes nothing, not even the
    audit row of the access: the integrity check it attempts calls
    [os.path.exists] in a module that does not import [os]. *)
Theorem forensic_data_of_a_document_fails ctx uid rid arg_type d w :
  is_privileged (get_user w uid) = true ->
  default "document" arg_type = "document" ->
  first (fun x => d_id x =? rid) (documents w) = Some d ->
  status (fst (get_forensic_data ctx uid rid arg_type w)) = 500
  /\ snd (get_forensic_data ctx uid rid arg_type w) = w.
Proof.
  intros Hp Ht Hd. unfold get_forensic_data. exec.
  rewrite Hp, Ht. cbn [str_in existsb String.eqb Ascii.eqb Bool.eqb orb negb].
  exec. rewrite Hd.
  repeat (branch; exec); split; reflexivity.
Qed.

Lemma analyze_created ctx uid content w :
  status (fst (analyze_chat ctx uid content w)) = 201 ->
  exists text row dict u,
    content = Some text
    /\ get_user w uid = Some u
    /\ (String.length (strip text) <? 5)%nat = false
    /\ (10000 <? Z.of_nat (String.length text)) = false
    /\ first (cached_for ctx (calculate_file_hash (utf8_encode text)) uid)
         (chat_analyses w) = None
    /\ c_content_hash row = calculate_file_hash (utf8_encode text)
    /\ c_user_id row = uid
    /\ c_created_at row = Some (utcnow ctx)
    /\ chat_to_dict row = Ok dict
    /\ chat_analyses (snd (analyze_chat ctx uid content w))
       = (chat_analyses w ++ [row])%list
    /\ users (snd (analyze_chat ctx uid content w)) = users w
    /\ body_field "analysis" (fst (analyze_chat ctx uid content w)) = Some dict.
Proof.
  unfold analyze_chat. exec.
  repeat (branch; exec); try discriminate.
  all: intros _; do 4 eexists; repeat apply conj.
  all: try reflexivity; try eassumption.
  all: reflexivity.
Qed.

(** X22.  Analysis followed by the same analysis.  When a chat analysis
    answered 201, the same content sent again by the same user within
    the hour is answered 200 from the cache, with the same analysis,
    and adds no row to the chat analyses. *)
Theorem repeated_chat_analysis_is_cached ctx ctx' uid content w :
  status (fst (analyze_chat ctx uid content w)) = 201 ->
  utcnow ctx <= utcnow ctx' < utcnow ctx + timedelta_hours 1 ->
  let w' := snd (analyze_chat ctx uid content w) in
  status (fst (analyze_chat ctx' uid content w')) = 200
  /\ body_field "message" (fst (analyze_chat ctx' uid content w'))
     = Some (JStr "Analysis retrieved from cache")
  /\ body_field "analysis" (fst (analyze_chat ctx' uid content w'))
     = body_field "analysis" (fst (analyze_chat ctx uid content w))
  /\ chat_analyses (snd (analyze_chat ctx' uid content w')) = chat_analyses w'.
Proof.
  intros H201 Hclock w'.
  destruct (analyze_created _ _ _ _ H201)
    as (text & row & dict & u & -> & Hu & Hshort & Hlong & Hmiss & Hhash
        & Hown & Hat & Hdict & Hrows & Husers & Hbody).
  rewrite Hbody. fold w' in Hrows, Husers. clearbody w'.
  unfold analyze_chat. exec.
  unfold get_user in *. rewrite Husers, Hu. exec.
  rewrite Hshort, Hlong. exec.
  fold (cached_for ctx' (calculate_file_hash (utf8_encode text)) uid).
  rewrite Hrows. unfold first in *. rewrite find_app_none; cycle 1.
  - intros x Hx. assert (Hx' := find_none _ _ Hmiss x Hx).
    unfold cached_for in *.
    destruct (String.eqb _ _); [ | reflexivity].
    destruct (c_user_id x =? uid); [ | reflexivity].
    destruct (c_created_at x) as [t | ]; [ | reflexivity].
    cbn [andb] in *. apply Z.ltb_ge in Hx'. apply Z.ltb_ge. lia.
  - unfold cached_for. rewrite Hhash, Hown, Hat, String.eqb_refl, Z.eqb_refl.
    cbn [andb]. apply Z.ltb_lt. unfold timedelta_hours in *. lia.
  - exec. rewrite Hdict. exec. repeat apply conj; try reflexivity.
    exact Hrows.
Qed.

End Behaviour.

(** ** What an operation may change *)

Section Steps.
Context {platform : Platform} {analyzer : TextAnalyzer}.
Variable R : World -> World -> Prop.
Hypothesis R_refl : forall w, R w w.
Hypothesis R_trans : forall w1 w2 w3, R w1 w2 -> R w2 w3 -> R w1 w3.

Lemma steps_ret {A : Type} (a : A) : steps R (ret a).
Proof. intros w. apply R_refl. Qed.

Lemma steps_leave {A : Type} (r : Response) : steps R (@leave A r).
Proof. intros w. apply R_refl. Qed.

Lemma steps_get_world : steps R get_world.
Proof. intros w. apply R_refl. Qed.

Lemma steps_bind {A B : Type} (m : handler A) (k : A -> handler B) :
  steps R m -> (forall a, steps R (k a)) -> steps R (bind m k).
Proof.
  intros Hm Hk w. unfold bind. specialize (Hm w).
  destruct (m w) as [[a | r] w1]; cbn [snd] in *.
  - exact (R_trans Hm (Hk a w1)).
  - exact Hm.
Qed.

Lemma steps_modify (g : World -> World) :
  (forall w, R w (g w)) -> steps R (modify g).
Proof. intros Hg w. apply Hg. Qed.

Lemma steps_leave_if (b : bool) (r : Response) : steps R (leave_if b r).
Proof. destruct b; [apply steps_leave | apply steps_ret]. Qed.

Lemma steps_require {A : Type} (o : option A) (r : Response) :
  steps R (require o r).
Proof. destruct o; [apply steps_ret | apply steps_leave]. Qed.

Lemma steps_attempt {A : Type} (what : string) (x : raising A) :
  steps R (attempt what x).
Proof. destruct x; [apply steps_ret | apply steps_leave]. Qed.

Lemma steps_endpoint (body : handler Response) :
  steps R body -> forall w, R w (snd (endpoint body w)).
Proof.
  intros Hb w. unfold endpoint. specialize (Hb w).
  now destruct (body w) as [[r | r] w'].
Qed.

End Steps.

Lemma same_refl {T : Type} (f : World -> T) w : same f w w.
Proof. reflexivity. Qed.

Lemma same_trans {T : Type} (f : World -> T) w1 w2 w3 :
  same f w1 w2 -> same f w2 w3 -> same f w1 w3.
Proof. unfold same. congruence. Qed.

(** A body is a sequence of steps: each is handled by the lemma of its
    head, with [refl] and [trans] the two laws of the relation and
    [write] the tactic for a [modify]. *)
Ltac steps_step refl trans write :=
  match goal with
  | |- steps _ (bind _ _) => apply steps_bind; [exact trans | | intros ]
  | |- steps _ (modify _) => apply steps_modify; intros; write
  | |- steps _ (match ?x with _ => _ end) => destruct x
  | |- steps _ (let _ := _ in _) => cbv zeta
  | |- steps _ (ret _) => apply steps_ret; exact refl
  | |- steps _ (leave _) => apply steps_leave; exact refl
  | |- steps _ get_world => apply steps_get_world; exact refl
  | |- steps _ (leave_if _ _) => apply steps_leave_if; exact refl
  | |- steps _ (require _ _) => apply steps_require; exact refl
  | |- steps _ (attempt _ _) => apply steps_attempt; exact refl
  end.

Ltac steps_body refl trans write :=
  apply steps_endpoint;
  unfold owned_document, document_text, upsert_summary,
    create_chain_of_custody_record, log_audit_event;
  cbv zeta; repeat steps_step refl trans write.

Ltac unfold_endpoints :=
  unfold register, login, logout, get_profile, change_password,
    upload_document, list_documents, get_document, download_document,
    update_document, delete_document, verify_document_integrity,
    summarize_document, redact_document, generate_timeline,
    transcribe_document, get_document_summaries, get_document_redactions,
    get_document_timeline, analyze_chat, get_forensic_data, get_audit_logs,
    get_chat_history, get_analysis_stats, export_analysis_data,
    health_check, dashboard_data, page_view.

Ltac same_write :=
  unfold same, update_user, update_document_row;
  repeat match goal with
         | |- context [if ?b then _ else _] => destruct b
         end; reflexivity.

Section Frames.
Context {platform : Platform} {analyzer : TextAnalyzer}.

Lemma handle_frame ctx req w t :
  ~ In t (writes req) -> unchanged t w (snd (handle ctx req w)).
Proof.
  intros H.
  destruct t, req; cbn [writes In] in H; try (exfalso; tauto); clear H;
    cbn [unchanged handle]; unfold_endpoints;
    match goal with
    | |- same ?f _ _ =>
        steps_body (@same_refl _ f) (@same_trans _ f) same_write
    end.
Qed.

(** X23.  Every operation leaves unchanged each part of the state that is not
    in its list [writes]: the configuration is never changed, the users
    only by register, login and change password, the disk only by
    upload and delete, the documents only by upload, update, delete and
    summarize, and so on.  A deletion writes the documents and the disk
    only: it removes no summary, redaction or timeline row. *)
Theorem operations_write_only_their_tables ctx req w t :
  ~ In t (writes req) -> unchanged t w (snd (handle ctx req w)).
Proof. apply handle_frame. Qed.

Lemma logged_refl ctx w : logged ctx w w.
Proof.
  split; [ | easy]. exists []. split; [now rewrite app_nil_r | constructor].
Qed.

Lemma logged_trans ctx w1 w2 w3 :
  logged ctx w1 w2 -> logged ctx w2 w3 -> logged ctx w1 w3.
Proof.
  intros [(l1 & E1 & F1) N1] [(l2 & E2 & F2) N2]. split; [ | auto].
  exists (l1 ++ l2)%list. split.
  - now rewrite E2, E1, app_assoc.
  - apply Forall_app. now split.
Qed.

Lemma sorted_snoc (l : list Z) :
  StronglySorted Z.lt l -> StronglySorted Z.lt (l ++ [next_id l]).
Proof.
  intros H. assert (B : Forall (fun x => x < next_id l) l).
  { apply Forall_forall. intros x Hx. now apply next_id_fresh. }
  revert B. generalize (next_id l) as n. 
  induction H as [ | a l Hs IH Ha]; intros n B; cbn [app].
  - repeat constructor.
  - inversion B as [ | ? ? Han Bl]; subst. constructor.
    + now apply IH.
    + apply Forall_app. split; [exact Ha | now constructor].
Qed.

Lemma logged_same ctx w w' :
  audit_logs w' = audit_logs w -> logged ctx w w'.
Proof.
  intros E. split.
  - exists []. split; [now rewrite app_nil_r | constructor].
  - unfold numbered. now rewrite E.
Qed.

Lemma logged_row ctx w action resource_type resource_id user_id details :
  logged ctx w
    (set_audit_logs
       (audit_logs w
          ++ [new_audit_log ctx w action resource_type resource_id user_id
                details])%list w).
Proof.
  split.
  - eexists. split; [reflexivity | ].
    constructor; [ | constructor].
    repeat split. discriminate.
  - unfold numbered. cbn [set_audit_logs audit_logs].
    rewrite map_app. cbn [map new_audit_log a_id]. apply sorted_snoc.
Qed.

Ltac logged_write :=
  first
    [ apply logged_row
    | apply logged_same; unfold update_user, update_document_row;
      repeat match goal with
             | |- context [if ?b then _ else _] => destruct b
             end; reflexivity ].

Lemma handle_logged ctx req w : logged ctx w (snd (handle ctx req w)).
Proof.
  destruct req; cbn [handle]; unfold_endpoints;
    steps_body (logged_refl ctx) (@logged_trans ctx) logged_write.
Qed.

End Frames.

(** ** Invariants of the tables *)

Section Invariants.
Context {platform : Platform} {analyzer : TextAnalyzer}.

Lemma users_step ctx req w :
  let w' := snd (handle ctx req w) in
  users w' = users w
  \/ (exists u,
        users w' = (users w ++ [u])%list
        /\ u_id u = next_id (map u_id (users w))
        /\ (forall x, In x (users w) -> u_username x <> u_username u)
        /\ (forall x, In x (users w) -> u_email x <> u_email u))
  \/ (exists u u',
        In u (users w) /\ account u' = account u
        /\ users w' = replaced u_id u' (users w)).
Proof.
  destruct (in_dec (fun a b : Table => ltac:(decide equality))
              TUsers (writes req)) as [Hin | Hout];
    [ | left; exact (@handle_frame _ _ ctx req w TUsers Hout)].
  destruct req; cbn [writes In] in Hin;
    try (exfalso; clear - Hin; intuition discriminate); clear Hin;
    cbn [handle].
  - (* register *)
    destruct (Z.eq_dec (status (fst (register ctx data w))) 201) as [E | E].
    + right; left.
      destruct (register_created _ _ _ E) as (pw & _ & _ & _ & Hn & He & Hu).
      eexists. split; [exact Hu | ]. cbn [u_id u_username u_email].
      repeat apply conj; [reflexivity | | ].
      * intros x Hx E'. specialize (Hn x Hx). rewrite E' in Hn.
        now rewrite String.eqb_refl in Hn.
      * intros x Hx E'. specialize (He x Hx). rewrite E' in He.
        now rewrite String.eqb_refl in He.
    + left. revert E. unfold register. exec.
      repeat (branch; exec); try reflexivity. intros E. now elim E.
  - (* login *)
    unfold login. exec.
    repeat (branch; exec); try (left; reflexivity).
    right; right.
    match goal with
    | H : first _ _ = Some ?x |- _ =>
        apply find_some in H; destruct H as [Hin _];
        exists x, (set_last_login x (utcnow ctx))
    end.
    repeat apply conj; [exact Hin | reflexivity | reflexivity].
  - (* change_password *)
    unfold change_password. exec.
    repeat (branch; exec); try (left; reflexivity).
    right; right.
    match goal with
    | H : get_user _ _ = Some ?x |- _ =>
        unfold get_user, first in H; apply find_some in H;
        destruct H as [Hin _];
        exists x, (set_password x ctx (default "" new_password))
    end.
    repeat apply conj; [exact Hin | reflexivity | reflexivity].
Qed.

Lemma table_dec (a b : Table) : {a = b} + {a <> b}.
Proof. decide equality. Qed.

Lemma owned_in w did uid d :
  get_owned_document w did uid = Some d ->
  In d (documents w) /\ d_id d = did /\ d_user_id d = uid.
Proof.
  unfold get_owned_document, first. intros H. apply find_some in H.
  destruct H as [Hin H]. apply andb_prop in H. destruct H as [H1 H2].
  apply Z.eqb_eq in H1, H2. auto.
Qed.

Lemma user_in w uid u :
  get_user w uid = Some u -> In u (users w) /\ u_id u = uid.
Proof.
  unfold get_user, first. intros H. apply find_some in H.
  destruct H as [Hin H]. apply Z.eqb_eq in H. auto.
Qed.

Lemma documents_step ctx req w :
  let w' := snd (handle ctx req w) in
  documents w' = documents w
  \/ (exists d,
        documents w' = (documents w ++ [d])%list
        /\ d_id d = next_id (map d_id (documents w))
        /\ (forall x, In x (documents w) ->
              d_content_hash x <> d_content_hash d)
        /\ In (d_user_id d) (map u_id (users w))
        /\ d_file_type d <> "other")
  \/ (exists d d',
        In d (documents w) /\ file_identity d' = file_identity d
        /\ documents w' = replaced d_id d' (documents w))
  \/ (exists p, documents w' = filter p (documents w)).
Proof.
  destruct (in_dec table_dec TDocuments (writes req)) as [Hin | Hout];
    [ | left; exact (@handle_frame _ _ ctx req w TDocuments Hout)].
  destruct req; cbn [writes In] in Hin;
    try (exfalso; clear - Hin; intuition discriminate); clear Hin;
    cbn [handle].
  - (* upload *)
    destruct file as [f | ]; [ | left; unfold upload_document; exec;
                                 repeat (branch; exec); reflexivity].
    destruct (Z.eq_dec (status (fst (upload_document ctx user_id (Some f)
                                       case_number description tags w))) 201)
      as [E | E].
    + right; left.
      destruct (upload_row _ _ _ _ _ _ _ E)
        as (d & Hid & Hown & _ & Hhash & Hty & Hok & Hu & Hnew & Hdocs & _).
      exists d. repeat apply conj; try assumption.
      * intros x Hx E'. assert (N := find_none _ _ Hnew x Hx). cbn in N.
        rewrite E', Hhash, String.eqb_refl in N. discriminate.
      * destruct (get_user w user_id) as [u | ] eqn:Eu; [ | congruence].
        apply user_in in Eu. destruct Eu as [Hin <-]. rewrite Hown.
        now apply in_map.
      * rewrite Hty. now apply allowed_file_known_type.
    + revert E. unfold upload_document. exec.
      repeat (branch; exec); try (left; reflexivity).
      all: try (intros E; now elim E).
      all: intros _; right; left; eexists;
        (repeat apply conj; [reflexivity | reflexivity | | | ]).
      all: try (intros x Hx E';
                match goal with H : first _ _ = None |- _ =>
                  assert (N := find_none _ _ H x Hx) end;
                cbn in N; cbn [d_content_hash] in E';
                rewrite E', String.eqb_refl in N; discriminate).
      all: try (match goal with H : get_user _ _ = Some _ |- _ =>
                  apply user_in in H; destruct H as [Hin <-] end;
                cbn [d_user_id]; now apply in_map).
      all: cbn [d_file_type]; apply allowed_file_known_type;
        match goal with H : negb (allowed_file _) = false |- _ =>
          now apply negb_false_iff in H end.
  - (* update *)
    unfold update_document. exec.
    repeat (branch; exec); try (left; reflexivity).
    all: right; right; left;
      match goal with
      | H : get_owned_document _ _ _ = Some ?x |- _ =>
          apply owned_in in H; destruct H as (Hin & _ & _);
          exists x; eexists
      end;
      (split; [exact Hin | split; [ | unfold update_document_row; exec;
                                      reflexivity]]); reflexivity.
  - (* delete *)
    unfold delete_document. exec.
    repeat (branch; exec); try (left; reflexivity).
    all: right; right; right; eexists; reflexivity.
  - (* summarize *)
    unfold summarize_document, upsert_summary. exec.
    repeat (branch; exec); try (left; reflexivity).
    all: right; right; left;
      match goal with
      | H : get_owned_document _ _ _ = Some ?x |- _ =>
          apply owned_in in H; destruct H as (Hin & _ & _);
          exists x; eexists
      end;
      (split; [exact Hin | split; [ | unfold update_document_row; exec;
                                      reflexivity]]); reflexivity.
Qed.

Lemma summaries_step ctx req w :
  let w' := snd (handle ctx req w) in
  summaries w' = summaries w
  \/ (exists s,
        summaries w' = (summaries w ++ [s])%list
        /\ s_id s = next_id (map s_id (summaries w))
        /\ (forall x, In x (summaries w) -> summary_key x <> summary_key s))
  \/ (exists s s',
        In s (summaries w) /\ s_id s' = s_id s
        /\ summary_key s' = summary_key s
        /\ summaries w' = replaced s_id s' (summaries w)).
Proof.
  assert (Hnew : forall did ty,
            first (fun x => (s_document_id x =? did)
                            && String.eqb (s_summary_type x) ty)%bool
              (summaries w) = None ->
            forall x, In x (summaries w) -> summary_key x <> (did, ty)).
  { intros did ty H x Hx E. assert (N := find_none _ _ H x Hx). cbn in N.
    unfold summary_key in E. injection E as E1 E2.
    now rewrite E1, E2, Z.eqb_refl, String.eqb_refl in N. }
  destruct (in_dec table_dec TSummaries (writes req)) as [Hin | Hout];
    [ | left; exact (@handle_frame _ _ ctx req w TSummaries Hout)].
  destruct req; cbn [writes In] in Hin;
    try (exfalso; clear - Hin; intuition discriminate); clear Hin;
    cbn [handle].
  - unfold summarize_document, upsert_summary. exec.
    repeat (branch; exec); try (left; reflexivity).
    all: try (right; left; eexists;
              repeat apply conj; [reflexivity | reflexivity | ];
              now apply Hnew).
    all: right; right;
      match goal with
      | H : first _ (summaries _) = Some ?x |- _ =>
          apply find_some in H; destruct H as [Hin _]; exists x; eexists
      end;
      (repeat apply conj; [exact Hin | | | reflexivity]); reflexivity.
  - unfold transcribe_document, upsert_summary. exec.
    repeat (branch; exec); try (left; reflexivity).
    all: try (right; left; eexists;
              repeat apply conj; [reflexivity | reflexivity | ];
              now apply Hnew).
    all: right; right;
      match goal with
      | H : first _ (summaries _) = Some ?x |- _ =>
          apply find_some in H; destruct H as [Hin _]; exists x; eexists
      end;
      (repeat apply conj; [exact Hin | | | reflexivity]); reflexivity.
Qed.

(** *** Keys under the three ways a table changes *)

Lemma NoDup_snoc {A K : Type} (key : A -> K) (l : list A) (a : A) :
  NoDup (map key l) -> (forall x, In x l -> key x <> key a) ->
  NoDup (map key (l ++ [a])).
Proof.
  intros Hnd Hnew. rewrite map_app. cbn [map].
  apply NoDup_app. repeat apply conj; auto.
  - repeat constructor. easy.
  - intros k Hk [<- | []]. apply in_map_iff in Hk.
    destruct Hk as (x & E & Hx). exact (Hnew x Hx E).
Qed.

Lemma NoDup_snoc_id {A : Type} (id : A -> Z) (l : list A) (a : A) :
  NoDup (map id l) -> id a = next_id (map id l) ->
  NoDup (map id (l ++ [a])).
Proof.
  intros Hnd Hid. apply NoDup_snoc; [exact Hnd | ].
  intros x Hx E. assert (id x < next_id (map id l))
    by (apply next_id_fresh, in_map, Hx). lia.
Qed.

Lemma map_replaced {A K : Type} (id : A -> Z) (key : A -> K) (l : list A)
    (a a' : A) :
  NoDup (map id l) -> In a l -> id a' = id a -> key a' = key a ->
  map key (replaced id a' l) = map key l.
Proof.
  intros Hnd Hin Hid Hkey. unfold replaced. rewrite map_map.
  apply map_ext_in. intros x Hx.
  destruct (id x =? id a') eqn:E; [ | reflexivity].
  apply Z.eqb_eq in E. rewrite Hid in E.
  now rewrite (@key_injective _ id _ _ _ Hnd Hx Hin E).
Qed.

Lemma NoDup_map_filter {A K : Type} (key : A -> K) (p : A -> bool)
    (l : list A) :
  NoDup (map key l) -> NoDup (map key (filter p l)).
Proof.
  induction l as [ | a l IH]; cbn [map filter]; intros H; [constructor | ].
  inversion H as [ | ? ? Ha Hl]; subst.
  destruct (p a); cbn [map]; [ | now apply IH].
  constructor; [ | now apply IH].
  intros Hin. apply Ha. apply in_map_iff in Hin.
  destruct Hin as (x & E & Hx). apply filter_In in Hx.
  rewrite <- E. apply in_map. tauto.
Qed.

Lemma reaches_invariant (P : World -> Prop) :
  (forall ctx req w, P w -> P (snd (handle ctx req w))) ->
  forall w w', reaches w w' -> P w -> P w'.
Proof.
  intros Hstep w w' Hr Hw. induction Hr as [ | w' ctx req _ IH];
    [exact Hw | now apply Hstep].
Qed.

Lemma users_distinct_step ctx req w :
  users_distinct w -> users_distinct (snd (handle ctx req w)).
Proof.
  intros (Hid & Hname & Hmail). unfold users_distinct.
  destruct (users_step ctx req w)
    as [-> | [(u & -> & Hu & Hn & He) | (u & u' & Hin & Hacc & ->)]].
  - auto.
  - repeat apply conj; [now apply NoDup_snoc_id | | ];
      now apply NoDup_snoc.
  - unfold account in Hacc. injection Hacc as E1 E2 E3.
    rewrite (@map_replaced _ _ u_id u_id _ _ _ Hid Hin E1 E1),
      (@map_replaced _ _ u_id u_username _ _ _ Hid Hin E1 E2),
      (@map_replaced _ _ u_id u_email _ _ _ Hid Hin E1 E3); auto.
Qed.

(** X24.  When no two accounts share an id, a user name or an e-mail address,
    this stays so along any sequence of operations. *)
Theorem accounts_stay_distinct w w' :
  users_distinct w -> reaches w w' -> users_distinct w'.
Proof.
  intros Hw Hr. revert Hw.
  apply (reaches_invariant users_distinct); [ | exact Hr].
  intros; now apply users_distinct_step.
Qed.

Lemma documents_distinct_step ctx req w :
  documents_distinct w -> documents_distinct (snd (handle ctx req w)).
Proof.
  intros (Hid & Hhash). unfold documents_distinct.
  destruct (documents_step ctx req w)
    as [-> | [(d & -> & Hd & Hnew & _) | [(d & d' & Hin & Hfi & ->)
       | (p & ->)]]].
  - auto.
  - split; [now apply NoDup_snoc_id | now apply NoDup_snoc].
  - unfold file_identity in Hfi. injection Hfi as E1 E2 E3 E4 E5 E6 E7 E8.
    rewrite (@map_replaced _ _ d_id d_id _ _ _ Hid Hin E1 E1),
      (@map_replaced _ _ d_id d_content_hash _ _ _ Hid Hin E1 E6); auto.
  - split; now apply NoDup_map_filter.
Qed.

(** X25.  When no two documents share an id or a content hash, this stays so
    along any sequence of operations. *)
Theorem documents_stay_distinct w w' :
  documents_distinct w -> reaches w w' -> documents_distinct w'.
Proof.
  intros Hw Hr. revert Hw.
  apply (reaches_invariant documents_distinct); [ | exact Hr].
  intros; now apply documents_distinct_step.
Qed.

Lemma user_ids_step ctx req w :
  incl (map u_id (users w)) (map u_id (users (snd (handle ctx req w)))).
Proof.
  destruct (users_step ctx req w)
    as [-> | [(u & -> & _) | (u & u' & Hin & Hacc & ->)]].
  - apply incl_refl.
  - rewrite map_app. now apply incl_appl, incl_refl.
  - unfold replaced. rewrite map_map. intros k Hk.
    apply in_map_iff in Hk. destruct Hk as (x & <- & Hx).
    apply in_map_iff. exists x. split; [ | exact Hx].
    destruct (u_id x =? u_id u') eqn:E; [ | reflexivity].
    now apply Z.eqb_eq in E.
Qed.

Lemma owners_registered_step ctx req w :
  owners_registered w -> owners_registered (snd (handle ctx req w)).
Proof.
  intros H d Hd. apply (user_ids_step ctx req w).
  destruct (documents_step ctx req w)
    as [E | [(n & E & _ & _ & Hu & _) | [(a & a' & Hin & Hfi & E)
       | (p & E)]]]; rewrite E in Hd.
  - now apply H.
  - apply in_app_or in Hd. destruct Hd as [Hd | [<- | []]];
      [now apply H | exact Hu].
  - unfold replaced in Hd. apply in_map_iff in Hd.
    destruct Hd as (x & <- & Hx).
    destruct (d_id x =? d_id a'); [ | now apply H].
    unfold file_identity in Hfi. injection Hfi as _ -> _ _ _ _ _ _.
    now apply H.
  - apply filter_In in Hd. now apply H.
Qed.

(** X26.  When every document belongs to a registered user, this stays so
    along any sequence of operations. *)
Theorem owners_stay_registered w w' :
  owners_registered w -> reaches w w' -> owners_registered w'.
Proof.
  intros Hw Hr. revert Hw.
  apply (reaches_invariant owners_registered); [ | exact Hr].
  intros; now apply owners_registered_step.
Qed.

Lemma types_known_step ctx req w :
  types_known w -> types_known (snd (handle ctx req w)).
Proof.
  intros H d Hd.
  destruct (documents_step ctx req w)
    as [E | [(n & E & _ & _ & _ & Hty) | [(a & a' & Hin & Hfi & E)
       | (p & E)]]]; rewrite E in Hd.
  - now apply H.
  - apply in_app_or in Hd. destruct Hd as [Hd | [<- | []]];
      [now apply H | exact Hty].
  - unfold replaced in Hd. apply in_map_iff in Hd.
    destruct Hd as (x & <- & Hx).
    destruct (d_id x =? d_id a'); [ | now apply H].
    unfold file_identity in Hfi. injection Hfi as _ _ _ _ _ _ _ ->.
    now apply H.
  - apply filter_In in Hd. now apply H.
Qed.

(** X27.  When no stored document has the file type other, none ever gets
    it: an upload only stores files whose type is known. *)
Theorem file_types_stay_known w w' :
  types_known w -> reaches w w' -> types_known w'.
Proof.
  intros Hw Hr. revert Hw.
  apply (reaches_invariant types_known); [ | exact Hr].
  intros; now apply types_known_step.
Qed.

Lemma summaries_distinct_step ctx req w :
  summaries_distinct w -> summaries_distinct (snd (handle ctx req w)).
Proof.
  intros (Hid & Hkey). unfold summaries_distinct.
  destruct (summaries_step ctx req w)
    as [-> | [(s & -> & Hs & Hnew) | (s & s' & Hin & E1 & E2 & ->)]].
  - auto.
  - split; [now apply NoDup_snoc_id | now apply NoDup_snoc].
  - rewrite (@map_replaced _ _ s_id s_id _ _ _ Hid Hin E1 E1),
      (@map_replaced _ _ s_id summary_key _ _ _ Hid Hin E1 E2); auto.
Qed.

(** X28.  When the summary rows have distinct ids and no two of them are for
    the same document and type, this stays so along any sequence of
    operations: summarising or transcribing again replaces the row. *)
Theorem summaries_stay_one_per_type w w' :
  summaries_distinct w -> reaches w w' -> summaries_distinct w'.
Proof.
  intros Hw Hr. revert Hw.
  apply (reaches_invariant summaries_distinct); [ | exact Hr].
  intros; now apply summaries_distinct_step.
Qed.

(** X29.  Every audit row an operation adds has a timestamp and carries the
    remote address, the user agent and the session id of the request
    that ran it. *)
Theorem audit_rows_carry_the_request_context ctx req w :
  exists added,
    audit_logs (snd (handle ctx req w)) = (audit_logs w ++ added)%list
    /\ Forall (stamped ctx) added.
Proof. exact (proj1 (handle_logged ctx req w)). Qed.

(** X30.  When the ids of the audit rows go up with the order of the rows,
    this stays so along any sequence of operations; in particular the
    ids stay pairwise distinct. *)
Theorem audit_rows_stay_numbered w w' :
  numbered w -> reaches w w' ->
  numbered w' /\ NoDup (map a_id (audit_logs w')).
Proof.
  intros Hw Hr.
  assert (N : numbered w').
  { revert Hw. apply (reaches_invariant numbered); [ | exact Hr].
    intros ctx req w0. exact (proj2 (handle_logged ctx req w0)). }
  split; [exact N | ].
  unfold numbered in N. induction N as [ | a l _ IH Ha]; constructor; auto.
  intros Hin. rewrite Forall_forall in Ha. specialize (Ha a Hin). lia.
Qed.

End Invariants.

(** ** The further properties on the sample data *)

Section MoreSamples.

#[local] Existing Instance Fixture.test_platform.
#[local] Existing Instance Fixture.test_analyzer.

Import Fixture.

Lemma sanitize_filename_length_witness :
  (String.length
     (sanitize_filename ("../" ++ repeated "x" 260 ++ ".txt")) <= 255)%nat.
Proof. apply sanitize_filename_length. vm_compute. lia. Defined.

Lemma allowed_file_has_type_witness :
  get_file_type "Report.Final.Docx" <> "other"
  /\ In (get_file_type "Report.Final.Docx")
       ["document"; "audio"; "video"; "image"; "spreadsheet"].
Proof. apply allowed_file_has_type. reflexivity. Defined.

Lemma redact_text_plain_witness :
  Redact.redact_text "nothing to hide here" Redact.default_marker
  = Redact.Redacted "nothing to hide here" [].
Proof.
  exact (@redact_text_plain "nothing to hide here" Redact.default_marker
           eq_refl eq_refl).
Defined.

Lemma ssn_entries_locate_original_witness :
  substring 8 11 "memo of 123-45-6789" = "123-45-6789".
Proof.
  assert (H : Redact.redact_text "memo of 123-45-6789" Redact.default_marker
              = Redact.Redacted "memo of ***REDACTED***" [ssn_entry_at 8])
    by (vm_compute; reflexivity).
  exact (proj1 (proj2 (@ssn_entries_locate_original _ _ _ _ (ssn_entry_at 8)
                         H (or_introl eq_refl) eq_refl))).
Defined.

Lemma summary_is_made_of_sentences_witness :
  exists chosen,
    Summary.generate_summary_basic hearing "key_points"
    = Summary.join ". " chosen ++ "."
    /\ (List.length chosen <= 5)%nat.
Proof.
  assert (Hlen : (100 <= String.length (strip hearing))%nat)
    by (vm_compute; lia).
  destruct (@summary_is_made_of_sentences hearing "key_points" Hlen eq_refl)
    as (chosen & Hs & Hb & _).
  exists chosen. split; [exact Hs | exact Hb].
Defined.

Lemma summary_of_short_sentences_witness :
  Summary.generate_summary_basic short_sentences "brief" = ".".
Proof.
  apply summary_of_short_sentences.
  - vm_compute. lia.
  - reflexivity.
  - intros piece Hin. vm_compute in Hin.
    repeat (destruct Hin as [<- | Hin]; [vm_compute; lia | ]).
    destruct Hin.
Defined.

Lemma read_only_requests_change_nothing_witness :
  snd (handle ctx (DashboardData 2) stored) = stored.
Proof. apply read_only_requests_change_nothing. reflexivity. Defined.

Lemma foreign_document_is_out_of_reach_witness :
  (exists code msg,
     fst (handle ctx (DownloadDocument 1 1) stored) = error code msg
     /\ (code = 404 \/ code = 403))
  /\ snd (handle ctx (DownloadDocument 1 1) stored) = stored.
Proof.
  apply (@foreign_document_is_out_of_reach _ _ ctx (DownloadDocument 1 1)
           stored 1 1); reflexivity.
Defined.

Lemma privileged_requests_need_the_role_witness :
  (exists msg, fst (handle ctx (GetAuditLogs 1 no_filter) stored)
               = error 403 msg)
  /\ snd (handle ctx (GetAuditLogs 1 no_filter) stored) = stored.
Proof.
  apply (@privileged_requests_need_the_role _ _ ctx
           (GetAuditLogs 1 no_filter) stored 1); reflexivity.
Defined.

Lemma login_requires_valid_credentials_witness :
  exists user,
    In user (users fresh) /\ u_username user = "alice"
    /\ u_is_active user = true.
Proof.
  assert (H : status (fst (login ctx (Some " Alice") (Some "Wonder1and!")
                             fresh)) = 200)
    by (vm_compute; reflexivity).
  destruct (proj1 (login_requires_valid_credentials ctx (Some " Alice")
                     (Some "Wonder1and!") fresh) H)
    as (user & Hin & Hname & _ & Hact & _).
  exists user. repeat split; assumption.
Defined.

Lemma registered_user_can_log_in_witness :
  status (fst (login ctx (reg_username carol) (reg_password carol)
                 (snd (register ctx carol fresh)))) = 200
  /\ body_field "access_token"
       (fst (login ctx (reg_username carol) (reg_password carol)
               (snd (register ctx carol fresh))))
     = Some (JStr (create_access_token 3
                     (JObj [("username", JStr "carol");
                            ("role", JStr "admin")]))).
Proof.
  apply (@registered_user_can_log_in _ ctx ctx carol fresh).
  - vm_compute. reflexivity.
  - reflexivity.
  - vm_compute. reflexivity.
Defined.

Lemma uploaded_file_can_be_downloaded_witness :
  exists d,
    fst (download_document ctx 1 (d_id d)
           (snd (upload_document ctx 1 (Some memo_upload) None None None
                   fresh)))
    = {| status := 200;
         payload := SendFile (d_file_path d) "memo.txt" |}.
Proof.
  assert (H : status (fst (upload_document ctx 1 (Some memo_upload) None None
                             None fresh)) = 201)
    by (vm_compute; reflexivity).
  destruct (uploaded_file_can_be_downloaded ctx ctx 1 memo_upload None None
              None fresh H) as (d & _ & Hd & _).
  exists d. exact Hd.
Defined.

Lemma deleted_document_is_gone_witness :
  status (fst (get_document ctx 2 1 (snd (delete_document ctx 2 1 stored))))
  = 404.
Proof.
  assert (H : status (fst (delete_document ctx 2 1 stored)) = 200)
    by (vm_compute; reflexivity).
  exact (proj1 (proj2 (deleted_document_is_gone ctx 2 1 stored eq_refl H)
                  ctx 2)).
Defined.

Lemma update_keeps_file_identity_witness :
  map file_identity
    (documents
       (snd (update_document ctx 2 1
               [("description", Some "revised");
                ("content_hash", Some "forged")] stored)))
  = [file_identity memo].
Proof.
  assert (H : NoDup (map d_id (documents stored))).
  { constructor; [intros [] | constructor]. }
  exact (proj1 (update_keeps_file_identity ctx 2 1
                  [("description", Some "revised");
                   ("content_hash", Some "forged")] stored H)).
Defined.


Lemma forensic_data_of_a_document_fails_witness :
  status (fst (get_forensic_data ctx 2 1 None stored)) = 500
  /\ snd (get_forensic_data ctx 2 1 None stored) = stored.
Proof.
  apply (@forensic_data_of_a_document_fails _ ctx 2 1 None memo stored);
    reflexivity.
Defined.

Lemma repeated_chat_analysis_is_cached_witness :
  status (fst (analyze_chat ctx 1 (Some "hello there")
                 (snd (analyze_chat ctx 1 (Some "hello there") fresh))))
  = 200.
Proof.
  assert (H : status (fst (analyze_chat ctx 1 (Some "hello there") fresh))
              = 201)
    by (vm_compute; reflexivity).
  assert (Hclock : utcnow ctx <= utcnow ctx < utcnow ctx + timedelta_hours 1)
    by (vm_compute; split; [discriminate | reflexivity]).
  exact (proj1 (repeated_chat_analysis_is_cached ctx ctx 1
                  (Some "hello there") fresh H Hclock)).
Defined.

Lemma operations_write_only_their_tables_witness :
  disk (snd (handle ctx (Login (Some "alice") (Some "Wonder1and!")) fresh))
  = disk fresh
  /\ summaries (snd (handle ctx (DeleteDocument 2 1) summarized))
     = summaries summarized
  /\ timelines (snd (handle ctx (DeleteDocument 2 1) dated))
     = timelines dated.
Proof.
  split; [ | split].
  - apply (@operations_write_only_their_tables _ _ ctx
             (Login (Some "alice") (Some "Wonder1and!")) fresh TDisk).
    cbn. intuition discriminate.
  - apply (@operations_write_only_their_tables _ _ ctx
             (DeleteDocument 2 1) summarized TSummaries).
    cbn. intuition discriminate.
  - apply (@operations_write_only_their_tables _ _ ctx
             (DeleteDocument 2 1) dated TTimelines).
    cbn. intuition discriminate.
Defined.

Lemma accounts_stay_distinct_witness :
  users_distinct (snd (handle ctx (Register carol) fresh)).
Proof.
  apply (@accounts_stay_distinct _ _ fresh).
  - repeat split; vm_compute;
      repeat (constructor; [cbn; intuition discriminate | ]); constructor.
  - apply reaches_step, reaches_refl.
Defined.

Lemma documents_stay_distinct_witness :
  documents_distinct
    (snd (handle ctx (UploadDocument 1 (Some note_upload) None None None)
            stored)).
Proof.
  apply (@documents_stay_distinct _ _ stored).
  - split; vm_compute;
      repeat (constructor; [cbn; intuition discriminate | ]); constructor.
  - apply reaches_step, reaches_refl.
Defined.

Lemma owners_stay_registered_witness :
  owners_registered
    (snd (handle ctx (UploadDocument 1 (Some note_upload) None None None)
            stored)).
Proof.
  apply (@owners_stay_registered _ _ stored).
  - intros d [<- | []]. right. left. reflexivity.
  - apply reaches_step, reaches_refl.
Defined.

Lemma file_types_stay_known_witness :
  types_known
    (snd (handle ctx (UploadDocument 1 (Some note_upload) None None None)
            stored)).
Proof.
  apply (@file_types_stay_known _ _ stored).
  - intros d [<- | []]. discriminate.
  - apply reaches_step, reaches_refl.
Defined.

Lemma summaries_stay_one_per_type_witness :
  summaries_distinct
    (snd (handle ctx (SummarizeDocument 2 1 None)
            (snd (handle ctx (SummarizeDocument 2 1 None) stored)))).
Proof.
  apply (@summaries_stay_one_per_type _ _ stored).
  - split; constructor.
  - apply reaches_step, reaches_step, reaches_refl.
Defined.

Lemma audit_rows_stay_numbered_witness :
  NoDup
    (map a_id
       (audit_logs
          (snd (handle ctx (DeleteDocument 2 1)
                  (snd (handle ctx (GetDocument 2 1) stored)))))).
Proof.
  apply (@audit_rows_stay_numbered _ _ stored).
  - constructor.
  - apply reaches_step, reaches_step, reaches_refl.
Defined.

End MoreSamples.
